(** * Analisaham news pipeline: incremental collection and content extraction

    A shallow embedding of the collection pipeline (sources.py, store.py,
    db.py, helpers.py, llm.py, scraper.py, commands.py) together with the
    properties the specification states about it.

    Conventions.
    - A Python [str] is a Rocq [string]; [len] is [String.length]; every
      character of the model stands for one Python character.
    - [d.get(k)] on a dictionary used as a struct is a record field of
      type [option _]; [None] stands both for a missing key and for the
      Python value [None] (the code never tells them apart on the paths
      modelled here).
    - Dictionaries used as maps (the watermark state, the object heap) are
      [gmap]s.
    - Calls into third-party libraries (difflib, hashlib, dateutil,
      strptime, requests, newspaper, BeautifulSoup, Playwright, the LLM
      endpoint) are parameters of the sections they are used in. *)

From Stdlib Require Import ZArith QArith String Ascii List Sorted Permutation Lia.
From stdpp Require Import base option list gmap strings pretty sorting.

Local Open Scope string_scope.
Local Open Scope Z_scope.
Local Open Scope list_scope.
#[local] Set Warnings "-register-all".

(* ===================================================================== *)
(** * Feed entries as the adapters hand them to the orchestrator          *)
(* ===================================================================== *)

(** [struct_time] as produced by feedparser: year, month, day, hour,
    minute, second (the remaining members are not read). *)
Record struct_time := StructTime {
  tm_year : Z; tm_mon : Z; tm_mday : Z;
  tm_hour : Z; tm_min : Z; tm_sec : Z
}.

(** One attachment of a disclosure announcement, as built by
    [_parse_idx_data]. *)
Record attachment := Attachment {
  att_url : string;
  att_filename : string;
  is_lampiran : bool
}.

(** A feed entry: a feedparser entry, an element of [_parse_idx_data]'s
    result or an element of [fetch_stockbit_news]'s result.  Only the keys
    that the orchestrator reads are kept. *)
Record raw_entry := RawEntry {
  e_link : option string;              (* entry.get("link") *)
  e_titleurl : option string;          (* entry.get("titleurl") *)
  e_title : option string;             (* entry.get("title") *)
  e_published : option string;         (* entry.get("published") *)
  e_updated : option string;           (* entry.get("updated") *)
  e_created : option string;           (* entry.get("created") *)
  e_published_parsed : option struct_time;
  e_emiten : option string;            (* entry.get("_emiten") *)
  e_attachments : option (list attachment)
}.

#[global] Instance struct_time_eq_dec : EqDecision struct_time.
Proof. solve_decision. Defined.
#[global] Instance attachment_eq_dec : EqDecision attachment.
Proof. solve_decision. Defined.
#[global] Instance raw_entry_eq_dec : EqDecision raw_entry.
Proof. solve_decision. Defined.

(** Python truthiness of an [Optional[str]]: [None] and [""] are falsy. *)
Definition truthy_str (s : option string) : bool :=
  match s with
  | None => false
  | Some s => negb (String.eqb s "")
  end.

(** [a or b] on optional strings. *)
Definition or_str (a b : option string) : option string :=
  if truthy_str a then a else b.

(** [d.get(k, default)] for a string-valued key. *)
Definition get_default (s : option string) (d : string) : string :=
  match s with Some v => v | None => d end.

(* ===================================================================== *)
(** * sources.py: new entry detection                                     *)
(* ===================================================================== *)

Module Sources.

(** The [for entry in entries: if entry.get("link") == last_top_link:
    break; new_entries.append(entry)] loop. *)
Fixpoint scan_until (entries : list raw_entry) (last_top_link : option string)
  : list raw_entry :=
  match entries with
  | [] => []
  | entry :: rest =>
      if decide (e_link entry = last_top_link) then []
      else entry :: scan_until rest last_top_link
  end.

Definition get_new_entries (entries : list raw_entry)
    (last_top_link : option string) : list raw_entry * option string :=
  match entries with
  | [] => ([], None)                                (* if not entries *)
  | top :: _ =>
      let current_top_link := e_link top in
      if negb (truthy_str last_top_link) then       (* if not last_top_link *)
        (entries, current_top_link)
      else if decide (current_top_link = last_top_link) then
        ([], current_top_link)
      else (scan_until entries last_top_link, current_top_link)
  end.

(** [pre] is the part of [entries] strictly before the first entry whose
    link is [w]. *)
Definition prefix_before_first (w : option string)
    (entries pre : list raw_entry) : Prop :=
  ∃ hit post,
    entries = pre ++ hit :: post ∧ e_link hit = w ∧
    Forall (λ e, e_link e ≠ w) pre.

Lemma scan_until_absent entries w :
  Forall (λ e, e_link e ≠ w) entries → scan_until entries w = entries.
Proof.
  induction 1 as [|e es Hne _ IH]; simpl; [done|].
  destruct (decide (e_link e = w)); [contradiction|]. by rewrite IH.
Qed.

Lemma scan_until_present entries w :
  Exists (λ e, e_link e = w) entries →
  prefix_before_first w entries (scan_until entries w).
Proof.
  induction entries as [|e es IH]; intros Hex.
  - by apply Exists_nil in Hex.
  - simpl. destruct (decide (e_link e = w)) as [Heq|Hne].
    + exists e, es. by repeat split.
    + apply Exists_cons in Hex as [Hhd|Htl]; [contradiction|].
      destruct (IH Htl) as (hit & post & Hsplit & Hhit & Hpre).
      exists hit, post. split; [|split; [done|by constructor]].
      simpl. by rewrite <- Hsplit.
Qed.

Lemma prefix_before_first_unique w entries pre1 pre2 :
  prefix_before_first w entries pre1 →
  prefix_before_first w entries pre2 → pre1 = pre2.
Proof.
  intros (h1 & p1 & E1 & L1 & F1). revert entries pre2 E1.
  induction F1 as [|x xs Hx _ IH]; intros entries pre2 E1 (h2 & p2 & E2 & L2 & F2).
  - destruct F2 as [|y ys Hy _]; [done|].
    simpl in *. subst entries. injection E2 as -> _. contradiction.
  - destruct F2 as [|y ys Hy Hys].
    + simpl in *. subst entries. injection E2 as <- _. contradiction.
    + simpl in *. subst entries. injection E2 as -> E2.
      f_equal. apply (IH (xs ++ h1 :: p1)); [done|].
      exists h2, p2. by repeat split.
Qed.


(** Two feeds used in the examples below. *)
Definition entry_with_link (l : string) : raw_entry :=
  {| e_link := Some l; e_titleurl := None; e_title := Some ("title of " ++ l)%string;
     e_published := None; e_updated := None; e_created := None;
     e_published_parsed := None; e_emiten := None; e_attachments := None |}.

Definition feed_E1_E2_E3 : list raw_entry :=
  [entry_with_link "E1"; entry_with_link "E2"; entry_with_link "E3"].

(** The spec's bootstrap scenario: first fetch [E1; E2; E3] with no
    watermark, next fetch [E0; E1; E2; E3] with watermark E1. *)
Example watermark_bootstrap :
  get_new_entries feed_E1_E2_E3 None = (feed_E1_E2_E3, Some "E1") ∧
  get_new_entries (entry_with_link "E0" :: feed_E1_E2_E3) (Some "E1")
    = ([entry_with_link "E0"], Some "E0").
Proof. split; reflexivity. Qed.

(** C1 (as stated) fails on an empty-string watermark: the guard
    [if not last_top_link] is taken for [""] as it is for [None], so a
    watermark equal to the top entry's link [""] does not give zero new
    entries: the whole feed comes back. *)
Lemma get_new_entries_empty_watermark :
  e_link (entry_with_link "") = Some "" ∧
  get_new_entries [entry_with_link ""; entry_with_link "E2"] (Some "")
    = ([entry_with_link ""; entry_with_link "E2"], Some "").
Proof. split; reflexivity. Qed.

(** C1 (amended).  On every non-empty feed the returned watermark is the
    top entry's link, and
    - with no usable watermark ([None] or the empty string) every entry is
      new;
    - with a watermark equal to the top link no entry is new;
    - otherwise the new entries are exactly the entries strictly before the
      first one whose link is the watermark, and all of them when no entry
      carries that link. *)
Theorem get_new_entries_watermark (entries : list raw_entry) (last : option string) :
  entries ≠ [] →
  ∃ top rest, entries = top :: rest ∧
    snd (get_new_entries entries last) = e_link top ∧
    (last = None ∨ last = Some "" → fst (get_new_entries entries last) = entries) ∧
    (last ≠ None → last ≠ Some "" → e_link top = last →
       fst (get_new_entries entries last) = []) ∧
    (last ≠ None → last ≠ Some "" → e_link top ≠ last →
       (Exists (λ e, e_link e = last) entries →
          prefix_before_first last entries (fst (get_new_entries entries last))) ∧
       (Forall (λ e, e_link e ≠ last) entries →
          fst (get_new_entries entries last) = entries)).
Proof.
  intros Hne. destruct entries as [|top rest]; [done|].
  exists top, rest. split; [done|].
  assert (Htruthy : truthy_str last = false ↔ last = None ∨ last = Some "").
  { destruct last as [[|c s]|]; simpl; split; intros H; auto; try done.
    destruct H; done. }
  unfold get_new_entries.
  destruct (truthy_str last) eqn:Ht; simpl negb; cbv iota.
  - assert (Hn : ¬ (last = None ∨ last = Some "")).
    { intros H. apply Htruthy in H. discriminate. }
    destruct (decide (e_link top = last)) as [Heq|Hneq]; simpl.
    + split; [done|]. split; [intros H; by destruct Hn|].
      split; [done|]. intros _ _ Hc. contradiction.
    + split; [done|]. split; [intros H; by destruct Hn|].
      split; [intros _ _ Hc; contradiction|].
      intros _ _ _. split.
      * intros Hex.
        pose proof (scan_until_present (top :: rest) last Hex) as Hp.
        simpl in Hp. destruct (decide (e_link top = last)); done.
      * intros Hall.
        pose proof (scan_until_absent (top :: rest) last Hall) as Hp.
        simpl in Hp. destruct (decide (e_link top = last)); done.
  - assert (Hn : last = None ∨ last = Some "") by (by apply Htruthy).
    simpl. split; [done|]. split; [done|].
    split; intros H1 H2; destruct Hn; contradiction.
Qed.

Lemma get_new_entries_watermark_witness :
  entry_with_link "E0" :: feed_E1_E2_E3 ≠ [] ∧
  ∃ top rest, entry_with_link "E0" :: feed_E1_E2_E3 = top :: rest ∧
    snd (get_new_entries (entry_with_link "E0" :: feed_E1_E2_E3) (Some "E2"))
      = e_link top ∧
    (Some "E2" = None ∨ Some "E2" = Some "" →
       fst (get_new_entries (entry_with_link "E0" :: feed_E1_E2_E3) (Some "E2"))
         = entry_with_link "E0" :: feed_E1_E2_E3) ∧
    (Some "E2" ≠ None → Some "E2" ≠ Some "" → e_link top = Some "E2" →
       fst (get_new_entries (entry_with_link "E0" :: feed_E1_E2_E3) (Some "E2")) = []) ∧
    (Some "E2" ≠ None → Some "E2" ≠ Some "" → e_link top ≠ Some "E2" →
       (Exists (λ e, e_link e = Some "E2") (entry_with_link "E0" :: feed_E1_E2_E3) →
          prefix_before_first (Some "E2") (entry_with_link "E0" :: feed_E1_E2_E3)
            (fst (get_new_entries (entry_with_link "E0" :: feed_E1_E2_E3) (Some "E2")))) ∧
       (Forall (λ e, e_link e ≠ Some "E2") (entry_with_link "E0" :: feed_E1_E2_E3) →
          fst (get_new_entries (entry_with_link "E0" :: feed_E1_E2_E3) (Some "E2"))
            = entry_with_link "E0" :: feed_E1_E2_E3)).
Proof.
  split; [discriminate|].
  apply (get_new_entries_watermark (entry_with_link "E0" :: feed_E1_E2_E3) (Some "E2")).
  discriminate.
Defined.

End Sources.

(* ===================================================================== *)
(** * Third-party libraries the pipeline calls                            *)
(* ===================================================================== *)

(** [str.lower], [str.upper] and [str.isalpha] *)
Class PyStr := {
  str_lower : string → string;
  str_upper : string → string;
  str_isalpha : string → bool
}.

(** [difflib.SequenceMatcher(None, a, b).ratio()].  The ratio is the float
    [2.0 * M / T]; comparing it with the threshold 0.75 (a dyadic number)
    agrees with comparing the exact quotient, so the ratio is kept as a
    rational. *)
Class Difflib := {
  sequence_ratio : string → string → Q
}.

(** [hashlib.md5(url.encode()).hexdigest()[:8]]: eight hexadecimal digits,
    in particular never the empty string. *)
Class Hashlib := {
  md5_hex8 : string → string;
  md5_hex8_nonempty : ∀ u, md5_hex8 u ≠ ""
}.

(** The two [re.sub] calls and the [strip] of [JSONStore.save] that turn a
    title into a file-name fragment. *)
Class FileNames := {
  safe_title : string → string
}.

(* ===================================================================== *)
(** * A small state monad for the stores                                  *)
(* ===================================================================== *)

Definition stateM (S A : Type) : Type := S → A * S.

#[global] Instance stateM_ret {S} : MRet (stateM S) := λ A a s, (a, s).
#[global] Instance stateM_bind {S} : MBind (stateM S) :=
  λ A B f m s, let '(a, s') := m s in f a s'.

Definition get_state {S} : stateM S S := λ s, (s, s).
Definition put_state {S} (s : S) : stateM S unit := λ _, (tt, s).

(** What a call gives back: a value, or an exception that leaves the
    function. *)
Inductive outcome (A : Type) : Type :=
| Returns (a : A)
| Raises.
Arguments Returns {A} a.
Arguments Raises {A}.

(* ===================================================================== *)
(** * Python's datetime, as far as the timestamp normalisation uses it    *)
(* ===================================================================== *)

Module PyTime.

(** A [datetime]: the civil fields and [tzinfo] as the UTC offset in
    seconds ([None] for a naive value). *)
Record datetime := DateTime {
  year : Z; month : Z; day : Z;
  hour : Z; minute : Z; second : Z; microsecond : Z;
  tzinfo : option Z
}.

Definition utc : option Z := Some 0.                 (* timezone.utc *)
Definition wib : option Z := Some (7 * 3600).        (* timezone(timedelta(hours=7)) *)

(** Days between 1970-01-01 and a date of the proleptic Gregorian
    calendar, and back. *)
Definition days_from_civil (y m d : Z) : Z :=
  let y' := if m <=? 2 then y - 1 else y in
  let era := y' / 400 in
  let yoe := y' - era * 400 in
  let mp := (m + 9) mod 12 in
  let doy := (153 * mp + 2) / 5 + d - 1 in
  let doe := yoe * 365 + yoe / 4 - yoe / 100 + doy in
  era * 146097 + doe - 719468.

Definition civil_from_days (z : Z) : Z * Z * Z :=
  let z := z + 719468 in
  let era := z / 146097 in
  let doe := z - era * 146097 in
  let yoe := (doe - doe / 1460 + doe / 36524 - doe / 146096) / 365 in
  let y := yoe + era * 400 in
  let doy := doe - (365 * yoe + yoe / 4 - yoe / 100) in
  let mp := (5 * doy + 2) / 153 in
  let d := doy - (153 * mp + 2) / 5 + 1 in
  let m := if mp <? 10 then mp + 3 else mp - 9 in
  (if m <=? 2 then y + 1 else y, m, d).

(** Microseconds from the epoch to the civil fields read as UTC. *)
Definition civil_us (dt : datetime) : Z :=
  ((days_from_civil (year dt) (month dt) (day dt) * 86400
    + hour dt * 3600 + minute dt * 60 + second dt) * 1000000) + microsecond dt.

(** The instant of an aware datetime, in microseconds from the epoch; a
    naive one is read as UTC. *)
Definition instant (dt : datetime) : Z :=
  civil_us dt - match tzinfo dt with Some off => off * 1000000 | None => 0 end.

(** The UTC datetime of an instant. *)
Definition of_instant (us : Z) : datetime :=
  let secs := us / 1000000 in
  let days := secs / 86400 in
  let sod := secs mod 86400 in
  let '(y, m, d) := civil_from_days days in
  {| year := y; month := m; day := d;
     hour := sod / 3600; minute := (sod / 60) mod 60; second := sod mod 60;
     microsecond := us mod 1000000; tzinfo := utc |}.

(** [datetime.min] and [datetime.max] as instants: years 1 to 9999. *)
Definition MIN_US : Z := -62135596800000000.
Definition MAX_US : Z := 253402300799999999.

Definition in_range (us : Z) : bool := (MIN_US <=? us) && (us <=? MAX_US).

(** [dt.replace(tzinfo=tz)] *)
Definition replace_tzinfo (tz : option Z) (dt : datetime) : datetime :=
  {| year := year dt; month := month dt; day := day dt;
     hour := hour dt; minute := minute dt; second := second dt;
     microsecond := microsecond dt; tzinfo := tz |}.

(** [dt.astimezone(timezone.utc)] of an aware [dt]; OverflowError when the
    result leaves the years 1 to 9999. *)
Definition astimezone_utc (dt : datetime) : outcome datetime :=
  if in_range (instant dt) then Returns (of_instant (instant dt)) else Raises.

(** [datetime.fromtimestamp(ts, tz=timezone.utc)] for the instant [us]
    microseconds after the epoch: ValueError outside the years 1 to 9999.
    An integer [ts], as [calendar.timegm] returns it, is the instant
    [ts * 1000000]. *)
Definition fromtimestamp_utc (us : Z) : outcome datetime :=
  if in_range us then Returns (of_instant us) else Raises.

(** ** Floats, as far as [int(ms) / 1000] and [fromtimestamp] use them *)

(** A finite double: [mantissa * 2 ^ exponent]. *)
Record double := Double { mantissa : Z; exponent : Z }.

(** The integer nearest to [n / d], the even one of two at the same
    distance ([d > 0]). *)
Definition round_half_even (n d : Z) : Z :=
  let q := n / d in
  let r := n mod d in
  if 2 * r <? d then q
  else if d <? 2 * r then q + 1
  else if Z.even q then q else q + 1.

(** [n / (d * 2 ^ e)] as a fraction. *)
Definition scaled (n d e : Z) : Z * Z :=
  if 0 <=? e then (n, d * 2 ^ e) else (n * 2 ^ (- e), d).

(** The exponent of the doubles next to [n / d]: the [e] with
    [2^52 <= n / (d * 2^e) < 2^53]  ([n > 0], [d > 0]). *)
Definition binade (n d : Z) : Z :=
  let e := Z.log2 n - Z.log2 d - 52 in
  if fst (scaled n d e) <? snd (scaled n d e) * 2 ^ 52 then e - 1 else e.

(** The double nearest to [n / d], ties to even: what [n / d] gives for
    two ints, and what a product of doubles is rounded to ([n >= 0],
    [d > 0]; the quotients met here are far from the subnormal range, and
    one too large for a double is far outside the years of [datetime]). *)
Definition nearest (n d : Z) : double :=
  if n =? 0 then Double 0 0
  else
    let e := binade n d in
    Double (round_half_even (fst (scaled n d e)) (snd (scaled n d e))) e.

(** The value of a double as a fraction. *)
Definition value_fraction (x : double) : Z * Z :=
  if 0 <=? exponent x then (mantissa x * 2 ^ exponent x, 1)
  else (mantissa x, 2 ^ (- exponent x)).

(** The instant [fromtimestamp] reads from a float [ts >= 0]: [modf], the
    fraction times [1e6] as a double, rounded half to even, and the carry
    into the seconds. *)
Definition float_instant (ts : double) : Z :=
  let num := fst (value_fraction ts) in
  let den := snd (value_fraction ts) in
  let intpart := num / den in
  let product := nearest ((num mod den) * 1000000) den in
  let us := round_half_even (fst (value_fraction product)) (snd (value_fraction product)) in
  if 1000000 <=? us then (intpart + 1) * 1000000 + (us - 1000000)
  else intpart * 1000000 + us.

(** [datetime.fromtimestamp(ts, tz=timezone.utc)] for a float [ts]. *)
Definition fromtimestamp_float (ts : double) : outcome datetime :=
  fromtimestamp_utc (float_instant ts).

(** [calendar.timegm]: [datetime.date(year, month, 1)] raises outside
    years 1 to 9999 and months 1 to 12; the other members are summed as
    they are. *)
Definition timegm (t : struct_time) : outcome Z :=
  if (1 <=? tm_year t) && (tm_year t <=? 9999) && (1 <=? tm_mon t) && (tm_mon t <=? 12) then
    let days := days_from_civil (tm_year t) (tm_mon t) 1 + tm_mday t - 1 in
    let hours := days * 24 + tm_hour t in
    let minutes := hours * 60 + tm_min t in
    Returns (minutes * 60 + tm_sec t)
  else Raises.

(** Decimal digits of [n], the [width] lowest ones, zero padded. *)
Fixpoint zpad (width : nat) (n : Z) : string :=
  match width with
  | O => ""
  | S w => zpad w (n / 10) +:+ String (ascii_of_nat (48 + Z.to_nat (n mod 10))) ""
  end.

Definition format_offset (off : Z) : string :=
  let a := Z.abs off in
  (if off <? 0 then "-" else "+") +:+ zpad 2 (a / 3600) +:+ ":" +:+ zpad 2 ((a / 60) mod 60)
  +:+ (if a mod 60 =? 0 then "" else ":" +:+ zpad 2 (a mod 60)).

(** [dt.isoformat()] *)
Definition isoformat (dt : datetime) : string :=
  zpad 4 (year dt) +:+ "-" +:+ zpad 2 (month dt) +:+ "-" +:+ zpad 2 (day dt) +:+ "T"
  +:+ zpad 2 (hour dt) +:+ ":" +:+ zpad 2 (minute dt) +:+ ":" +:+ zpad 2 (second dt)
  +:+ (if microsecond dt =? 0 then "" else "." +:+ zpad 6 (microsecond dt))
  +:+ match tzinfo dt with Some off => format_offset off | None => "" end.

End PyTime.

(** The date parsers and the clock.  [dateutil_parse] is [None] when
    [from dateutil.parser import parse] fails; a parser gives [None] where
    it raises ValueError.  [search_epoch raw] is
    [re.search(r"/Date\((\d+)\)/", raw)] followed by [int(group(1))]. *)
Class DateLib := {
  dateutil_parse : option (string → option PyTime.datetime);
  strptime : string → string → option PyTime.datetime;
  str_strip : string → string;
  search_epoch : string → option Z;
  now_utc : PyTime.datetime                   (* datetime.now(timezone.utc) *)
}.

(* ===================================================================== *)
(** * helpers.py: ids and title similarity                                *)
(* ===================================================================== *)

Module Helpers.

Definition SIMILARITY_THRESHOLD : Q := 3 # 4.      (* config.py: 0.75 *)
Definition MIN_CONTENT_LENGTH : nat := 100.        (* config.py *)

Definition generate_id `{Hashlib} (url : string) : string := md5_hex8 url.

Definition similarity `{PyStr} `{Difflib} (a b : string) : Q :=
  sequence_ratio (str_lower a) (str_lower b).

(** [similarity(title, existing) >= SIMILARITY_THRESHOLD] *)
Definition similar `{PyStr} `{Difflib} (title existing : string) : bool :=
  Qle_bool SIMILARITY_THRESHOLD (similarity title existing).


(** The fallback formats of [parse_published_date], in the order tried. *)
Definition formats : list string :=
  [ "%Y-%m-%d %H:%M:%S";
    "%Y-%m-%dT%H:%M:%S%z";
    "%Y-%m-%dT%H:%M:%SZ";
    "%Y-%m-%dT%H:%M:%S";
    "%d %b %Y %H:%M:%S" ].

Fixpoint try_formats `{DateLib} (raw : string) (fmts : list string)
  : option PyTime.datetime :=
  match fmts with
  | [] => None
  | fmt :: rest =>
      match strptime (str_strip raw) fmt with
      | Some dt => Some dt
      | None => try_formats raw rest
      end
  end.

(** The two parsing attempts: dateutil when it is installed, then the
    fallback formats. *)
Definition parse_string `{DateLib} (raw : string) : option PyTime.datetime :=
  let dt := match dateutil_parse with
            | Some parse => parse raw
            | None => None
            end in
  match dt with
  | Some dt => Some dt
  | None => try_formats raw formats
  end.

Definition iso_utc (dt : outcome PyTime.datetime) : outcome string :=
  match dt with
  | Returns dt => Returns (PyTime.isoformat dt)
  | Raises => Raises
  end.

(** The raw string read from the entry. *)
Definition raw_timestamp (entry : raw_entry) (source_type : string) : string :=
  if String.eqb source_type "stockbit_api" then get_default (e_created entry) ""
  else get_default (or_str (e_published entry) (e_updated entry)) "".

Definition parse_published_date `{DateLib} (entry : raw_entry) (source_type : string)
  : outcome string :=
  let raw := raw_timestamp entry source_type in
  match e_published_parsed entry with
  | Some published_parsed =>
      match PyTime.timegm published_parsed with
      | Returns ts => iso_utc (PyTime.fromtimestamp_utc (ts * 1000000))
      | Raises => Raises
      end
  | None =>
      if String.eqb raw "" || String.eqb raw "0000-00-00 00:00:00" then
        Returns (PyTime.isoformat now_utc)
      else
        match (if String.eqb source_type "idx_api" then search_epoch raw else None) with
        | Some ms => iso_utc (PyTime.fromtimestamp_float (PyTime.nearest ms 1000))
        | None =>
            match parse_string raw with
            | None => Returns (PyTime.isoformat now_utc)
            | Some dt =>
                match PyTime.tzinfo dt with
                | Some _ => iso_utc (PyTime.astimezone_utc dt)
                | None =>
                    let dt :=
                      if String.eqb source_type "idx_api"
                         || String.eqb source_type "stockbit_api"
                      then PyTime.replace_tzinfo PyTime.wib dt
                      else PyTime.replace_tzinfo PyTime.utc dt in
                    iso_utc (PyTime.astimezone_utc dt)
                end
            end
        end
  end.

End Helpers.

(* ===================================================================== *)
(** * JSON values, as [json.loads] builds them                            *)
(* ===================================================================== *)

(** A Python float read from JSON: a finite value, kept as the rational it
    denotes, or one of the three special values [json.loads] accepts. *)
Inductive pyfloat :=
| Finite (q : Q)
| PosInf
| NegInf
| NaN.

(** An object keeps its members in the order of the text; [json.loads]
    lets the last of several equal keys win. *)
Inductive json :=
| JNull
| JBool (b : bool)
| JInt (z : Z)
| JFloat (f : pyfloat)
| JStr (s : string)
| JList (items : list json)
| JObj (members : list (string * json)).

(** [d.get(key)] on a decoded object. *)
Definition obj_get (key : string) (members : list (string * json)) : option json :=
  fold_left (λ found member, if String.eqb (fst member) key then Some (snd member) else found)
            members None.

(** [d.get(key, default)] *)
Definition obj_get_default (key : string) (default : json)
    (members : list (string * json)) : json :=
  match obj_get key members with Some v => v | None => default end.

(** Python truthiness. *)
Definition truthy (v : json) : bool :=
  match v with
  | JNull => false
  | JBool b => b
  | JInt z => negb (z =? 0)
  | JFloat (Finite q) => negb (Qeq_bool q 0)
  | JFloat _ => true
  | JStr s => negb (String.eqb s "")
  | JList items => match items with [] => false | _ => true end
  | JObj members => match members with [] => false | _ => true end
  end.

(** [hash(v)] raises TypeError for lists and dictionaries. *)
Definition hashable (v : json) : bool :=
  match v with
  | JList _ | JObj _ => false
  | _ => true
  end.

(* ===================================================================== *)
(** * News records                                                        *)
(* ===================================================================== *)

(** The record dictionary built by [cmd_collect] and kept by the stores.
    [r_id] is the key ["id"] (absent until [save] sets it) and [r_filepath]
    the key ["_filepath"] that [JSONStore._load_all] adds. *)
Record news_record := NewsRecord {
  r_title : string;
  r_url : string;
  r_published_at : string;
  r_source_id : Z;
  r_source_name : string;
  r_source_type : string;
  r_category : string;
  r_sentiment : string;
  r_ticker : option string;
  r_rss_summary : string;
  r_status : string;
  r_sub_category : option json;
  r_id : option string;
  r_filepath : option string
}.

Definition set_id (i : string) (r : news_record) : news_record :=
  {| r_title := r_title r; r_url := r_url r; r_published_at := r_published_at r;
     r_source_id := r_source_id r; r_source_name := r_source_name r;
     r_source_type := r_source_type r; r_category := r_category r;
     r_sentiment := r_sentiment r; r_ticker := r_ticker r;
     r_rss_summary := r_rss_summary r; r_status := r_status r;
     r_sub_category := r_sub_category r;
     r_id := Some i; r_filepath := r_filepath r |}.

Definition set_filepath (fp : option string) (r : news_record) : news_record :=
  {| r_title := r_title r; r_url := r_url r; r_published_at := r_published_at r;
     r_source_id := r_source_id r; r_source_name := r_source_name r;
     r_source_type := r_source_type r; r_category := r_category r;
     r_sentiment := r_sentiment r; r_ticker := r_ticker r;
     r_rss_summary := r_rss_summary r; r_status := r_status r;
     r_sub_category := r_sub_category r;
     r_id := r_id r; r_filepath := fp |}.

(** [{k: v for k, v in record.items() if not k.startswith("_")}]: of the
    keys kept here only ["_filepath"] starts with an underscore. *)
Definition public_keys (r : news_record) : news_record := set_filepath None r.

(** The reject test both stores run before writing. *)
Definition is_duplicate_in (urls : list string) (url : string) : bool :=
  bool_decide (url ∈ urls).

Definition is_redundant_in `{PyStr} `{Difflib} (titles : list string) (title : string)
  : option string :=
  find (Helpers.similar title) titles.

(* ===================================================================== *)
(** * store.py: the JSON file store                                       *)
(* ===================================================================== *)

Module JSONStore.

(** A Python [dict] keyed by news id, in insertion order. *)
Definition pydict := list (string * news_record).

Fixpoint dict_set (k : string) (v : news_record) (d : pydict) : pydict :=
  match d with
  | [] => [(k, v)]
  | (k', v') :: rest =>
      if String.eqb k k' then (k, v) :: rest else (k', v') :: dict_set k v rest
  end.

Fixpoint dict_get (k : string) (d : pydict) : option news_record :=
  match d with
  | [] => None
  | (k', v') :: rest => if String.eqb k k' then Some v' else dict_get k rest
  end.

Definition dict_values (d : pydict) : list news_record := map snd d.

(** The store object: the [*.json] files of [news_dir] in the order
    [sorted(glob)] lists them, each with the record it decodes to ([None]
    when [json.load] raises), and the [_cache] attribute. *)
Record t := Store {
  news_dir : list (string * option news_record);
  _cache : option pydict
}.

(** [open(filepath, "w")] followed by [json.dump]: the file is created at
    its place in the sorted listing, or overwritten. *)
Fixpoint write_file (name : string) (data : option news_record)
    (dir : list (string * option news_record)) : list (string * option news_record) :=
  match dir with
  | [] => [(name, data)]
  | (name', data') :: rest =>
      match String.compare name name' with
      | Eq => (name, data) :: rest
      | Lt => (name, data) :: (name', data') :: rest
      | Gt => (name', data') :: write_file name data rest
      end
  end.

(** One turn of the loop of [_load_all]. *)
Definition load_step (records : pydict) (file : string * option news_record) : pydict :=
  match file with
  | (fp, Some data) =>
      let news_id := get_default (r_id data) "" in
      if String.eqb news_id "" then records
      else dict_set news_id (set_filepath (Some fp) data) records
  | (_, None) => records                         (* except JSONDecodeError: continue *)
  end.

Definition read_dir (dir : list (string * option news_record)) : pydict :=
  fold_left load_step dir [].

Definition _load_all : stateM t pydict := λ self,
  match _cache self with
  | Some records => (records, self)
  | None =>
      let records := read_dir (news_dir self) in
      (records, {| news_dir := news_dir self; _cache := Some records |})
  end.

Definition _invalidate : stateM t unit := λ self,
  (tt, {| news_dir := news_dir self; _cache := None |}).

Definition write (name : string) (data : news_record) : stateM t unit := λ self,
  (tt, {| news_dir := write_file name (Some data) (news_dir self);
          _cache := _cache self |}).

Definition get_all_urls : stateM t (list string) :=
  records ← _load_all; mret (map r_url (dict_values records)).

Definition get_all_titles : stateM t (list string) :=
  records ← _load_all; mret (map r_title (dict_values records)).

Definition is_duplicate_url (url : string) : stateM t bool :=
  urls ← get_all_urls; mret (is_duplicate_in urls url).

Definition is_redundant_title `{PyStr} `{Difflib} (title : string) : stateM t (option string) :=
  titles ← get_all_titles; mret (is_redundant_in titles title).

Definition file_name `{Hashlib} `{FileNames} (record : news_record) : string :=
  (Helpers.generate_id (r_url record) ++ "_" ++ safe_title (r_title record) ++ ".json")%string.

Definition save `{PyStr} `{Difflib} `{Hashlib} `{FileNames}
    (record : news_record) : stateM t bool :=
  let url := r_url record in
  dup ← is_duplicate_url url;
  if (dup : bool) then mret false
  else
    matched ← is_redundant_title (r_title record);
    match matched with
    | Some _ => mret false
    | None =>
        let news_id := Helpers.generate_id url in
        let record := set_id news_id record in
        _ ← write (file_name record) (public_keys record);
        _ ← _invalidate;
        mret true
    end.

Definition get_by_id (news_id : string) : stateM t (option news_record) :=
  all_news ← _load_all;
  match dict_get news_id all_news with
  | Some r => mret (Some r)
  | None =>
      let matches := filter (λ k, String.prefix news_id k = true) (map fst all_news) in
      match matches with
      | [k] => mret (dict_get k all_news)
      | _ => mret None
      end
  end.

(** The cache, when filled, is what reading the directory gives.  Every
    method keeps it so: the directory only changes through [save], which
    invalidates. *)
Definition cache_ok (self : t) : Prop :=
  _cache self = None ∨ _cache self = Some (read_dir (news_dir self)).

Definition stored (self : t) : list news_record := dict_values (read_dir (news_dir self)).

End JSONStore.

(* ===================================================================== *)
(** * db.py: the Supabase store                                           *)
(* ===================================================================== *)

Module SupabaseDB.

(** What [self._client.table("news").insert(...).execute()] does: the
    request goes through, or it raises. *)
Inductive execute_outcome := Executed | Raised.

(** The client object: the remote [news] table, the two caches, and the
    outcomes of the insert requests still to come (the remote side is not
    under the program's control). Reads are taken to succeed. *)
Record t := Db {
  news : list news_record;
  _urls_cache : option (list string);
  _titles_cache : option (list string);
  insert_outcomes : list execute_outcome
}.

Definition get_all_urls : stateM t (list string) := λ self,
  match _urls_cache self with
  | Some urls => (urls, self)
  | None =>
      let urls := map r_url (news self) in
      (urls, {| news := news self; _urls_cache := Some urls;
                _titles_cache := _titles_cache self;
                insert_outcomes := insert_outcomes self |})
  end.

Definition get_all_titles : stateM t (list string) := λ self,
  match _titles_cache self with
  | Some titles => (titles, self)
  | None =>
      let titles := map r_title (news self) in
      (titles, {| news := news self; _urls_cache := _urls_cache self;
                  _titles_cache := Some titles;
                  insert_outcomes := insert_outcomes self |})
  end.

Definition is_duplicate_url (url : string) : stateM t bool :=
  urls ← get_all_urls; mret (is_duplicate_in urls url).

Definition is_redundant_title `{PyStr} `{Difflib} (title : string) : stateM t (option string) :=
  titles ← get_all_titles; mret (is_redundant_in titles title).

(** [_serialize_for_insert]: the keys starting with an underscore go. *)
Definition _serialize_for_insert (record : news_record) : news_record :=
  public_keys record.

(** [table("news").insert(db_record).execute()] *)
Definition insert_execute (db_record : news_record) : stateM t execute_outcome := λ self,
  match insert_outcomes self with
  | Raised :: later =>
      (Raised, {| news := news self; _urls_cache := _urls_cache self;
                  _titles_cache := _titles_cache self; insert_outcomes := later |})
  | outcomes =>
      (Executed, {| news := news self ++ [db_record]; _urls_cache := _urls_cache self;
                    _titles_cache := _titles_cache self; insert_outcomes := tail outcomes |})
  end.

Definition clear_caches : stateM t unit := λ self,
  (tt, {| news := news self; _urls_cache := None; _titles_cache := None;
          insert_outcomes := insert_outcomes self |}).

Definition save `{PyStr} `{Difflib} `{Hashlib} (record : news_record) : stateM t bool :=
  let url := r_url record in
  dup ← is_duplicate_url url;
  if (dup : bool) then mret false
  else
    matched ← is_redundant_title (r_title record);
    match matched with
    | Some _ => mret false
    | None =>
        let news_id := Helpers.generate_id url in
        let record := set_id news_id record in
        let db_record := _serialize_for_insert record in
        outcome ← insert_execute db_record;
        match outcome with
        | Executed => _ ← clear_caches; mret true
        | Raised => mret false                    (* except Exception: return False *)
        end
    end.

Definition get_by_id (news_id : string) : stateM t (option news_record) := λ self,
  match filter (λ r, r_id r = Some news_id) (news self) with
  | r :: _ => (Some r, self)
  | [] =>
      match filter (λ r, String.prefix news_id (get_default (r_id r) "") = true) (news self) with
      | [r] => (Some r, self)
      | _ => (None, self)
      end
  end.

Definition cache_ok (self : t) : Prop :=
  (_urls_cache self = None ∨ _urls_cache self = Some (map r_url (news self))) ∧
  (_titles_cache self = None ∨ _titles_cache self = Some (map r_title (news self))).

End SupabaseDB.

(* ===================================================================== *)
(** * The dedup gate (C2)                                                 *)
(* ===================================================================== *)

Module DedupGate.

(** The reject condition of the gate, against the stored URLs and titles. *)
Definition rejected `{PyStr} `{Difflib} (urls titles : list string) (record : news_record) : Prop :=
  r_url record ∈ urls ∨
  ∃ t, t ∈ titles ∧ (Helpers.SIMILARITY_THRESHOLD <= Helpers.similarity (r_title record) t)%Q.

(** Instances used to run the stores on concrete records: titles compared
    as they are, ratio 1 for equal strings and 0 otherwise, and the URL
    itself (tagged) as its id. *)
Definition plain_pystr : PyStr :=
  {| str_lower := λ s, s; str_upper := λ s, s; str_isalpha := λ _, false |}.

Definition exact_difflib : Difflib :=
  {| sequence_ratio := λ a b, if String.eqb a b then 1%Q else 0%Q |}.

Lemma tagged_nonempty (u : string) : ("id:" ++ u)%string ≠ "".
Proof. discriminate. Qed.

Definition tagged_hashlib : Hashlib :=
  {| md5_hex8 := λ u, ("id:" ++ u)%string; md5_hex8_nonempty := tagged_nonempty |}.

Definition plain_file_names : FileNames := {| safe_title := λ s, s |}.

Definition sample_record (url title published : string) : news_record :=
  {| r_title := title; r_url := url; r_published_at := published;
     r_source_id := 1; r_source_name := "feed"; r_source_type := "rss";
     r_category := "Market"; r_sentiment := "neutral"; r_ticker := None;
     r_rss_summary := ""; r_status := "raw"; r_sub_category := None;
     r_id := None; r_filepath := None |}.

Definition empty_db (outcomes : list SupabaseDB.execute_outcome) : SupabaseDB.t :=
  {| SupabaseDB.news := []; SupabaseDB._urls_cache := None;
     SupabaseDB._titles_cache := None; SupabaseDB.insert_outcomes := outcomes |}.

Definition empty_store : JSONStore.t :=
  {| JSONStore.news_dir := []; JSONStore._cache := None |}.

Section Gate.
Context `{PyStr} `{Difflib} `{Hashlib} `{FileNames}.

Lemma is_duplicate_in_true urls url :
  is_duplicate_in urls url = true ↔ url ∈ urls.
Proof. unfold is_duplicate_in. by rewrite bool_decide_eq_true. Qed.

Lemma similar_true title t :
  Helpers.similar title t = true ↔
  (Helpers.SIMILARITY_THRESHOLD <= Helpers.similarity title t)%Q.
Proof. unfold Helpers.similar. apply Qle_bool_iff. Qed.

Lemma is_redundant_in_Some titles title :
  is_Some (is_redundant_in titles title) ↔
  ∃ t, t ∈ titles ∧ (Helpers.SIMILARITY_THRESHOLD <= Helpers.similarity title t)%Q.
Proof.
  unfold is_redundant_in. split.
  - intros [t Ht]. apply find_some in Ht as [Hin Hsim].
    exists t. split; [by apply list_elem_of_In|by apply similar_true].
  - intros (t & Hin & Hsim).
    destruct (find (Helpers.similar title) titles) as [m|] eqn:Hf; [by eexists|].
    apply list_elem_of_In in Hin.
    pose proof (find_none _ _ Hf t Hin) as Hno.
    apply similar_true in Hsim. congruence.
Qed.

Lemma rejected_dec urls titles record :
  rejected urls titles record ↔
  is_duplicate_in urls (r_url record) = true ∨
  is_Some (is_redundant_in titles (r_title record)).
Proof.
  unfold rejected. by rewrite is_duplicate_in_true, is_redundant_in_Some.
Qed.

(** ** The JSON store *)

Lemma json_load_all_ok self :
  JSONStore.cache_ok self →
  fst (JSONStore._load_all self) = JSONStore.read_dir (JSONStore.news_dir self) ∧
  JSONStore.news_dir (snd (JSONStore._load_all self)) = JSONStore.news_dir self ∧
  JSONStore._cache (snd (JSONStore._load_all self))
    = Some (JSONStore.read_dir (JSONStore.news_dir self)).
Proof.
  intros [Hc|Hc]; unfold JSONStore._load_all; rewrite Hc; simpl; auto.
Qed.

Lemma json_save_run self record :
  JSONStore.cache_ok self →
  let urls := map r_url (JSONStore.stored self) in
  let titles := map r_title (JSONStore.stored self) in
  JSONStore.save record self =
    if is_duplicate_in urls (r_url record)
       || bool_decide (is_Some (is_redundant_in titles (r_title record)))
    then (false, {| JSONStore.news_dir := JSONStore.news_dir self;
                    JSONStore._cache := Some (JSONStore.read_dir (JSONStore.news_dir self)) |})
    else (true, {| JSONStore.news_dir :=
                     JSONStore.write_file (JSONStore.file_name record)
                       (Some (public_keys (set_id (Helpers.generate_id (r_url record)) record)))
                       (JSONStore.news_dir self);
                   JSONStore._cache := None |}).
Proof.
  intros Hok urls titles.
  destruct (json_load_all_ok self Hok) as (Hv & Hd & Hc).
  unfold JSONStore.save, JSONStore.is_duplicate_url, JSONStore.is_redundant_title,
    JSONStore.get_all_urls, JSONStore.get_all_titles, mbind, stateM_bind, mret, stateM_ret.
  destruct (JSONStore._load_all self) as [records self1] eqn:Hl. simpl in Hv, Hd, Hc.
  subst records. fold (JSONStore.stored self). fold urls.
  destruct (is_duplicate_in urls (r_url record)) eqn:Hdup; simpl.
  { f_equal. destruct self1; simpl in *; congruence. }
  unfold JSONStore._load_all at 1. rewrite Hc.
  fold (JSONStore.stored self). fold titles.
  destruct (is_redundant_in titles (r_title record)) as [m|] eqn:Hred; simpl.
  { f_equal. destruct self1; simpl in *; congruence. }
  unfold JSONStore.write, JSONStore._invalidate. simpl.
  rewrite Hd. reflexivity.
Qed.

Lemma json_save_gate self record :
  JSONStore.cache_ok self →
  (fst (JSONStore.save record self) = false ↔
     rejected (map r_url (JSONStore.stored self)) (map r_title (JSONStore.stored self)) record) ∧
  (fst (JSONStore.save record self) = false →
     JSONStore.news_dir (snd (JSONStore.save record self)) = JSONStore.news_dir self) ∧
  (fst (JSONStore.save record self) = true →
     JSONStore.news_dir (snd (JSONStore.save record self)) =
       JSONStore.write_file (JSONStore.file_name record)
         (Some (public_keys (set_id (Helpers.generate_id (r_url record)) record)))
         (JSONStore.news_dir self)) ∧
  JSONStore.cache_ok (snd (JSONStore.save record self)).
Proof.
  intros Hok. rewrite (json_save_run self record Hok), rejected_dec.
  destruct (is_duplicate_in _ _) eqn:Hdup; simpl.
  { repeat split; auto; try done. by right. }
  destruct (bool_decide _) eqn:Hred; simpl.
  - apply bool_decide_eq_true in Hred.
    repeat split; auto; try done. by right.
  - apply bool_decide_eq_false in Hred.
    repeat split; auto; try done.
    + intros [?|?]; done.
    + by left.
Qed.


Lemma write_file_elem name data dir file :
  file ∈ JSONStore.write_file name data dir → file = (name, data) ∨ file ∈ dir.
Proof.
  induction dir as [|[name' data'] rest IH]; simpl.
  - intros Hin. apply list_elem_of_singleton in Hin. by left.
  - destruct (String.compare name name');
      rewrite !elem_of_cons; intros Hin; [| |destruct Hin as [Hin|Hin]]; tauto.
Qed.

Lemma write_file_written name data dir :
  (name, data) ∈ JSONStore.write_file name data dir.
Proof.
  induction dir as [|[name' data'] rest IH]; simpl; [left|].
  destruct (String.compare name name'); [left|left|by right].
Qed.

Lemma dict_get_set i k v d :
  JSONStore.dict_get i (JSONStore.dict_set k v d) =
    if String.eqb i k then Some v else JSONStore.dict_get i d.
Proof.
  induction d as [|[k' v'] rest IH]; simpl.
  - done.
  - destruct (String.eqb k k') eqn:Hkk'; simpl.
    + apply String.eqb_eq in Hkk'. subst k'. by destruct (String.eqb i k).
    + destruct (String.eqb i k') eqn:Hik'; [|done].
      apply String.eqb_eq in Hik'. subst k'.
      by rewrite String.eqb_sym, Hkk'.
Qed.

Lemma dict_get_value i d v :
  JSONStore.dict_get i d = Some v → v ∈ JSONStore.dict_values d.
Proof.
  induction d as [|[k' v'] rest IH]; simpl; [done|].
  destruct (String.eqb i k'); intros Hget.
  - injection Hget as ->. left.
  - right. by apply IH.
Qed.


Lemma load_finds_id i dir acc :
  i ≠ "" →
  is_Some (JSONStore.dict_get i acc) ∨ (∃ name d, (name, Some d) ∈ dir ∧ r_id d = Some i) →
  is_Some (JSONStore.dict_get i (fold_left JSONStore.load_step dir acc)).
Proof.
  intros Hi. revert acc. induction dir as [|[name content] rest IH]; intros acc Hcase; simpl.
  - destruct Hcase as [Hacc|(name & d & Hin & _)]; [done|].
    by apply elem_of_nil in Hin.
  - apply IH. destruct Hcase as [Hacc|(name' & d & Hin & Hid)].
    + left. destruct content as [data|]; simpl; [|done].
      destruct (String.eqb (get_default (r_id data) "") ""); [done|].
      rewrite dict_get_set. by destruct (String.eqb i _).
    + apply elem_of_cons in Hin as [Heq|Hin].
      * injection Heq as <- <-. left. simpl. rewrite Hid. simpl.
        destruct (String.eqb i "") eqn:Hie; [by apply String.eqb_eq in Hie|].
        rewrite dict_get_set, String.eqb_refl. by eexists.
      * right. by exists name', d.
Qed.


(** ** The Supabase store *)

Lemma db_save_run self record :
  SupabaseDB.cache_ok self →
  let urls := map r_url (SupabaseDB.news self) in
  let titles := map r_title (SupabaseDB.news self) in
  let row := SupabaseDB._serialize_for_insert
               (set_id (Helpers.generate_id (r_url record)) record) in
  ∃ self',
    SupabaseDB.save record self = (fst (SupabaseDB.save record self), self') ∧
    SupabaseDB.cache_ok self' ∧
    if is_duplicate_in urls (r_url record)
       || bool_decide (is_Some (is_redundant_in titles (r_title record)))
    then fst (SupabaseDB.save record self) = false ∧
         SupabaseDB.news self' = SupabaseDB.news self ∧
         SupabaseDB.insert_outcomes self' = SupabaseDB.insert_outcomes self
    else match SupabaseDB.insert_outcomes self with
         | SupabaseDB.Raised :: later =>
             fst (SupabaseDB.save record self) = false ∧
             SupabaseDB.news self' = SupabaseDB.news self ∧
             SupabaseDB.insert_outcomes self' = later
         | outcomes =>
             fst (SupabaseDB.save record self) = true ∧
             SupabaseDB.news self' = SupabaseDB.news self ++ [row] ∧
             SupabaseDB.insert_outcomes self' = tail outcomes
         end.
Proof.
  intros [Hu Ht] urls titles row.
  exists (snd (SupabaseDB.save record self)).
  split; [by destruct (SupabaseDB.save record self)|].
  unfold SupabaseDB.save, SupabaseDB.is_duplicate_url, SupabaseDB.is_redundant_title,
    mbind, stateM_bind, mret, stateM_ret.
  assert (Hurls : fst (SupabaseDB.get_all_urls self) = urls ∧
            SupabaseDB.news (snd (SupabaseDB.get_all_urls self)) = SupabaseDB.news self ∧
            SupabaseDB.insert_outcomes (snd (SupabaseDB.get_all_urls self))
              = SupabaseDB.insert_outcomes self ∧
            SupabaseDB.cache_ok (snd (SupabaseDB.get_all_urls self))).
  { unfold SupabaseDB.get_all_urls, SupabaseDB.cache_ok.
    destruct Hu as [Hu|Hu]; rewrite Hu; simpl; rewrite ?Hu; auto 10. }
  destruct (SupabaseDB.get_all_urls self) as [urls' self1].
  simpl in Hurls. destruct Hurls as (-> & Hn1 & Ho1 & [Hu1 Ht1]).
  destruct (is_duplicate_in urls (r_url record)) eqn:Hdup; simpl.
  { by repeat split. }
  assert (Htitles : fst (SupabaseDB.get_all_titles self1) = titles ∧
            SupabaseDB.news (snd (SupabaseDB.get_all_titles self1)) = SupabaseDB.news self ∧
            SupabaseDB.insert_outcomes (snd (SupabaseDB.get_all_titles self1))
              = SupabaseDB.insert_outcomes self ∧
            SupabaseDB.cache_ok (snd (SupabaseDB.get_all_titles self1))).
  { unfold SupabaseDB.get_all_titles, SupabaseDB.cache_ok.
    destruct Ht1 as [Ht1|Ht1]; rewrite Ht1; simpl; rewrite ?Ht1, ?Hn1 in *; auto 10. }
  destruct (SupabaseDB.get_all_titles self1) as [titles' self2].
  simpl in Htitles. destruct Htitles as (-> & Hn2 & Ho2 & Hok2).
  destruct (is_redundant_in titles (r_title record)) as [m|] eqn:Hred; simpl.
  { split; [done|by repeat split]. }
  unfold SupabaseDB.insert_execute. rewrite Ho2.
  destruct Hok2 as [Ha Hb].
  destruct (SupabaseDB.insert_outcomes self) as [|[|] later]; simpl; rewrite ?Hn2;
    (split; [|by repeat split]); split; simpl; rewrite <- ?Hn2; auto.
Qed.

Lemma db_save_gate self record :
  SupabaseDB.cache_ok self →
  (fst (SupabaseDB.save record self) = false ↔
     rejected (map r_url (SupabaseDB.news self)) (map r_title (SupabaseDB.news self)) record ∨
     head (SupabaseDB.insert_outcomes self) = Some SupabaseDB.Raised) ∧
  (fst (SupabaseDB.save record self) = false →
     SupabaseDB.news (snd (SupabaseDB.save record self)) = SupabaseDB.news self) ∧
  (fst (SupabaseDB.save record self) = true →
     SupabaseDB.news (snd (SupabaseDB.save record self)) =
       SupabaseDB.news self ++
         [SupabaseDB._serialize_for_insert
            (set_id (Helpers.generate_id (r_url record)) record)]) ∧
  SupabaseDB.cache_ok (snd (SupabaseDB.save record self)).
Proof.
  intros Hok. destruct (db_save_run self record Hok) as (self' & Hrun & Hok' & Hcases).
  assert (Hsnd : snd (SupabaseDB.save record self) = self') by (by rewrite Hrun).
  rewrite Hsnd, rejected_dec. clear Hrun Hsnd.
  destruct (is_duplicate_in _ _) eqn:Hdup; simpl in Hcases.
  { destruct Hcases as (-> & Hn & _).
    split; [|split; [by intros|split; [by intros|done]]].
    split; [by left; left|done]. }
  destruct (bool_decide _) eqn:Hred; simpl in Hcases.
  { destruct Hcases as (-> & Hn & _). apply bool_decide_eq_true in Hred.
    split; [|split; [by intros|split; [by intros|done]]].
    split; [by left; right|done]. }
  apply bool_decide_eq_false in Hred.
  destruct (SupabaseDB.insert_outcomes self) as [|[|] later];
    destruct Hcases as (-> & Hn & _);
    (split; [|split; [by intros|split; [by intros|done]]]); simpl.
  - split; [done|]. intros [[?|?]|?]; done.
  - split; [done|]. intros [[?|?]|?]; done.
  - split; [by right|done].
Qed.




End Gate.




End DedupGate.

(* ===================================================================== *)
(** * Timestamp normalisation (C3)                                        *)
(* ===================================================================== *)

Module Timestamps.

(** ** A reference parser for the fixed-width ISO layouts

    Used to run [parse_published_date] on concrete entries: it reads
    [YYYY-MM-DD HH:MM:SS], [YYYY-MM-DDTHH:MM:SS] and the latter followed by
    [Z] or [+HH:MM] / [-HH:MM], as [datetime.strptime] does with the
    corresponding formats, and nothing else. *)

Definition digit_value (c : ascii) : option Z :=
  let n := Z.of_nat (nat_of_ascii c) in
  if (48 <=? n) && (n <=? 57) then Some (n - 48) else None.

Fixpoint number_from (s : string) (acc : Z) : option Z :=
  match s with
  | EmptyString => Some acc
  | String c rest => d ← digit_value c; number_from rest (acc * 10 + d)
  end.

(** The decimal number written at [start], [len] digits long. *)
Definition field (s : string) (start len : nat) : option Z :=
  let t := substring start len s in
  if Nat.eqb (String.length t) len && negb (Nat.eqb len 0) then number_from t 0 else None.

Definition char_at (s : string) (i : nat) (c : string) : bool :=
  String.eqb (substring i 1 s) c.

Definition civil_fields (s : string) (sep : string) (tz : option Z)
  : option PyTime.datetime :=
  if char_at s 4 "-" && char_at s 7 "-" && char_at s 10 sep
     && char_at s 13 ":" && char_at s 16 ":" then
    y ← field s 0 4; m ← field s 5 2; d ← field s 8 2;
    h ← field s 11 2; mi ← field s 14 2; sec ← field s 17 2;
    if (1 <=? m) && (m <=? 12) && (1 <=? d) && (d <=? 31)
       && (h <=? 23) && (mi <=? 59) && (sec <=? 59) && (1 <=? y)
    then Some (PyTime.DateTime y m d h mi sec 0 tz) else None
  else None.

Definition offset_suffix (s : string) : option Z :=
  if Nat.eqb (String.length s) 20 && char_at s 19 "Z" then Some 0
  else if Nat.eqb (String.length s) 25 && char_at s 22 ":" then
    hh ← field s 20 2; mm ← field s 23 2;
    if char_at s 19 "+" then Some (hh * 3600 + mm * 60)
    else if char_at s 19 "-" then Some (- (hh * 3600 + mm * 60))
    else None
  else None.

Definition iso_strptime (s fmt : string) : option PyTime.datetime :=
  if String.eqb fmt "%Y-%m-%d %H:%M:%S" then
    if Nat.eqb (String.length s) 19 then civil_fields s " " None else None
  else if String.eqb fmt "%Y-%m-%dT%H:%M:%S%z" then
    off ← offset_suffix s; civil_fields s "T" (Some off)
  else if String.eqb fmt "%Y-%m-%dT%H:%M:%SZ" then
    if Nat.eqb (String.length s) 20 && char_at s 19 "Z" then civil_fields s "T" None else None
  else if String.eqb fmt "%Y-%m-%dT%H:%M:%S" then
    if Nat.eqb (String.length s) 19 then civil_fields s "T" None else None
  else None.

(** The offset written at [i]: [+HH:MM] or [-HH:MM]. *)
Definition offset_at (s : string) (i : nat) : option Z :=
  if char_at s (i + 3) ":" then
    hh ← field s (i + 1) 2; mm ← field s (i + 4) 2;
    if char_at s i "+" then Some (hh * 3600 + mm * 60)
    else if char_at s i "-" then Some (- (hh * 3600 + mm * 60))
    else None
  else None.

Definition with_microsecond (us : Z) (dt : PyTime.datetime) : PyTime.datetime :=
  {| PyTime.year := PyTime.year dt; PyTime.month := PyTime.month dt;
     PyTime.day := PyTime.day dt; PyTime.hour := PyTime.hour dt;
     PyTime.minute := PyTime.minute dt; PyTime.second := PyTime.second dt;
     PyTime.microsecond := us; PyTime.tzinfo := PyTime.tzinfo dt |}.

(** Reading an ISO 8601 timestamp with offset back:
    [YYYY-MM-DDTHH:MM:SS+HH:MM], or the same with a point and six digits
    of microseconds, not all zero, before the offset. *)
Definition read_iso (s : string) : option PyTime.datetime :=
  if Nat.eqb (String.length s) 25 then
    off ← offset_at s 19; civil_fields s "T" (Some off)
  else if Nat.eqb (String.length s) 32 && char_at s 19 "." then
    us ← field s 20 6; off ← offset_at s 26;
    dt ← civil_fields s "T" (Some off);
    if us =? 0 then None else Some (with_microsecond us dt)
  else None.

(** The Gregorian calendar. *)
Definition is_leap (y : Z) : bool :=
  (y mod 4 =? 0) && (negb (y mod 100 =? 0) || (y mod 400 =? 0)).

Definition days_in_month (y m : Z) : Z :=
  if m =? 2 then (if is_leap y then 29 else 28)
  else if (m =? 4) || (m =? 6) || (m =? 9) || (m =? 11) then 30
  else 31.

(** A date and time of the calendar, in UTC, as [datetime] holds them. *)
Definition calendar_utc (u : PyTime.datetime) : Prop :=
  (1 ≤ PyTime.year u ∧ PyTime.year u ≤ 9999) ∧
  (1 ≤ PyTime.month u ∧ PyTime.month u ≤ 12) ∧
  (1 ≤ PyTime.day u ∧ PyTime.day u ≤ days_in_month (PyTime.year u) (PyTime.month u)) ∧
  (0 ≤ PyTime.hour u ∧ PyTime.hour u ≤ 23) ∧
  (0 ≤ PyTime.minute u ∧ PyTime.minute u ≤ 59) ∧
  (0 ≤ PyTime.second u ∧ PyTime.second u ≤ 59) ∧
  (0 ≤ PyTime.microsecond u ∧ PyTime.microsecond u ≤ 999999) ∧
  PyTime.tzinfo u = PyTime.utc.

(** The call returns a string that reads back as the calendar date and
    time, in UTC, of the instant [us] (microseconds from the epoch). *)
Definition denotes (result : outcome string) (us : Z) : Prop :=
  ∃ s u, result = Returns s ∧ read_iso s = Some u ∧
         calendar_utc u ∧ PyTime.instant u = us.

(** The civil time of a [struct_time], read as UTC. *)
Definition struct_us (t : struct_time) : Z :=
  (PyTime.days_from_civil (tm_year t) (tm_mon t) (tm_mday t) * 86400
   + tm_hour t * 3600 + tm_min t * 60 + tm_sec t) * 1000000.

(** The digits between ["/Date("] at the start of [s] and [")/"]. *)
Fixpoint digits_until_close (s : string) (acc : Z) (seen : bool) : option Z :=
  match s with
  | EmptyString => None
  | String c rest =>
      match digit_value c with
      | Some d => digits_until_close rest (acc * 10 + d) true
      | None => if seen && String.prefix ")/" s then Some acc else None
      end
  end.

Definition leading_epoch (s : string) : option Z :=
  if String.prefix "/Date(" s
  then digits_until_close (substring 6 (String.length s - 6) s) 0 false
  else None.

Definition iso_datelib : DateLib :=
  {| dateutil_parse := None;
     strptime := iso_strptime;
     str_strip := λ s, s;
     search_epoch := leading_epoch;
     now_utc := PyTime.DateTime 2024 1 1 0 0 0 0 PyTime.utc |}.

Definition entry_published (published : string) : raw_entry :=
  {| e_link := Some "https://a.example/1"; e_titleurl := None; e_title := Some "t";
     e_published := Some published; e_updated := None; e_created := None;
     e_published_parsed := None; e_emiten := None; e_attachments := None |}.

Definition entry_created (created : string) : raw_entry :=
  {| e_link := Some "https://stockbit.com/post/1"; e_titleurl := None; e_title := Some "t";
     e_published := None; e_updated := None; e_created := Some created;
     e_published_parsed := None; e_emiten := None; e_attachments := None |}.

(** The offset the code gives a parsed datetime: its own when it has one,
    UTC+7 for a naive value from the disclosure or social API, UTC for any
    other naive value. *)
Definition assumed_offset (source_type : string) (dt : PyTime.datetime) : Z :=
  match PyTime.tzinfo dt with
  | Some off => off
  | None =>
      if String.eqb source_type "idx_api" || String.eqb source_type "stockbit_api"
      then 7 * 3600 else 0
  end.

(** The entry reaches the string parser with [raw]: no [published_parsed],
    a non-empty raw string, and no epoch pattern taken. *)
Definition reaches_parser `{DateLib} (entry : raw_entry) (source_type raw : string) : Prop :=
  e_published_parsed entry = None ∧
  Helpers.raw_timestamp entry source_type = raw ∧
  raw ≠ "" ∧ raw ≠ "0000-00-00 00:00:00" ∧
  (source_type = "idx_api" → search_epoch raw = None).

(** ** Calendar arithmetic *)

Lemma days_civil_days z :
  let '(y, m, d) := PyTime.civil_from_days z in PyTime.days_from_civil y m d = z.
Proof.
  unfold PyTime.civil_from_days, PyTime.days_from_civil. cbv zeta.
  set (z' := z + 719468).
  set (era := z' / 146097).
  set (doe := z' - era * 146097).
  assert (Hdoe : 0 <= doe < 146097) by (subst doe era; Z.div_mod_to_equations; lia).
  set (yoe := (doe - doe / 1460 + doe / 36524 - doe / 146096) / 365).
  assert (Hyoe : 0 <= yoe <= 399) by (subst yoe; Z.div_mod_to_equations; lia).
  set (doy := doe - (365 * yoe + yoe / 4 - yoe / 100)).
  assert (Hdoy : 0 <= doy <= 365) by (subst doy yoe; Z.div_mod_to_equations; lia).
  set (mp := (5 * doy + 2) / 153).
  assert (Hmp : 0 <= mp <= 11) by (subst mp; Z.div_mod_to_equations; lia).
  destruct (mp <? 10) eqn:Hlt.
  - apply Z.ltb_lt in Hlt.
    destruct (mp + 3 <=? 2) eqn:Hle; [apply Z.leb_le in Hle; lia|].
    replace ((mp + 3 + 9) mod 12) with mp by (Z.div_mod_to_equations; lia).
    replace ((yoe + era * 400) / 400) with era by (Z.div_mod_to_equations; lia).
    replace (yoe + era * 400 - era * 400) with yoe by lia.
    subst doy z'. lia.
  - apply Z.ltb_ge in Hlt.
    destruct (mp - 9 <=? 2) eqn:Hle; [|apply Z.leb_gt in Hle; lia].
    replace ((mp - 9 + 9) mod 12) with mp by (Z.div_mod_to_equations; lia).
    replace ((yoe + era * 400 + 1 - 1) / 400) with era by (Z.div_mod_to_equations; lia).
    replace (yoe + era * 400 + 1 - 1 - era * 400) with yoe by lia.
    subst doy z'. lia.
Qed.

(** The UTC datetime built for an instant denotes that instant. *)
Lemma instant_of_instant us :
  PyTime.instant (PyTime.of_instant us) = us ∧
  PyTime.tzinfo (PyTime.of_instant us) = PyTime.utc.
Proof.
  unfold PyTime.of_instant.
  pose proof (days_civil_days (us / 1000000 / 86400)) as Hdays.
  destruct (PyTime.civil_from_days (us / 1000000 / 86400)) as [[y m] d].
  split; [|done].
  unfold PyTime.instant, PyTime.civil_us. simpl. rewrite Hdays.
  Z.div_mod_to_equations. lia.
Qed.


(** ** The calendar date of a day number *)

(** Month and day are those of a date of the calendar. *)
Definition date_ok (z : Z) : bool :=
  let '(y, m, d) := PyTime.civil_from_days z in
  (1 <=? m) && (m <=? 12) && (1 <=? d) && (d <=? days_in_month y m).

Fixpoint dates_ok_from (count : nat) (z : Z) : bool :=
  match count with
  | O => true
  | S count => date_ok z && dates_ok_from count (z + 1)
  end.

Lemma dates_ok_from_spec (count : nat) (z k : Z) :
  dates_ok_from count z = true → z ≤ k → k < z + Z.of_nat count → date_ok k = true.
Proof.
  revert z. induction count as [|count IH]; intros z Hall Hlow Hhigh; [lia|].
  simpl in Hall. apply andb_true_iff in Hall as [Hz Hrest].
  destruct (decide (k = z)) as [->|Hne]; [done|].
  apply (IH (z + 1)); [done|lia|lia].
Qed.

(** So they are on each of the 146097 days of an era of 400 years. *)
Lemma era_dates_ok : dates_ok_from (Z.to_nat 146097) (- 719468) = true.
Proof. vm_compute. reflexivity. Qed.

Lemma is_leap_era (y era : Z) : is_leap (y + era * 400) = is_leap y.
Proof.
  unfold is_leap.
  replace ((y + era * 400) mod 4) with (y mod 4)
    by (replace (era * 400) with (era * 100 * 4) by ring; by rewrite Z.mod_add).
  replace ((y + era * 400) mod 100) with (y mod 100)
    by (replace (era * 400) with (era * 4 * 100) by ring; by rewrite Z.mod_add).
  by rewrite Z.mod_add.
Qed.

Lemma days_in_month_era (y era m : Z) :
  days_in_month (y + era * 400) m = days_in_month y m.
Proof. unfold days_in_month. by rewrite is_leap_era. Qed.

(** The date of a day is the date of its day within the era, 400 years
    on for each era. *)
Lemma civil_from_days_era (z : Z) :
  let era := (z + 719468) / 146097 in
  let doe := z + 719468 - era * 146097 in
  PyTime.civil_from_days z
  = (let '(y, m, d) := PyTime.civil_from_days (doe - 719468) in (y + era * 400, m, d)).
Proof.
  cbv zeta. unfold PyTime.civil_from_days. cbv zeta.
  set (era := (z + 719468) / 146097).
  set (doe := z + 719468 - era * 146097).
  assert (Hdoe : 0 ≤ doe ∧ doe < 146097) by (subst doe era; Z.div_mod_to_equations; lia).
  replace (doe - 719468 + 719468) with doe by lia.
  replace (doe / 146097) with 0 by (symmetry; apply Z.div_small; lia).
  replace (doe - 0 * 146097) with doe by lia.
  set (yoe := (doe - doe / 1460 + doe / 36524 - doe / 146096) / 365).
  destruct (_ <? 10); destruct (_ <=? 2); f_equal; f_equal; lia.
Qed.

Lemma civil_from_days_date (z : Z) : date_ok z = true.
Proof.
  pose proof (civil_from_days_era z) as Hera. cbv zeta in Hera.
  set (era := (z + 719468) / 146097) in *.
  set (doe := z + 719468 - era * 146097) in *.
  assert (Hdoe : 0 ≤ doe ∧ doe < 146097) by (subst doe era; Z.div_mod_to_equations; lia).
  assert (Hok : date_ok (doe - 719468) = true).
  { apply (dates_ok_from_spec (Z.to_nat 146097) (- 719468)); [apply era_dates_ok|lia|].
    rewrite Z2Nat.id; lia. }
  unfold date_ok in Hok |- *. rewrite Hera.
  destruct (PyTime.civil_from_days (doe - 719468)) as [[y m] d].
  by rewrite days_in_month_era.
Qed.

(** Years before 1 and after 9999 lie outside the days of [datetime]. *)
Lemma days_from_civil_early (y m d : Z) :
  1 ≤ m → m ≤ 12 → 1 ≤ d → d ≤ 31 → y ≤ 0 →
  PyTime.days_from_civil y m d < -719162.
Proof.
  intros Hm1 Hm2 Hd1 Hd2 Hy. unfold PyTime.days_from_civil. cbv zeta.
  destruct (m <=? 2) eqn:Hm; [apply Z.leb_le in Hm|apply Z.leb_gt in Hm].
  - set (y' := y - 1). assert (y' ≤ -1) by (subst y'; lia). clearbody y'.
    assert (Hmp : (m + 9) mod 12 ≤ 11) by (Z.div_mod_to_equations; lia).
    set (mp := (m + 9) mod 12) in *. clearbody mp.
    Z.div_mod_to_equations. lia.
  - assert (Hmp : (m + 9) mod 12 = m - 3) by (Z.div_mod_to_equations; lia).
    rewrite Hmp. Z.div_mod_to_equations. lia.
Qed.

Lemma days_from_civil_late (y m d : Z) :
  1 ≤ m → m ≤ 12 → 1 ≤ d → d ≤ 31 → 10000 ≤ y →
  2932896 < PyTime.days_from_civil y m d.
Proof.
  intros Hm1 Hm2 Hd1 Hd2 Hy. unfold PyTime.days_from_civil. cbv zeta.
  destruct (m <=? 2) eqn:Hm; [apply Z.leb_le in Hm|apply Z.leb_gt in Hm].
  - assert (Hmp : (m + 9) mod 12 = m + 9) by (Z.div_mod_to_equations; lia).
    rewrite Hmp. Z.div_mod_to_equations. lia.
  - assert (Hmp : 0 ≤ (m + 9) mod 12) by (Z.div_mod_to_equations; lia).
    set (mp := (m + 9) mod 12) in *. clearbody mp.
    Z.div_mod_to_equations. lia.
Qed.

Lemma days_in_month_max (y m : Z) : days_in_month y m ≤ 31.
Proof.
  unfold days_in_month. destruct (m =? 2); [by destruct (is_leap y)|].
  by destruct (_ || _).
Qed.

(** The UTC datetime built for an instant in the range of [datetime] is a
    date and time of the calendar. *)
Lemma of_instant_calendar (us : Z) :
  PyTime.in_range us = true → calendar_utc (PyTime.of_instant us).
Proof.
  intros Hrange. unfold PyTime.in_range, PyTime.MIN_US, PyTime.MAX_US in Hrange.
  apply andb_true_iff in Hrange as [Hmin Hmax].
  apply Z.leb_le in Hmin. apply Z.leb_le in Hmax.
  assert (Hdays : -719162 ≤ us / 1000000 / 86400 ∧ us / 1000000 / 86400 ≤ 2932896)
    by (Z.div_mod_to_equations; lia).
  pose proof (civil_from_days_date (us / 1000000 / 86400)) as Hdate.
  pose proof (days_civil_days (us / 1000000 / 86400)) as Hback.
  unfold PyTime.of_instant, date_ok in *.
  destruct (PyTime.civil_from_days (us / 1000000 / 86400)) as [[y m] d].
  apply andb_true_iff in Hdate as [Hdate Hd2]. apply andb_true_iff in Hdate as [Hdate Hd1].
  apply andb_true_iff in Hdate as [Hm1 Hm2].
  apply Z.leb_le in Hm1, Hm2, Hd1, Hd2.
  pose proof (days_in_month_max y m) as Hmax31.
  unfold calendar_utc. cbn [PyTime.year PyTime.month PyTime.day PyTime.hour PyTime.minute
                             PyTime.second PyTime.microsecond PyTime.tzinfo].
  split.
  { split.
    - destruct (Z.le_gt_cases y 0) as [Hy|]; [|lia].
      pose proof (days_from_civil_early y m d Hm1 Hm2 Hd1 ltac:(lia) Hy). lia.
    - destruct (Z.le_gt_cases 10000 y) as [Hy|]; [|lia].
      pose proof (days_from_civil_late y m d Hm1 Hm2 Hd1 ltac:(lia) Hy). lia. }
  split; [done|]. split; [done|].
  repeat split; try (Z.div_mod_to_equations; lia).
Qed.

(** ** Reading the returned string back *)

(** The character of the lowest decimal digit of [n]. *)
Definition digit_char (n : Z) : ascii := ascii_of_nat (48 + Z.to_nat (n mod 10)).

Lemma zpad_2 (n : Z) :
  PyTime.zpad 2 n = String (digit_char (n / 10)) (String (digit_char n) "").
Proof. reflexivity. Qed.

Lemma zpad_4 (n : Z) :
  PyTime.zpad 4 n
  = String (digit_char (n / 10 / 10 / 10))
      (String (digit_char (n / 10 / 10))
         (String (digit_char (n / 10)) (String (digit_char n) ""))).
Proof. reflexivity. Qed.

Lemma zpad_6 (n : Z) :
  PyTime.zpad 6 n
  = String (digit_char (n / 10 / 10 / 10 / 10 / 10))
      (String (digit_char (n / 10 / 10 / 10 / 10))
         (String (digit_char (n / 10 / 10 / 10))
            (String (digit_char (n / 10 / 10))
               (String (digit_char (n / 10)) (String (digit_char n) ""))))).
Proof. reflexivity. Qed.

Lemma digit_value_char (n : Z) : digit_value (digit_char n) = Some (n mod 10).
Proof.
  unfold digit_value, digit_char.
  pose proof (Z.mod_pos_bound n 10 ltac:(lia)) as Hd.
  rewrite nat_ascii_embedding by lia.
  rewrite Nat2Z.inj_add, Z2Nat.id by lia. change (Z.of_nat 48) with 48.
  rewrite (proj2 (Z.leb_le 48 (48 + n mod 10))) by lia.
  rewrite (proj2 (Z.leb_le (48 + n mod 10) 57)) by lia.
  simpl. f_equal. lia.
Qed.

Lemma app_cons (c : ascii) (s t : string) : String c s +:+ t = String c (s +:+ t).
Proof. reflexivity. Qed.

Lemma app_empty (t : string) : "" +:+ t = t.
Proof. reflexivity. Qed.

Lemma two_digits (n : Z) :
  0 ≤ n → n ≤ 99 → (0 * 10 + (n / 10) mod 10) * 10 + n mod 10 = n.
Proof. intros Hlow Hhigh. Z.div_mod_to_equations. lia. Qed.

Lemma four_digits (n : Z) :
  0 ≤ n → n ≤ 9999 →
  (((0 * 10 + (n / 10 / 10 / 10) mod 10) * 10 + (n / 10 / 10) mod 10) * 10
   + (n / 10) mod 10) * 10 + n mod 10 = n.
Proof. intros Hlow Hhigh. Z.div_mod_to_equations. lia. Qed.

Lemma six_digits (n : Z) :
  0 ≤ n → n ≤ 999999 →
  (((((0 * 10 + (n / 10 / 10 / 10 / 10 / 10) mod 10) * 10
      + (n / 10 / 10 / 10 / 10) mod 10) * 10 + (n / 10 / 10 / 10) mod 10) * 10
    + (n / 10 / 10) mod 10) * 10 + (n / 10) mod 10) * 10 + n mod 10 = n.
Proof. intros Hlow Hhigh. Z.div_mod_to_equations. lia. Qed.

Ltac read_digits :=
  repeat (rewrite ?app_cons, ?app_empty);
  unfold read_iso, offset_at, civil_fields, field, char_at;
  cbn -[digit_char digit_value Z.div Z.modulo Z.mul Z.add Z.leb Z.eqb Z.opp Z.sub];
  rewrite !digit_value_char;
  change (digit_value "0") with (Some 0);
  cbn -[digit_char digit_value Z.div Z.modulo Z.mul Z.add Z.leb Z.eqb Z.opp Z.sub].

Lemma read_iso_isoformat (u : PyTime.datetime) :
  calendar_utc u → read_iso (PyTime.isoformat u) = Some u.
Proof.
  destruct u as [Y M D h mi sec us tz]. unfold calendar_utc.
  cbn [PyTime.year PyTime.month PyTime.day PyTime.hour PyTime.minute PyTime.second
       PyTime.microsecond PyTime.tzinfo].
  intros (HY & HM & HD & Hh & Hmi & Hsec & Hus & ->).
  pose proof (days_in_month_max Y M) as Hmax.
  unfold PyTime.isoformat.
  cbn [PyTime.year PyTime.month PyTime.day PyTime.hour PyTime.minute PyTime.second
       PyTime.microsecond PyTime.tzinfo].
  unfold PyTime.utc. change (PyTime.format_offset 0) with "+00:00".
  rewrite zpad_4, !zpad_2.
  assert (Hchecks : (1 <=? M) && (M <=? 12) && (1 <=? D) && (D <=? 31) && (h <=? 23)
                    && (mi <=? 59) && (sec <=? 59) && (1 <=? Y) = true).
  { repeat (apply andb_true_iff; split); apply Z.leb_le; lia. }
  destruct (us =? 0) eqn:Hzero.
  - apply Z.eqb_eq in Hzero. subst us. read_digits.
    rewrite (four_digits Y), (two_digits M), (two_digits D), (two_digits h),
      (two_digits mi), (two_digits sec) by lia.
    by rewrite Hchecks.
  - rewrite zpad_6. read_digits.
    rewrite (four_digits Y), (two_digits M), (two_digits D), (two_digits h),
      (two_digits mi), (two_digits sec), (six_digits us) by lia.
    by rewrite Hchecks, Hzero.
Qed.

(** ** Floats *)

Lemma round_half_even_near (n d : Z) :
  0 < d →
  - d ≤ 2 * (PyTime.round_half_even n d * d - n) ∧ 2 * (PyTime.round_half_even n d * d - n) ≤ d.
Proof.
  intros Hd. unfold PyTime.round_half_even.
  pose proof (Z.div_mod n d ltac:(lia)) as Hdiv.
  pose proof (Z.mod_pos_bound n d Hd) as Hmod.
  destruct (2 * (n mod d) <? d) eqn:Hlow; [apply Z.ltb_lt in Hlow; nia|].
  apply Z.ltb_ge in Hlow.
  destruct (d <? 2 * (n mod d)) eqn:Hhigh; [apply Z.ltb_lt in Hhigh; nia|].
  apply Z.ltb_ge in Hhigh.
  destruct (Z.even (n / d)); nia.
Qed.

Lemma round_half_even_unique (n d c : Z) :
  0 < d → - d < 2 * (c * d - n) → 2 * (c * d - n) < d → PyTime.round_half_even n d = c.
Proof.
  intros Hd Hlow Hhigh. pose proof (round_half_even_near n d Hd) as Hnear.
  set (r := PyTime.round_half_even n d) in *. nia.
Qed.

Lemma pow2_pos (k : Z) : 0 ≤ k → 0 < 2 ^ k.
Proof. intros Hk. by apply Z.pow_pos_nonneg. Qed.

(** The lower end of the PyTime.binade. *)
Lemma binade_low (n d : Z) :
  0 < n → 0 < d →
  snd (PyTime.scaled n d (PyTime.binade n d)) * 2 ^ 52 ≤ fst (PyTime.scaled n d (PyTime.binade n d)).
Proof.
  intros Hn Hd. unfold PyTime.binade.
  set (e := Z.log2 n - Z.log2 d - 52).
  destruct (fst (PyTime.scaled n d e) <? snd (PyTime.scaled n d e) * 2 ^ 52) eqn:Hbelow;
    [|by apply Z.ltb_ge in Hbelow].
  clear Hbelow.
  pose proof (Z.log2_spec n Hn) as [Hn1 Hn2].
  pose proof (Z.log2_spec d Hd) as [Hd1 Hd2].
  pose proof (Z.log2_nonneg n) as Hln. pose proof (Z.log2_nonneg d) as Hld.
  unfold PyTime.scaled. destruct (0 <=? e - 1) eqn:He; simpl.
  - apply Z.leb_le in He.
    assert (Hpow : 2 ^ Z.log2 n = 2 ^ Z.succ (Z.log2 d) * 2 ^ (e - 1) * 2 ^ 52).
    { rewrite <- !Z.pow_add_r by lia. f_equal. lia. }
    pose proof (pow2_pos (e - 1) ltac:(lia)) as Hpe.
    assert (d * 2 ^ (e - 1) * 2 ^ 52 ≤ 2 ^ Z.succ (Z.log2 d) * 2 ^ (e - 1) * 2 ^ 52);
      [|lia].
    apply Z.mul_le_mono_nonneg_r; [lia|]. apply Z.mul_le_mono_nonneg_r; lia.
  - apply Z.leb_gt in He.
    assert (Hpow : 2 ^ Z.succ (Z.log2 d) * 2 ^ 52 = 2 ^ Z.log2 n * 2 ^ (- (e - 1))).
    { rewrite <- !Z.pow_add_r by lia. f_equal. lia. }
    pose proof (pow2_pos (- (e - 1)) ltac:(lia)) as Hpe.
    assert (2 ^ Z.log2 n * 2 ^ (- (e - 1)) ≤ n * 2 ^ (- (e - 1)))
      by (apply Z.mul_le_mono_nonneg_r; lia).
    assert (d * 2 ^ 52 ≤ 2 ^ Z.succ (Z.log2 d) * 2 ^ 52)
      by (apply Z.mul_le_mono_nonneg_r; lia).
    lia.
Qed.

(** Below 2^33 seconds the quotient's double is within half a microsecond
    of the quotient, and [fromtimestamp] decodes the exact instant. *)
Lemma float_instant_exact (ms : Z) :
  0 ≤ ms → ms < 8589934592000 →
  PyTime.float_instant (PyTime.nearest ms 1000) = ms * 1000.
Proof.
  intros Hlow Hhigh. unfold PyTime.nearest.
  destruct (ms =? 0) eqn:Hzero; [apply Z.eqb_eq in Hzero; by subst ms|].
  apply Z.eqb_neq in Hzero.
  pose proof (binade_low ms 1000 ltac:(lia) ltac:(lia)) as Hbin.
  set (e := PyTime.binade ms 1000) in *.
  assert (He : e < 0).
  { destruct (0 <=? e) eqn:Hsign; [|by apply Z.leb_gt in Hsign].
    apply Z.leb_le in Hsign. unfold PyTime.scaled in Hbin. rewrite (proj2 (Z.leb_le 0 e) Hsign) in Hbin.
    simpl in Hbin. pose proof (pow2_pos e Hsign). nia. }
  unfold PyTime.scaled in Hbin |- *. rewrite (proj2 (Z.leb_gt 0 e) He) in Hbin |- *.
  cbn [fst snd] in Hbin |- *.
  set (P := 2 ^ (- e)) in *.
  assert (HP : 1048576 ≤ P).
  { assert (Hlt : 2 ^ 19 < P) by (change (2 ^ 19) with 524288; nia).
    apply Z.pow_lt_mono_r_iff in Hlt; [|lia|lia].
    change 1048576 with (2 ^ 20). apply Z.pow_le_mono_r; lia. }
  pose proof (round_half_even_near (ms * P) 1000 ltac:(lia)) as Hm.
  set (m := PyTime.round_half_even (ms * P) 1000) in *.
  unfold PyTime.float_instant, PyTime.value_fraction. cbn [PyTime.mantissa PyTime.exponent].
  rewrite (proj2 (Z.leb_gt 0 e) He). cbn [fst snd]. fold P.
  pose proof (Z.div_mod ms 1000 ltac:(lia)) as Hms.
  pose proof (Z.mod_pos_bound ms 1000 ltac:(lia)) as Hk.
  set (s := ms / 1000) in *. set (k := ms mod 1000) in *.
  assert (HSP : ms * P = 1000 * (s * P) + k * P) by (rewrite Hms; ring).
  assert (HKP : 0 ≤ k * P ∧ k * P ≤ 999 * P) by nia.
  set (SP := s * P) in *. set (KP := k * P) in *.
  assert (Hf : 0 ≤ m - SP ∧ m - SP < P) by lia.
  assert (Hdiv : m / P = s).
  { symmetry. apply (Z.div_unique m P s (m - SP)); [lia|]. unfold SP. ring. }
  assert (Hmod : m mod P = m - SP).
  { symmetry. apply (Z.mod_unique m P s (m - SP)); [lia|]. unfold SP. ring. }
  rewrite Hdiv, Hmod. set (f := m - SP) in *.
  assert (Hfk : -500 ≤ 1000 * f - KP ∧ 1000 * f - KP ≤ 500) by lia.
  unfold PyTime.nearest.
  destruct (f * 1000000 =? 0) eqn:Hf0.
  - apply Z.eqb_eq in Hf0. assert (f = 0) by lia.
    assert (k = 0) by (unfold KP in *; nia).
    cbn [PyTime.mantissa PyTime.exponent Z.leb Z.compare fst snd].
    change (PyTime.round_half_even (0 * 2 ^ 0) 1) with 0. cbn [Z.leb Z.compare]. lia.
  - apply Z.eqb_neq in Hf0. assert (Hfpos : 0 < f) by lia.
    pose proof (binade_low (f * 1000000) P ltac:(lia) ltac:(lia)) as Hbin'.
    set (e' := PyTime.binade (f * 1000000) P) in *.
    assert (He' : e' < 0).
    { destruct (0 <=? e') eqn:Hsign; [|by apply Z.leb_gt in Hsign].
      apply Z.leb_le in Hsign. unfold PyTime.scaled in Hbin'.
      rewrite (proj2 (Z.leb_le 0 e') Hsign) in Hbin'. simpl in Hbin'.
      pose proof (pow2_pos e' Hsign). nia. }
    unfold PyTime.scaled in Hbin' |- *. rewrite (proj2 (Z.leb_gt 0 e') He') in Hbin' |- *.
    cbn [fst snd PyTime.mantissa PyTime.exponent] in Hbin' |- *.
    rewrite (proj2 (Z.leb_gt 0 e') He'). cbn [fst snd].
    set (Q := 2 ^ (- e')) in *.
    assert (HQ : 4503599627 < Q) by nia.
    pose proof (round_half_even_near (f * 1000000 * Q) P ltac:(lia)) as Hm'.
    set (m' := PyTime.round_half_even (f * 1000000 * Q) P) in *.
    assert (Hus : PyTime.round_half_even m' Q = 1000 * k).
    { assert (Hprod : (m' - 1000 * k * Q) * (1000 * P)
                      = 1000 * (m' * P - f * 1000000 * Q)
                        + 1000000 * Q * (1000 * f - KP)).
      { unfold KP. ring. }
      set (D := m' - 1000 * k * Q) in *.
      assert (HD : - Q < 2 * D ∧ 2 * D < Q).
      { split.
        - destruct (Z.le_gt_cases (2 * D) (- Q)) as [Hbad|]; [|lia]. exfalso.
          assert (2 * D * (1000 * P) ≤ - Q * (1000 * P)) by (apply Z.mul_le_mono_nonneg_r; lia).
          nia.
        - destruct (Z.le_gt_cases Q (2 * D)) as [Hbad|]; [|lia]. exfalso.
          assert (Q * (1000 * P) ≤ 2 * D * (1000 * P)) by (apply Z.mul_le_mono_nonneg_r; lia).
          nia. }
      apply round_half_even_unique; [lia| |]; unfold D in HD; lia. }
    rewrite Hus.
    destruct (1000000 <=? 1000 * k) eqn:Hcarry; [apply Z.leb_le in Hcarry; lia|].
    lia.
Qed.

(** ** The normalisation *)

Section Normalise.
Context `{DateLib}.

Lemma eqb_string_true (a b : string) : a = b → String.eqb a b = true.
Proof. intros ->. apply String.eqb_refl. Qed.

Lemma eqb_string_false (a b : string) : a ≠ b → String.eqb a b = false.
Proof. intros Hne. by apply String.eqb_neq. Qed.

(** From the parser's result to the returned string. *)
Lemma parsed_to_utc entry source_type raw dt :
  reaches_parser entry source_type raw →
  Helpers.parse_string raw = Some dt →
  PyTime.in_range (PyTime.civil_us dt - assumed_offset source_type dt * 1000000) = true →
  Helpers.parse_published_date entry source_type =
    Returns (PyTime.isoformat
               (PyTime.of_instant
                  (PyTime.civil_us dt - assumed_offset source_type dt * 1000000))).
Proof.
  intros (Hpp & Hraw & Hne & Hzero & Hepoch) Hparse Hrange.
  unfold Helpers.parse_published_date. rewrite Hpp, Hraw.
  rewrite (eqb_string_false raw "") by done.
  rewrite (eqb_string_false raw "0000-00-00 00:00:00") by done. simpl.
  assert (Hno : (if String.eqb source_type "idx_api" then search_epoch raw else None) = None).
  { destruct (String.eqb source_type "idx_api") eqn:Hidx; [|done].
    apply Hepoch. by apply String.eqb_eq. }
  rewrite Hno, Hparse. unfold assumed_offset in Hrange |- *.
  destruct (PyTime.tzinfo dt) as [off|] eqn:Htz.
  - unfold PyTime.astimezone_utc, PyTime.instant. rewrite Htz, Hrange. done.
  - destruct (String.eqb source_type "idx_api" || String.eqb source_type "stockbit_api");
      unfold PyTime.astimezone_utc, PyTime.instant, PyTime.civil_us, PyTime.replace_tzinfo;
      simpl; unfold PyTime.civil_us in Hrange; simpl in Hrange; by rewrite Hrange.
Qed.

(** An epoch below 2^33 seconds comes out exactly. *)
Lemma epoch_to_utc entry raw ms :
  e_published_parsed entry = None →
  Helpers.raw_timestamp entry "idx_api" = raw →
  raw ≠ "" → raw ≠ "0000-00-00 00:00:00" →
  search_epoch raw = Some ms →
  0 ≤ ms → ms < 8589934592000 →
  Helpers.parse_published_date entry "idx_api" =
    Returns (PyTime.isoformat (PyTime.of_instant (ms * 1000))).
Proof.
  intros Hpp Hraw Hne Hzero Hepoch Hlow Hhigh.
  unfold Helpers.parse_published_date. rewrite Hpp, Hraw.
  rewrite (eqb_string_false raw "") by done.
  rewrite (eqb_string_false raw "0000-00-00 00:00:00") by done. simpl.
  rewrite Hepoch. unfold PyTime.fromtimestamp_float, PyTime.fromtimestamp_utc.
  rewrite (float_instant_exact ms Hlow Hhigh).
  assert (Hrange : PyTime.in_range (ms * 1000) = true).
  { unfold PyTime.in_range, PyTime.MIN_US, PyTime.MAX_US.
    apply andb_true_iff. split; apply Z.leb_le; lia. }
  by rewrite Hrange.
Qed.

(** A pre-parsed [published_parsed] is returned as it is, read as UTC. *)
Lemma struct_to_utc entry source_type t :
  e_published_parsed entry = Some t →
  1 ≤ tm_year t → tm_year t ≤ 9999 → 1 ≤ tm_mon t → tm_mon t ≤ 12 →
  PyTime.in_range (struct_us t) = true →
  Helpers.parse_published_date entry source_type =
    Returns (PyTime.isoformat (PyTime.of_instant (struct_us t))).
Proof.
  intros Hpp Hy1 Hy2 Hm1 Hm2 Hrange.
  unfold Helpers.parse_published_date. rewrite Hpp. unfold PyTime.timegm.
  rewrite (proj2 (Z.leb_le 1 (tm_year t)) Hy1), (proj2 (Z.leb_le (tm_year t) 9999) Hy2),
    (proj2 (Z.leb_le 1 (tm_mon t)) Hm1), (proj2 (Z.leb_le (tm_mon t) 12) Hm2).
  cbn [andb].
  assert (Hus : ((((PyTime.days_from_civil (tm_year t) (tm_mon t) 1 + tm_mday t - 1) * 24
                   + tm_hour t) * 60 + tm_min t) * 60 + tm_sec t) * 1000000
                = struct_us t).
  { unfold struct_us, PyTime.days_from_civil. cbv zeta. lia. }
  cbv zeta. rewrite Hus. unfold PyTime.fromtimestamp_utc. by rewrite Hrange.
Qed.

(** The string printed for an instant reads back as its calendar date
    and time. *)
Lemma isoformat_denotes us :
  PyTime.in_range us = true →
  denotes (Returns (PyTime.isoformat (PyTime.of_instant us))) us.
Proof.
  intros Hrange. exists (PyTime.isoformat (PyTime.of_instant us)), (PyTime.of_instant us).
  pose proof (of_instant_calendar us Hrange) as Hcal.
  split; [done|]. split; [by apply read_iso_isoformat|]. split; [done|].
  apply instant_of_instant.
Qed.

End Normalise.

(** C3.  [parse_published_date] returns a string that reads back as the
    calendar date and time, in UTC, of
    - the [published_parsed] of the entry read as UTC, when the entry has
      one, whatever its strings and its source type;
    and, for an entry without [published_parsed], of
    - the instant of the parsed timestamp, when that carries an offset;
    - the parsed civil time read at UTC+7, when it is naive and the source
      is the disclosure API ([idx_api]) or the social API
      ([stockbit_api]);
    - the parsed civil time read as UTC, when it is naive and the source
      is anything else (RSS);
    - the epoch instant of a ["/Date(<ms>)/"] string from the disclosure
      API, for an epoch below 2^33 seconds;
    and ["2024-05-01T10:00:00+07:00"], read by the parser as 10:00 at
    +07:00, becomes ["2024-05-01T03:00:00+00:00"].  (Results in the years
    1 to 9999, where Python's datetime lives.) *)
Theorem parse_published_date_utc `{DateLib} :
  (∀ entry source_type t,
     e_published_parsed entry = Some t →
     1 ≤ tm_year t → tm_year t ≤ 9999 → 1 ≤ tm_mon t → tm_mon t ≤ 12 →
     PyTime.in_range (struct_us t) = true →
     denotes (Helpers.parse_published_date entry source_type) (struct_us t)) ∧
  (∀ entry source_type raw dt off,
     reaches_parser entry source_type raw →
     Helpers.parse_string raw = Some dt →
     PyTime.tzinfo dt = Some off →
     PyTime.in_range (PyTime.civil_us dt - off * 1000000) = true →
     denotes (Helpers.parse_published_date entry source_type)
             (PyTime.civil_us dt - off * 1000000)) ∧
  (∀ entry source_type raw dt,
     reaches_parser entry source_type raw →
     Helpers.parse_string raw = Some dt →
     PyTime.tzinfo dt = None →
     source_type = "idx_api" ∨ source_type = "stockbit_api" →
     PyTime.in_range (PyTime.civil_us dt - 7 * 3600 * 1000000) = true →
     denotes (Helpers.parse_published_date entry source_type)
             (PyTime.civil_us dt - 7 * 3600 * 1000000)) ∧
  (∀ entry source_type raw dt,
     reaches_parser entry source_type raw →
     Helpers.parse_string raw = Some dt →
     PyTime.tzinfo dt = None →
     source_type ≠ "idx_api" → source_type ≠ "stockbit_api" →
     PyTime.in_range (PyTime.civil_us dt) = true →
     denotes (Helpers.parse_published_date entry source_type) (PyTime.civil_us dt)) ∧
  (∀ entry raw ms,
     e_published_parsed entry = None →
     Helpers.raw_timestamp entry "idx_api" = raw →
     raw ≠ "" → raw ≠ "0000-00-00 00:00:00" →
     search_epoch raw = Some ms →
     0 ≤ ms → ms < 8589934592000 →
     denotes (Helpers.parse_published_date entry "idx_api") (ms * 1000)) ∧
  (∀ entry source_type raw,
     reaches_parser entry source_type raw →
     Helpers.parse_string raw = Some (PyTime.DateTime 2024 5 1 10 0 0 0 (Some (7 * 3600))) →
     Helpers.parse_published_date entry source_type = Returns "2024-05-01T03:00:00+00:00").
Proof.
  repeat apply conj.
  - intros entry source_type t Hpp Hy1 Hy2 Hm1 Hm2 Hrange.
    rewrite (struct_to_utc entry source_type t) by done.
    by apply isoformat_denotes.
  - intros entry source_type raw dt off Hreach Hparse Htz Hrange.
    assert (Hoff : assumed_offset source_type dt = off).
    { unfold assumed_offset. by rewrite Htz. }
    rewrite (parsed_to_utc entry source_type raw dt Hreach Hparse); rewrite Hoff;
      [by apply isoformat_denotes|exact Hrange].
  - intros entry source_type raw dt Hreach Hparse Htz Hsrc Hrange.
    assert (Hoff : assumed_offset source_type dt = 7 * 3600).
    { unfold assumed_offset. rewrite Htz. by destruct Hsrc as [-> | ->]. }
    rewrite (parsed_to_utc entry source_type raw dt Hreach Hparse); rewrite Hoff;
      [by apply isoformat_denotes|exact Hrange].
  - intros entry source_type raw dt Hreach Hparse Htz Hidx Hsb Hrange.
    assert (Hoff : assumed_offset source_type dt = 0).
    { unfold assumed_offset. rewrite Htz.
      by rewrite (eqb_string_false source_type "idx_api"),
                 (eqb_string_false source_type "stockbit_api"). }
    rewrite (parsed_to_utc entry source_type raw dt Hreach Hparse); rewrite Hoff;
      rewrite Z.mul_0_l, Z.sub_0_r; [by apply isoformat_denotes|exact Hrange].
  - intros entry raw ms Hpp Hraw Hne Hzero Hepoch Hlow Hhigh.
    rewrite (epoch_to_utc entry raw ms) by done.
    apply isoformat_denotes.
    unfold PyTime.in_range, PyTime.MIN_US, PyTime.MAX_US.
    apply andb_true_iff. split; apply Z.leb_le; lia.
  - intros entry source_type raw Hreach Hparse.
    by rewrite (parsed_to_utc entry source_type raw _ Hreach Hparse).
Qed.

(** The spec's examples, run with the reference parser. *)
Example normalise_offset :
  @Helpers.parse_published_date iso_datelib
     (entry_published "2024-05-01T10:00:00+07:00") "rss"
  = Returns "2024-05-01T03:00:00+00:00".
Proof. vm_compute. reflexivity. Qed.

Example normalise_naive_disclosure :
  @Helpers.parse_published_date iso_datelib
     (entry_published "2024-05-01 10:00:00") "idx_api"
  = Returns "2024-05-01T03:00:00+00:00" ∧
  @Helpers.parse_published_date iso_datelib
     (entry_created "2024-05-01 10:00:00") "stockbit_api"
  = Returns "2024-05-01T03:00:00+00:00".
Proof. split; vm_compute; reflexivity. Qed.

Example normalise_naive_rss :
  @Helpers.parse_published_date iso_datelib
     (entry_published "2024-05-01 10:00:00") "rss"
  = Returns "2024-05-01T10:00:00+00:00".
Proof. vm_compute. reflexivity. Qed.

Example normalise_epoch :
  @Helpers.parse_published_date iso_datelib
     (entry_published "/Date(1714532400000)/") "idx_api"
  = Returns "2024-05-01T03:00:00+00:00".
Proof. vm_compute. reflexivity. Qed.

(** An RSS entry as feedparser delivers it: the timestamp as written and
    the same time pre-parsed, in UTC. *)
Definition entry_parsed : raw_entry :=
  {| e_link := Some "https://a.example/1"; e_titleurl := None; e_title := Some "t";
     e_published := Some "Wed, 01 May 2024 10:00:00 +0700"; e_updated := None;
     e_created := None;
     e_published_parsed :=
       Some {| tm_year := 2024; tm_mon := 5; tm_mday := 1;
               tm_hour := 3; tm_min := 0; tm_sec := 0 |};
     e_emiten := None; e_attachments := None |}.

Example normalise_pre_parsed :
  @Helpers.parse_published_date iso_datelib entry_parsed "rss"
  = Returns "2024-05-01T03:00:00+00:00".
Proof. vm_compute. reflexivity. Qed.

Lemma parse_published_date_utc_witness :
  @Helpers.parse_published_date iso_datelib
     (entry_published "2024-05-01T10:00:00+07:00") "rss"
  = Returns "2024-05-01T03:00:00+00:00" ∧
  denotes (@Helpers.parse_published_date iso_datelib entry_parsed "rss")
          1714532400000000 ∧
  denotes (@Helpers.parse_published_date iso_datelib
             (entry_published "/Date(1714532400000)/") "idx_api")
          (1714532400000 * 1000).
Proof.
  pose proof (@parse_published_date_utc iso_datelib)
    as (Hstruct & _ & _ & _ & Hepoch & Hexample).
  split; [|split].
  - apply (Hexample (entry_published "2024-05-01T10:00:00+07:00") "rss"
                    "2024-05-01T10:00:00+07:00").
    + unfold reaches_parser. repeat split; try reflexivity; discriminate.
    + vm_compute. reflexivity.
  - apply (Hstruct entry_parsed "rss"
                   {| tm_year := 2024; tm_mon := 5; tm_mday := 1;
                      tm_hour := 3; tm_min := 0; tm_sec := 0 |});
      [reflexivity|simpl; lia..|vm_compute; reflexivity].
  - apply (Hepoch (entry_published "/Date(1714532400000)/") "/Date(1714532400000)/");
      [reflexivity|reflexivity|discriminate|discriminate|vm_compute; reflexivity|lia|lia].
Defined.

(** An epoch of the year 5138: the double nearest to
    [100000000000001 / 1000] lies seven microseconds above the quotient,
    and the string returned is not that of the epoch. *)
Lemma parse_published_date_epoch_rounded :
  @Helpers.parse_published_date iso_datelib
     (entry_published "/Date(100000000000001)/") "idx_api"
  = Returns "5138-11-16T09:46:40.001007+00:00" ∧
  PyTime.isoformat (PyTime.of_instant (100000000000001 * 1000))
  = "5138-11-16T09:46:40.001000+00:00" ∧
  ¬ denotes (@Helpers.parse_published_date iso_datelib
               (entry_published "/Date(100000000000001)/") "idx_api")
            (100000000000001 * 1000).
Proof.
  assert (Hrun : @Helpers.parse_published_date iso_datelib
                   (entry_published "/Date(100000000000001)/") "idx_api"
                 = Returns "5138-11-16T09:46:40.001007+00:00") by (vm_compute; reflexivity).
  split; [exact Hrun|]. split; [vm_compute; reflexivity|].
  rewrite Hrun. intros (s & u & Hs & Hread & _ & Hinstant).
  injection Hs as <-. vm_compute in Hread. injection Hread as <-.
  vm_compute in Hinstant. discriminate Hinstant.
Qed.

End Timestamps.

(* ===================================================================== *)
(** * llm.py: the relevance filter                                        *)
(* ===================================================================== *)

(** The entry dictionary built by phase 2 of [cmd_collect], with the keys
    the filter adds ([None] / [false] while absent). *)
Record entry := Entry {
  p_title : string;                     (* "title" *)
  p_url : string;                       (* "url" *)
  p_published_at : string;              (* "published_at" *)
  p_source_id : Z;                      (* "source_id" *)
  p_source_name : string;               (* "source_name" *)
  p_source_type : string;               (* "source_type" *)
  p_rss_summary : string;               (* "_rss_summary" *)
  p_source_category : string;           (* "_source_category" *)
  p_emiten : string;                    (* "_emiten" *)
  p_attachments : list attachment;      (* "_attachments" *)
  p_filter_category : option string;    (* "_filter_category" *)
  p_filter_sub_category : option json;  (* "_filter_sub_category" *)
  p_is_lapkeu : bool;                   (* "_is_lapkeu" *)
  p_filter_sentiment : option string;   (* "_filter_sentiment" *)
  p_filter_reason : option json         (* "_filter_reason" *)
}.

(** Entries are Python objects: lists hold references to them, and the
    filter updates them in place.  A heap maps each reference to the
    dictionary it points to. *)
Definition loc := nat.
Abbreviation heap := (gmap loc entry).

Module Llm.

Definition VALID_CATEGORIES : list string :=
  ["Market"; "Macro"; "Commodity"; "Sectoral"; "Corporate Action"; "Disclosure"].
Definition VALID_SENTIMENTS : list string := ["bullish"; "bearish"; "neutral"].

(** [entry[key] = value] for the keys the filter writes. *)
Definition set_filter_category (v : string) (e : entry) : entry :=
  {| p_title := p_title e; p_url := p_url e; p_published_at := p_published_at e;
     p_source_id := p_source_id e; p_source_name := p_source_name e;
     p_source_type := p_source_type e; p_rss_summary := p_rss_summary e;
     p_source_category := p_source_category e; p_emiten := p_emiten e;
     p_attachments := p_attachments e;
     p_filter_category := Some v; p_filter_sub_category := p_filter_sub_category e;
     p_is_lapkeu := p_is_lapkeu e; p_filter_sentiment := p_filter_sentiment e;
     p_filter_reason := p_filter_reason e |}.

Definition set_filter_sub_category (v : json) (e : entry) : entry :=
  {| p_title := p_title e; p_url := p_url e; p_published_at := p_published_at e;
     p_source_id := p_source_id e; p_source_name := p_source_name e;
     p_source_type := p_source_type e; p_rss_summary := p_rss_summary e;
     p_source_category := p_source_category e; p_emiten := p_emiten e;
     p_attachments := p_attachments e;
     p_filter_category := p_filter_category e; p_filter_sub_category := Some v;
     p_is_lapkeu := p_is_lapkeu e; p_filter_sentiment := p_filter_sentiment e;
     p_filter_reason := p_filter_reason e |}.

Definition set_is_lapkeu (e : entry) : entry :=
  {| p_title := p_title e; p_url := p_url e; p_published_at := p_published_at e;
     p_source_id := p_source_id e; p_source_name := p_source_name e;
     p_source_type := p_source_type e; p_rss_summary := p_rss_summary e;
     p_source_category := p_source_category e; p_emiten := p_emiten e;
     p_attachments := p_attachments e;
     p_filter_category := p_filter_category e;
     p_filter_sub_category := p_filter_sub_category e;
     p_is_lapkeu := true; p_filter_sentiment := p_filter_sentiment e;
     p_filter_reason := p_filter_reason e |}.

Definition set_filter_sentiment (v : string) (e : entry) : entry :=
  {| p_title := p_title e; p_url := p_url e; p_published_at := p_published_at e;
     p_source_id := p_source_id e; p_source_name := p_source_name e;
     p_source_type := p_source_type e; p_rss_summary := p_rss_summary e;
     p_source_category := p_source_category e; p_emiten := p_emiten e;
     p_attachments := p_attachments e;
     p_filter_category := p_filter_category e;
     p_filter_sub_category := p_filter_sub_category e;
     p_is_lapkeu := p_is_lapkeu e; p_filter_sentiment := Some v;
     p_filter_reason := p_filter_reason e |}.

Definition set_filter_reason (v : json) (e : entry) : entry :=
  {| p_title := p_title e; p_url := p_url e; p_published_at := p_published_at e;
     p_source_id := p_source_id e; p_source_name := p_source_name e;
     p_source_type := p_source_type e; p_rss_summary := p_rss_summary e;
     p_source_category := p_source_category e; p_emiten := p_emiten e;
     p_attachments := p_attachments e;
     p_filter_category := p_filter_category e;
     p_filter_sub_category := p_filter_sub_category e;
     p_is_lapkeu := p_is_lapkeu e; p_filter_sentiment := p_filter_sentiment e;
     p_filter_reason := Some v |}.

(** [r.get("index", 0) - 1]: an int (a bool counts as one), a float, or a
    TypeError. *)
Inductive index_value :=
| IntIndex (i : Z)
| FloatIndex (f : pyfloat)
| IndexTypeError.

Definition index_minus_one (v : json) : index_value :=
  match v with
  | JInt z => IntIndex (z - 1)
  | JBool b => IntIndex ((if b then 1 else 0) - 1)
  | JFloat (Finite q) => FloatIndex (Finite (q - 1))
  | JFloat f => FloatIndex f
  | _ => IndexTypeError
  end.

(** [0 <= idx < len(entries)] *)
Definition index_in_range (idx : index_value) (len : nat) : bool :=
  match idx with
  | IntIndex i => (0 <=? i) && (i <? Z.of_nat len)
  | FloatIndex (Finite q) => Qle_bool 0 q && negb (Qle_bool (inject_Z (Z.of_nat len)) q)
  | _ => false
  end.

(** [value not in VALID]: a TypeError for an unhashable value, otherwise
    whether the value is one of the strings. *)
Definition checked_choice (valid : list string) (default : string) (v : json)
  : outcome string :=
  match v with
  | JStr s => Returns (if bool_decide (s ∈ valid) then s else default)
  | _ => if hashable v then Returns default else Raises
  end.

(** [sub in ("lapkeu_tahunan", "lapkeu_kuartal")] *)
Definition is_lapkeu_sub (sub : json) : bool :=
  match sub with
  | JStr s => String.eqb s "lapkeu_tahunan" || String.eqb s "lapkeu_kuartal"
  | _ => false
  end.

(** The body of the [if] inside the loop of [_run_filter], for the
    referenced entry: the heap after the assignments, and whether they
    all went through. *)
Definition annotate (is_idx : bool) (r : list (string * json)) (l : loc) (h : heap)
  : heap * bool :=
  let category_step :=
    if is_idx then
      let h := alter (set_filter_category "Disclosure") l h in
      let h := alter (set_filter_sub_category
                        (obj_get_default "sub_category" (JStr "lainnya") r)) l h in
      let sub := obj_get_default "sub_category" (JStr "") r in
      (if is_lapkeu_sub sub then alter set_is_lapkeu l h else h, true)
    else
      match checked_choice VALID_CATEGORIES "Market"
              (obj_get_default "category" (JStr "Market") r) with
      | Returns cat => (alter (set_filter_category cat) l h, true)
      | Raises => (h, false)
      end in
  match category_step with
  | (h, false) => (h, false)
  | (h, true) =>
      match checked_choice VALID_SENTIMENTS "neutral"
              (obj_get_default "sentiment" (JStr "neutral") r) with
      | Raises => (h, false)
      | Returns sentiment =>
          let h := alter (set_filter_sentiment sentiment) l h in
          let h := alter (set_filter_reason (obj_get_default "reason" (JStr "") r)) l h in
          (h, true)
      end
  end.

(** The [for r in results_list] loop.  [None] in the result stands for an
    exception that leaves the loop; the heap keeps what was assigned
    before it. *)
Fixpoint filter_loop (is_idx : bool) (entries : list loc) (results_list : list json)
    (h : heap) (relevant : list loc) : heap * option (list loc) :=
  match results_list with
  | [] => (h, Some relevant)
  | JObj r :: rest =>
      match index_minus_one (obj_get_default "index" (JInt 0) r) with
      | IndexTypeError => (h, None)
      | idx =>
          if index_in_range idx (length entries)
             && truthy (obj_get_default "relevant" (JBool false) r)
          then
            match idx with
            | IntIndex i =>
                match entries !! Z.to_nat i with
                | Some l =>
                    match annotate is_idx r l h with
                    | (h, true) => filter_loop is_idx entries rest h (relevant ++ [l])
                    | (h, false) => (h, None)
                    end
                | None => (h, None)
                end
            | _ => (h, None)               (* list indices must be integers *)
            end
          else filter_loop is_idx entries rest h relevant
      end
  | _ :: rest => filter_loop is_idx entries rest h relevant   (* not a dict: continue *)
  end.

(** [_run_filter]; [reply] is what [json.loads(groq.chat(...))] gives, or
    [Raises] when either call raises. *)
Definition _run_filter (reply : outcome json) (is_idx : bool)
    (h : heap) (entries : list loc) : heap * list loc :=
  match reply with
  | Raises => (h, entries)
  | Returns (JObj data) =>
      match obj_get_default "results" (JList []) data with
      | JList results_list =>
          match filter_loop is_idx entries results_list h [] with
          | (h, Some relevant) => (h, relevant)
          | (h, None) => (h, entries)                     (* except Exception *)
          end
      | _ => (h, entries)                                 (* results is not a list *)
      end
  | Returns _ => (h, entries)                             (* data.get: AttributeError *)
  end.

(** [e.get("source_type") == "idx_api"] for the entry behind a reference. *)
Definition is_idx_entry (h : heap) (l : loc) : bool :=
  match h !! l with
  | Some e => String.eqb (p_source_type e) "idx_api"
  | None => false
  end.

(** The next reply of the classifier; a call with no reply left raises. *)
Definition next_reply (groq : list (outcome json)) : outcome json * list (outcome json) :=
  match groq with
  | reply :: later => (reply, later)
  | [] => (Raises, [])
  end.

(** The body of [filter_news_batch] past the [if not entries] guard. *)
Definition route_batch (groq : list (outcome json)) (h : heap) (entries : list loc)
  : heap * list loc * list (outcome json) :=
  let news_entries := List.filter (λ l, negb (is_idx_entry h l)) entries in
  let idx_entries := List.filter (is_idx_entry h) entries in
  let '(h, relevant, groq) :=
    match news_entries with
    | [] => (h, [], groq)
    | _ =>
        let '(reply, groq) := next_reply groq in
        let '(h, kept) := _run_filter reply false h news_entries in
        (h, kept, groq)
    end in
  match idx_entries with
  | [] => (h, relevant, groq)
  | _ =>
      let '(reply, groq) := next_reply groq in
      let '(h, kept) := _run_filter reply true h idx_entries in
      (h, relevant ++ kept, groq)
  end.

(** [filter_news_batch]: [groq] holds the replies of the classifier to the
    calls still to come. *)
Definition filter_news_batch (groq : list (outcome json)) (h : heap) (entries : list loc)
  : heap * list loc * list (outcome json) :=
  match entries with
  | [] => (h, [], groq)
  | _ => route_batch groq h entries
  end.

(** A reply whose ["results"] member is there and is not a list. *)
Definition results_not_a_list (reply : outcome json) : Prop :=
  ∃ data v, reply = Returns (JObj data) ∧ obj_get "results" data = Some v ∧
            ∀ items, v ≠ JList items.

(** A reply on which [_run_filter] takes one of its fallbacks: the call or
    the decoding raised, the decoded value is not an object, its
    ["results"] is not a list, or an exception left the loop. *)
Definition falls_back (reply : outcome json) (is_idx : bool)
    (h : heap) (entries : list loc) : Prop :=
  reply = Raises ∨
  (∃ v, reply = Returns v ∧ ∀ data, v ≠ JObj data) ∨
  results_not_a_list reply ∨
  (∃ data results_list,
     reply = Returns (JObj data) ∧
     obj_get_default "results" (JList []) data = JList results_list ∧
     snd (filter_loop is_idx entries results_list h []) = None).

(** Two entries and replies used in the examples. *)
Definition sample_entry (url source_type published : string) : entry :=
  {| p_title := "title"; p_url := url; p_published_at := published;
     p_source_id := 1; p_source_name := "feed"; p_source_type := source_type;
     p_rss_summary := ""; p_source_category := "Market"; p_emiten := "";
     p_attachments := [];
     p_filter_category := None; p_filter_sub_category := None; p_is_lapkeu := false;
     p_filter_sentiment := None; p_filter_reason := None |}.

Definition sample_heap : heap :=
  <[0%nat := sample_entry "https://a.example/1" "rss" "2024-05-01T03:00:00+00:00"]>
  (<[1%nat := sample_entry "https://idx.example/2" "idx_api" "2024-05-02T03:00:00+00:00"]> ∅).

Definition reply_results (v : json) : outcome json := Returns (JObj [("results", v)]).

(** ** The loop only selects *)

Ltac branch_on_guard H :=
  match type of H with
  | (if ?c then _ else _) = _ => destruct c eqn:?
  end.

Lemma filter_loop_selects is_idx entries results_list :
  ∀ h relevant h' relevant',
    filter_loop is_idx entries results_list h relevant = (h', Some relevant') →
    (∀ l, l ∈ relevant → l ∈ entries) →
    ∀ l, l ∈ relevant' → l ∈ entries.
Proof.
  induction results_list as [|r rest IH]; intros h relevant h' relevant' Hrun Hsub.
  - simpl in Hrun. by injection Hrun as _ <-.
  - destruct r as [| | | | |items|r]; simpl in Hrun; try (eapply IH; eassumption).
    destruct (index_minus_one (obj_get_default "index" (JInt 0) r)) as [i|f|] eqn:Hidx;
      [| |done].
    + branch_on_guard Hrun; [|eapply IH; eassumption].
      destruct (entries !! Z.to_nat i) as [l0|] eqn:Hlook; [|done].
      destruct (annotate is_idx r l0 h) as [h1 [|]]; [|done].
      eapply IH; [exact Hrun|].
      intros l Hin. apply elem_of_app in Hin as [Hin|Hin]; [by apply Hsub|].
      apply list_elem_of_singleton in Hin as ->.
      by eapply list_elem_of_lookup_2.
    + branch_on_guard Hrun; [done|eapply IH; eassumption].
Qed.

Lemma run_filter_selects reply is_idx h entries l :
  l ∈ snd (_run_filter reply is_idx h entries) → l ∈ entries.
Proof.
  unfold _run_filter.
  destruct reply as [[| | | | | |data]|]; simpl; try done.
  destruct (obj_get_default "results" (JList []) data) as [| | | | |results_list|]; try done.
  destruct (filter_loop is_idx entries results_list h []) as [h' [relevant|]] eqn:Hloop;
    simpl; [|done].
  intros Hin. eapply filter_loop_selects; [exact Hloop| |exact Hin].
  intros l0 Hl0. by apply elem_of_nil in Hl0.
Qed.

Lemma run_filter_falls_back reply is_idx h entries :
  falls_back reply is_idx h entries → snd (_run_filter reply is_idx h entries) = entries.
Proof.
  intros [->|[(v & -> & Hv)|[(data & v & -> & Hget & Hv)|(data & rs & -> & Hget & Hloop)]]];
    simpl.
  - done.
  - destruct v; try done. by destruct (Hv members).
  - unfold obj_get_default. rewrite Hget. destruct v; try done. by destruct (Hv items).
  - rewrite Hget. destruct (filter_loop is_idx entries rs h []) as [h' [relevant|]]; done.
Qed.

Lemma run_filter_not_a_list reply is_idx h entries :
  results_not_a_list reply → _run_filter reply is_idx h entries = (h, entries).
Proof.
  intros (data & v & -> & Hget & Hv). simpl.
  unfold obj_get_default. rewrite Hget. destruct v; try done. by destruct (Hv items).
Qed.

(** ** The router *)

Lemma split_by_kind (f : loc → bool) (entries : list loc) :
  List.filter (λ l, negb (f l)) entries ++ List.filter f entries ≡ₚ entries.
Proof.
  induction entries as [|l rest IH]; simpl; [done|].
  destruct (f l); simpl.
  - rewrite <- Permutation_middle. by constructor.
  - by constructor.
Qed.

Lemma next_reply_not_a_list groq :
  Forall results_not_a_list groq →
  fst (next_reply groq) = Raises ∨ results_not_a_list (fst (next_reply groq)).
Proof. intros [|reply later Hr _]; simpl; auto. Qed.

Lemma run_filter_unfiltered reply is_idx h entries :
  reply = Raises ∨ results_not_a_list reply →
  _run_filter reply is_idx h entries = (h, entries).
Proof. intros [->|Hr]; [done|by apply run_filter_not_a_list]. Qed.

Lemma route_unfiltered groq h entries :
  Forall results_not_a_list groq →
  fst (fst (route_batch groq h entries)) = h ∧
  snd (fst (route_batch groq h entries)) ≡ₚ entries.
Proof.
  intros Hall. unfold route_batch.
  pose proof (split_by_kind (is_idx_entry h) entries) as Hperm.
  destruct (List.filter (λ l, negb (is_idx_entry h l)) entries) as [|n ns] eqn:Hnews.
  - destruct (List.filter (is_idx_entry h) entries) as [|i ixs] eqn:Hidx.
    + simpl in *. done.
    + destruct (next_reply groq) as [reply later] eqn:Hnext.
      rewrite run_filter_unfiltered.
      * simpl in *. done.
      * pose proof (next_reply_not_a_list groq Hall) as Hr. by rewrite Hnext in Hr.
  - destruct (next_reply groq) as [reply later] eqn:Hnext.
    assert (Hlater : Forall results_not_a_list later).
    { destruct Hall; simpl in Hnext; injection Hnext as <- <-; [constructor|done]. }
    rewrite run_filter_unfiltered.
    2:{ pose proof (next_reply_not_a_list groq Hall) as Hr. by rewrite Hnext in Hr. }
    destruct (List.filter (is_idx_entry h) entries) as [|i ixs] eqn:Hidx.
    + simpl. split; [done|]. by rewrite app_nil_r in Hperm.
    + destruct (next_reply later) as [reply' later'] eqn:Hnext'.
      rewrite run_filter_unfiltered.
      * simpl. done.
      * pose proof (next_reply_not_a_list later Hlater) as Hr. by rewrite Hnext' in Hr.
Qed.

Lemma batch_unfiltered groq h entries :
  Forall results_not_a_list groq →
  fst (fst (filter_news_batch groq h entries)) = h ∧
  snd (fst (filter_news_batch groq h entries)) ≡ₚ entries.
Proof.
  intros Hall. destruct entries as [|l0 rest0]; [done|]. by apply route_unfiltered.
Qed.

Lemma route_selects groq h entries l :
  l ∈ snd (fst (route_batch groq h entries)) → l ∈ entries.
Proof.
  unfold route_batch.
  assert (Hnews : ∀ x, x ∈ List.filter (λ l, negb (is_idx_entry h l)) entries → x ∈ entries).
  { intros x Hx. apply list_elem_of_In in Hx. apply filter_In in Hx as [Hx _].
    by apply list_elem_of_In. }
  assert (Hidx : ∀ x, x ∈ List.filter (is_idx_entry h) entries → x ∈ entries).
  { intros x Hx. apply list_elem_of_In in Hx. apply filter_In in Hx as [Hx _].
    by apply list_elem_of_In. }
  destruct (List.filter (λ l, negb (is_idx_entry h l)) entries) as [|n ns].
  - destruct (List.filter (is_idx_entry h) entries) as [|i ixs];
      [simpl; intros Hin; by apply elem_of_nil in Hin|].
    destruct (next_reply groq) as [reply later].
    destruct (_run_filter reply true h (i :: ixs)) as [h1 kept] eqn:Hrun. simpl.
    intros Hin. apply Hidx. apply (run_filter_selects reply true h). by rewrite Hrun.
  - destruct (next_reply groq) as [reply later].
    destruct (_run_filter reply false h (n :: ns)) as [h1 kept] eqn:Hrun.
    assert (Hkept : ∀ x, x ∈ kept → x ∈ entries).
    { intros x Hx. apply Hnews. apply (run_filter_selects reply false h). by rewrite Hrun. }
    destruct (List.filter (is_idx_entry h) entries) as [|i ixs]; [by apply Hkept|].
    destruct (next_reply later) as [reply' later'].
    destruct (_run_filter reply' true h1 (i :: ixs)) as [h2 kept'] eqn:Hrun'. simpl.
    intros Hin. apply elem_of_app in Hin as [Hin|Hin]; [by apply Hkept|].
    apply Hidx. apply (run_filter_selects reply' true h1). by rewrite Hrun'.
Qed.

Lemma batch_selects groq h entries l :
  l ∈ snd (fst (filter_news_batch groq h entries)) → l ∈ entries.
Proof.
  destruct entries as [|l0 rest0]; [done|]. apply route_selects.
Qed.

(** ** Examples *)

Definition verdict (index : Z) (relevant : bool) : json :=
  JObj [("index", JInt index); ("relevant", JBool relevant);
        ("category", JStr "Market"); ("sentiment", JStr "bullish");
        ("reason", JStr "IHSG menguat")].

(** A well-formed reply that keeps the first of two entries. *)
Example run_filter_keeps_relevant :
  snd (_run_filter (reply_results (JList [verdict 1 true; verdict 2 false]))
         false sample_heap [0%nat; 1%nat]) = [0%nat] ∧
  p_filter_sentiment <$>
    fst (_run_filter (reply_results (JList [verdict 1 true; verdict 2 false]))
           false sample_heap [0%nat; 1%nat]) !! 0%nat = Some (Some "bullish").
Proof. split; vm_compute; reflexivity. Qed.

(** A float index that is in range leaves the loop by a TypeError: the
    whole batch comes back. *)
Example run_filter_float_index :
  snd (_run_filter
         (reply_results (JList [JObj [("index", JFloat (Finite 1)); ("relevant", JBool true)]]))
         false sample_heap [0%nat; 1%nat]) = [0%nat; 1%nat].
Proof. vm_compute. reflexivity. Qed.

(** A missing ["results"] member defaults to the empty list: nothing is
    kept. *)
Example run_filter_no_results_member :
  snd (_run_filter (Returns (JObj [])) false sample_heap [0%nat; 1%nat]) = [].
Proof. reflexivity. Qed.

(** C4.  When the classifier's reply has a ["results"] member that is not
    a list, [_run_filter] returns the batch it was given, unchanged and
    with no entry touched; and when every reply of a [filter_news_batch]
    call is of that kind, every entry of the submitted batch comes back
    (news entries first, disclosure entries after them). *)
Theorem non_list_results_pass_through :
  (∀ reply is_idx (h : heap) entries,
     results_not_a_list reply →
     _run_filter reply is_idx h entries = (h, entries)) ∧
  (∀ groq (h : heap) entries,
     Forall results_not_a_list groq →
     fst (fst (filter_news_batch groq h entries)) = h ∧
     snd (fst (filter_news_batch groq h entries)) ≡ₚ entries).
Proof.
  split.
  - intros reply is_idx h entries. apply run_filter_not_a_list.
  - intros groq h entries. apply batch_unfiltered.
Qed.

Lemma non_list_results_pass_through_witness :
  _run_filter (reply_results (JStr "semua relevan")) false sample_heap [0%nat; 1%nat]
  = (sample_heap, [0%nat; 1%nat]).
Proof.
  apply (proj1 non_list_results_pass_through).
  exists [("results", JStr "semua relevan")], (JStr "semua relevan").
  split; [reflexivity|]. split; [reflexivity|]. discriminate.
Defined.

(** C10.  Every reference in the list returned by [filter_news_batch], and
    by [_run_filter], is a reference of the input list: the filter selects
    (and annotates in place) entries of its batch and never makes one up.
    On each fallback [_run_filter] returns exactly its input list. *)
Theorem filter_returns_input_entries :
  (∀ groq (h : heap) entries l,
     l ∈ snd (fst (filter_news_batch groq h entries)) → l ∈ entries) ∧
  (∀ reply is_idx (h : heap) entries l,
     l ∈ snd (_run_filter reply is_idx h entries) → l ∈ entries) ∧
  (∀ reply is_idx (h : heap) entries,
     falls_back reply is_idx h entries →
     snd (_run_filter reply is_idx h entries) = entries).
Proof.
  split; [|split].
  - intros groq h entries l. apply batch_selects.
  - intros reply is_idx h entries l. apply run_filter_selects.
  - intros reply is_idx h entries. apply run_filter_falls_back.
Qed.

Lemma filter_returns_input_entries_witness :
  1%nat ∈ snd (fst (filter_news_batch
                      [reply_results (JList [verdict 1 false]);
                       reply_results (JList [verdict 1 true])]
                      sample_heap [0%nat; 1%nat])) ∧
  1%nat ∈ [0%nat; 1%nat].
Proof.
  assert (Hin : 1%nat ∈ snd (fst (filter_news_batch
                      [reply_results (JList [verdict 1 false]);
                       reply_results (JList [verdict 1 true])]
                      sample_heap [0%nat; 1%nat]))).
  { vm_compute. left. }
  split; [exact Hin|].
  exact (proj1 filter_returns_input_entries _ _ _ _ Hin).
Defined.

End Llm.

(* ===================================================================== *)
(** * scraper.py: the content extraction cascade                          *)
(* ===================================================================== *)

(** What the selector extraction sees of a parsed page.  An element is
    given by the stripped texts of its [<p>] descendants and by its whole
    text, both read after the noise elements were removed. *)
Record element := Element {
  paragraphs : list string;       (* [p.get_text(strip=True) for p in el.find_all("p")] *)
  all_text : string               (* el.get_text(separator="\n", strip=True) *)
}.

Record soup := Soup {
  select_one : string → option element;
  body_paragraphs : list string   (* the same for soup.find_all("p") *)
}.

(** The network and the parsing libraries. *)
Class Web := {
  (* session.get(url, timeout=15): status code and text *)
  http_get : string → outcome (Z * string);
  (* Article(url); set_html(html); parse(); art.text *)
  newspaper_text : string → string → outcome string;
  (* BeautifulSoup(html, "html.parser") and the queries on it *)
  parse_html : string → outcome soup;
  (* requests.get(url, timeout=30): status code, content-type, content *)
  pdf_get : string → outcome (Z * string * string);
  (* fitz: the page texts joined by newlines *)
  pdf_pages_text : string → outcome string
}.

(** The browser automation library. *)
Class Playwright := {
  (* sync_playwright().__enter__() and pw.chromium.launch(...) *)
  launch : string → outcome unit;
  (* new_context ... page.content(): the successive (title, content) reads
     of the challenge loop and the content read after scrolling *)
  render : string → outcome (list (string * string) * string);
  (* new_context, new_page, the visit to the disclosure site *)
  open_pdf_page : string → outcome unit;
  (* method A: the bytes fetched in the page, when the fetch gave any *)
  js_fetch : string → outcome (option string);
  (* method B: the bytes of the downloaded file *)
  download : string → outcome string
}.

(** What a run of the cascade did, as far as the properties tell. *)
Inductive event :=
| HttpGet (url : string)
| BrowserLaunch (url : string)
| ChallengeWait (seconds : Z)
| BrowserClose.

Module Scraper.

Definition newline : string := String (ascii_of_nat 10) "".

Definition is_blank (c : ascii) : bool :=
  Nat.eqb (nat_of_ascii c) 32 || Nat.eqb (nat_of_ascii c) 9.

(** [str.strip] removes these (the ASCII whitespace characters). *)
Definition is_space (c : ascii) : bool :=
  let n := nat_of_ascii c in
  Nat.eqb n 32 || (Nat.leb 9 n && Nat.leb n 13) || (Nat.leb 28 n && Nat.leb n 31).

(** [re.sub(r"\n{3,}", "\n\n", text)]: of a run of newlines the first two
    stay. *)
Fixpoint collapse_newlines (run : nat) (text : string) : string :=
  match text with
  | EmptyString => EmptyString
  | String c rest =>
      if Nat.eqb (nat_of_ascii c) 10 then
        if Nat.leb 2 run then collapse_newlines (S run) rest
        else String c (collapse_newlines (S run) rest)
      else String c (collapse_newlines 0 rest)
  end.

(** [re.sub(r"[ \t]{2,}", " ", text)]: a run of two or more blanks becomes
    one space, a single blank stays as it is. *)
Fixpoint collapse_blanks (skipping : bool) (text : string) : string :=
  match text with
  | EmptyString => EmptyString
  | String c rest =>
      if is_blank c then
        if skipping then collapse_blanks true rest
        else
          match rest with
          | String c' _ =>
              if is_blank c' then String " " (collapse_blanks true rest)
              else String c (collapse_blanks false rest)
          | EmptyString => String c EmptyString
          end
      else String c (collapse_blanks false rest)
  end.

Fixpoint lstrip (text : string) : string :=
  match text with
  | EmptyString => EmptyString
  | String c rest => if is_space c then lstrip rest else text
  end.

Fixpoint rstrip (text : string) : string :=
  match text with
  | EmptyString => EmptyString
  | String c rest =>
      match rstrip rest with
      | EmptyString => if is_space c then EmptyString else String c EmptyString
      | kept => String c kept
      end
  end.

Definition strip (text : string) : string := rstrip (lstrip text).

(** helpers.py *)
Definition clean_text (text : string) : string :=
  strip (collapse_blanks false (collapse_newlines 0 text)).

Definition contains (needle haystack : string) : bool :=
  match index 0 needle haystack with Some _ => true | None => false end.

Definition CLOUDFLARE_MARKERS : list string :=
  [ "just a moment"; "tunggu sebentar"; "un moment";
    "einen moment"; "un momento"; "aguarde";
    "challenge-platform"; "cf-challenge"; "cf_chl_opt" ].

(** helpers.py *)
Definition is_cloudflare_blocked `{PyStr} (text : string) : bool :=
  let lower := str_lower (substring 0 3000 text) in
  existsb (λ marker, contains marker lower) CLOUDFLARE_MARKERS.

Definition ends_with (suffix text : string) : bool :=
  String.eqb (substring (String.length text - String.length suffix)
                        (String.length suffix) text) suffix
  && Nat.leb (String.length suffix) (String.length text).

Definition is_pdf_url `{PyStr} (url : string) : bool :=
  ends_with ".pdf" (str_lower url) || contains "/pdf/" (str_lower url).

Definition long_enough (text : string) : bool :=
  Nat.leb Helpers.MIN_CONTENT_LENGTH (String.length text).

(** [text and len(text) >= MIN_CONTENT_LENGTH] *)
Definition usable (text : string) : bool :=
  negb (String.eqb text "") && long_enough text.

(** The selectors, most specific first (the quotes inside the attribute
    selectors are left out; the strings only name the queries). *)
Definition ARTICLE_SELECTORS : list string :=
  [ "div.detail-in"; "div.article";
    ".detail__body-text"; ".read__content"; ".article__content"; ".article-body";
    ".post-content"; ".entry-content"; ".story-body"; ".content-body";
    ".detail-content"; ".newsDetail";
    "[class*=article-body]"; "[class*=article-content]"; "[class*=post-content]";
    "[class*=entry-content]"; "[class*=story-body]"; "[class*=content-body]";
    "[class*=detail-content]"; "[itemprop=articleBody]";
    "article" ].

Definition join_paragraphs (texts : list string) : string :=
  String.concat (newline +:+ newline) texts.

Definition longer_than (n : nat) (t : string) : bool := Nat.ltb n (String.length t).

(** One selector of the loop of [_extract_from_selectors]: the text to
    return, if this selector gives one. *)
Definition from_element (el : element) : option string :=
  let from_paragraphs :=
    match paragraphs el with
    | [] => None
    | ps =>
        let text := join_paragraphs (List.filter (longer_than 20) ps) in
        if long_enough text then Some text else None
    end in
  match from_paragraphs with
  | Some text => Some text
  | None => if long_enough (all_text el) then Some (all_text el) else None
  end.

Fixpoint try_selectors (page : soup) (selectors : list string) : option string :=
  match selectors with
  | [] => None
  | sel :: rest =>
      match select_one page sel with
      | None => try_selectors page rest
      | Some el =>
          match from_element el with
          | Some text => Some text
          | None => try_selectors page rest
          end
      end
  end.

Definition last_resort (page : soup) : option string :=
  match List.filter (longer_than 30) (body_paragraphs page) with
  | [] => None
  | texts =>
      let combined := join_paragraphs texts in
      if long_enough combined then Some combined else None
  end.

Definition _extract_from_selectors `{Web} (html_content : string) : option string :=
  match parse_html html_content with
  | Raises => None                                       (* except Exception: pass *)
  | Returns page =>
      match try_selectors page ARTICLE_SELECTORS with
      | Some text => Some text
      | None => last_resort page
      end
  end.

(** The two extraction attempts on a fetched page, shared by the network
    path and the browser path: newspaper first, then the selectors.
    [Raises] when newspaper raises. *)
Definition extract_article `{Web} (url html : string) : outcome (option string) :=
  match newspaper_text url html with
  | Raises => Raises
  | Returns art_text =>
      if usable art_text then Returns (Some (clean_text art_text))
      else
        match _extract_from_selectors html with
        | Some text => if usable text then Returns (Some (clean_text text)) else Returns None
        | None => Returns None
        end
  end.

(** The [for attempt in range(3)] loop: the waits made while the title or
    the content still shows a challenge. *)
Fixpoint challenge_waits `{PyStr} (attempt : Z) (budget : nat)
    (reads : list (string * string)) : list event :=
  match budget, reads with
  | S budget, (title, html_content) :: later =>
      if negb (is_cloudflare_blocked title) && negb (is_cloudflare_blocked html_content)
      then []
      else ChallengeWait (8 + attempt * 5) :: challenge_waits (attempt + 1) budget later
  | _, _ => []
  end.

(** [_run_browser_html]: the events and the result.  The launch stands
    before the [try]; what raises inside the [try] is logged and gives
    [None]. *)
Definition _run_browser_html `{PyStr} `{Web} `{Playwright} (url : string)
  : list event * outcome (option string) :=
  match launch url with
  | Raises => ([BrowserLaunch url], Raises)
  | Returns _ =>
      match render url with
      | Raises => ([BrowserLaunch url; BrowserClose], Returns None)
      | Returns (reads, html_content) =>
          let waits := challenge_waits 0 3 reads in
          let result :=
            if negb (String.eqb html_content "") && negb (is_cloudflare_blocked html_content)
            then
              match extract_article url html_content with
              | Returns found => found
              | Raises => None                           (* except Exception *)
              end
            else None in
          (BrowserLaunch url :: waits ++ [BrowserClose], Returns result)
      end
  end.

(** [_scrape_html] *)
Definition _scrape_html `{PyStr} `{Web} `{Playwright} (url : string)
  : list event * outcome (option string) :=
  let first :=
    match http_get url with
    | Raises => None
    | Returns (status_code, text) =>
        if (status_code =? 200) && negb (is_cloudflare_blocked text) then
          match extract_article url text with
          | Returns found => found
          | Raises => None
          end
        else None
    end in
  match first with
  | Some text => ([HttpGet url], Returns (Some text))
  | None =>
      let '(events, result) := _run_browser_html url in
      (HttpGet url :: events, result)
  end.

(** [extract_pdf_text_from_bytes] *)
Definition extract_pdf_text_from_bytes `{Web} (pdf_bytes : string) : outcome string :=
  match pdf_pages_text pdf_bytes with
  | Returns text => Returns (clean_text text)
  | Raises => Raises
  end.

(** The text of a downloaded document when it is long enough:
    [len(pdf_bytes) > 100], then the extraction and the length test. *)
Definition document_text `{Web} (pdf_bytes : string) : outcome (option string) :=
  if Nat.ltb 100 (String.length pdf_bytes) then
    match extract_pdf_text_from_bytes pdf_bytes with
    | Returns text => Returns (if usable text then Some text else None)
    | Raises => Raises
    end
  else Returns None.

(** [_run_browser_pdf] *)
Definition _run_browser_pdf `{Web} `{Playwright} (url : string)
  : list event * outcome (option string) :=
  match launch url with
  | Raises => ([BrowserLaunch url], Raises)
  | Returns _ =>
      let result :=
        match open_pdf_page url with
        | Raises => None
        | Returns _ =>
            let method_a :=
              match js_fetch url with
              | Returns (Some pdf_bytes) =>
                  if String.eqb pdf_bytes "" then None
                  else match document_text pdf_bytes with
                       | Returns found => found
                       | Raises => None
                       end
              | _ => None
              end in
            match method_a with
            | Some text => Some text
            | None =>
                match download url with
                | Returns pdf_bytes =>
                    if String.eqb pdf_bytes "" then None
                    else match document_text pdf_bytes with
                         | Returns found => found
                         | Raises => None
                         end
                | Raises => None
                end
            end
        end in
      ([BrowserLaunch url; BrowserClose], Returns result)
  end.

(** [_scrape_pdf] *)
Definition _scrape_pdf `{PyStr} `{Web} `{Playwright} (url : string)
  : list event * outcome (option string) :=
  let first :=
    match pdf_get url with
    | Raises => None
    | Returns (status_code, content_type, content) =>
        if (status_code =? 200) && contains "pdf" (str_lower content_type) then
          match extract_pdf_text_from_bytes content with
          | Returns text => if usable text then Some text else None
          | Raises => None
          end
        else None
    end in
  match first with
  | Some text => ([HttpGet url], Returns (Some text))
  | None =>
      let '(events, result) := _run_browser_pdf url in
      (HttpGet url :: events, result)
  end.

Definition scrape_article `{PyStr} `{Web} `{Playwright} (url : string)
  : list event * outcome (option string) :=
  if is_pdf_url url then _scrape_pdf url else _scrape_html url.

(** The head of llm.py's [analyze_single]: the content handed to the
    analysis prompt. *)
Definition analysis_content `{PyStr} `{Web} `{Playwright}
    (record : news_record) : outcome string :=
  match snd (scrape_article (r_url record)) with
  | Raises => Raises
  | Returns content =>
      match content with
      | Some text =>
          if negb (String.eqb text "") && long_enough text then Returns text
          else Returns (r_title record +:+ newline +:+ newline +:+ r_rss_summary record)
      | None => Returns (r_title record +:+ newline +:+ newline +:+ r_rss_summary record)
      end
  end.

Definition browser_used (events : list event) : bool :=
  existsb (λ ev, match ev with BrowserLaunch _ => true | _ => false end) events.

(** ** Concrete worlds for the examples *)

Fixpoint spaces (n : nat) : string :=
  match n with
  | O => EmptyString
  | S n => String " " (spaces n)
  end.

(** A paragraph as it stands in a page whose source wraps and indents its
    text: 120 characters, 31 of them once the blanks are collapsed. *)
Definition padded_paragraph : string :=
  "Harga saham naik." +:+ spaces 90 +:+ "IHSG menguat.".

Definition padded_page : soup :=
  {| select_one := λ sel,
       if String.eqb sel "article"
       then Some {| paragraphs := [padded_paragraph]; all_text := padded_paragraph |}
       else None;
     body_paragraphs := [padded_paragraph] |}.

(** The network answers 200 with a page on which newspaper finds no text
    and the [article] selector finds the padded paragraph. *)
Definition padded_web : Web :=
  {| http_get := λ _, Returns (200, "<html><article><p>...</p></article></html>");
     newspaper_text := λ _ _, Returns "";
     parse_html := λ _, Returns padded_page;
     pdf_get := λ _, Raises;
     pdf_pages_text := λ _, Raises |}.

(** The network is down. *)
Definition offline_web : Web :=
  {| http_get := λ _, Raises;
     newspaper_text := λ _ _, Raises;
     parse_html := λ _, Raises;
     pdf_get := λ _, Raises;
     pdf_pages_text := λ _, Raises |}.

(** The browser cannot be started (no Chromium on the machine). *)
Definition no_browser : Playwright :=
  {| launch := λ _, Raises;
     render := λ _, Raises;
     open_pdf_page := λ _, Raises;
     js_fetch := λ _, Raises;
     download := λ _, Raises |}.

Definition ascii_lower_char (c : ascii) : ascii :=
  let n := nat_of_ascii c in
  if Nat.leb 65 n && Nat.leb n 90 then ascii_of_nat (n + 32) else c.

Definition ascii_upper_char (c : ascii) : ascii :=
  let n := nat_of_ascii c in
  if Nat.leb 97 n && Nat.leb n 122 then ascii_of_nat (n - 32) else c.

Definition ascii_is_letter (c : ascii) : bool :=
  let n := nat_of_ascii c in
  (Nat.leb 65 n && Nat.leb n 90) || (Nat.leb 97 n && Nat.leb n 122).

Fixpoint map_chars (f : ascii → ascii) (s : string) : string :=
  match s with
  | EmptyString => EmptyString
  | String c rest => String (f c) (map_chars f rest)
  end.

Fixpoint all_chars (f : ascii → bool) (s : string) : bool :=
  match s with
  | EmptyString => true
  | String c rest => f c && all_chars f rest
  end.

(** The three string methods on ASCII text. *)
Definition ascii_pystr : PyStr :=
  {| str_lower := map_chars ascii_lower_char;
     str_upper := map_chars ascii_upper_char;
     str_isalpha := λ s, negb (String.eqb s "") && all_chars ascii_is_letter s |}.

Definition sample_news (url : string) : news_record :=
  {| r_title := "IHSG menguat"; r_url := url;
     r_published_at := "2024-05-01T03:00:00+00:00";
     r_source_id := 1; r_source_name := "feed"; r_source_type := "rss";
     r_category := "Market"; r_sentiment := "neutral"; r_ticker := None;
     r_rss_summary := "Indeks naik 1 persen."; r_status := "raw";
     r_sub_category := None; r_id := Some "0a1b2c3d"; r_filepath := None |}.

(** ** The length test of each strategy *)

Section Cascade.
Context `{PyStr} `{Web} `{Playwright}.

Lemma from_element_long el text :
  from_element el = Some text → long_enough text = true.
Proof.
  unfold from_element.
  destruct (paragraphs el) as [|p ps].
  - destruct (long_enough (all_text el)) eqn:Hall; [|done]. by intros [= <-].
  - destruct (long_enough (join_paragraphs _)) eqn:Hjoin; [by intros [= <-]|].
    destruct (long_enough (all_text el)) eqn:Hall; [|done]. by intros [= <-].
Qed.

Lemma try_selectors_long page selectors text :
  try_selectors page selectors = Some text → long_enough text = true.
Proof.
  induction selectors as [|sel rest IH]; simpl; [done|].
  destruct (select_one page sel) as [el|]; [|done].
  destruct (from_element el) as [found|] eqn:Hel; [|done].
  intros [= <-]. by apply from_element_long with el.
Qed.

(** The selector extraction only returns texts that meet the threshold
    (as they are, before any cleaning). *)
Lemma extract_from_selectors_long html text :
  _extract_from_selectors html = Some text → long_enough text = true.
Proof.
  unfold _extract_from_selectors.
  destruct (parse_html html) as [page|]; [|done].
  destruct (try_selectors page ARTICLE_SELECTORS) as [found|] eqn:Hsel.
  - intros [= <-]. by apply try_selectors_long with page ARTICLE_SELECTORS.
  - unfold last_resort. destruct (List.filter _ _) as [|t ts]; [done|].
    destruct (long_enough _) eqn:Hlong; [|done]. by intros [= <-].
Qed.

Lemma document_text_long pdf_bytes text :
  document_text pdf_bytes = Returns (Some text) → long_enough text = true.
Proof.
  unfold document_text. destruct (Nat.ltb 100 _); [|done].
  destruct (extract_pdf_text_from_bytes pdf_bytes) as [t|]; [|done].
  destruct (usable t) eqn:Hu; [|done]. intros [= <-].
  unfold usable in Hu. by apply andb_true_iff in Hu as [_ ?].
Qed.

(** The document pipeline tests the text it returns: every text that
    [_scrape_pdf] gives meets the threshold. *)
Lemma scrape_pdf_long url text :
  snd (_scrape_pdf url) = Returns (Some text) → long_enough text = true.
Proof.
  unfold _scrape_pdf.
  assert (Hbrowser : snd (_run_browser_pdf url) = Returns (Some text) →
            long_enough text = true).
  { unfold _run_browser_pdf. destruct (launch url); [|done]. simpl.
    destruct (open_pdf_page url); [|done].
    assert (Hdoc : ∀ b, (if String.eqb b "" then None
                         else match document_text b with
                              | Returns found => found
                              | Raises => None
                              end) = Some text → long_enough text = true).
    { intros b. destruct (String.eqb b ""); [done|].
      destruct (document_text b) as [[t|]|] eqn:Hd; try done.
      intros [= ->]. by apply document_text_long with b. }
    destruct (js_fetch url) as [[b|]|].
    - destruct (if String.eqb b "" then None else _) as [t|] eqn:Ha.
      + intros [= <-]. by apply (Hdoc b).
      + destruct (download url) as [b'|]; [|done]. intros [= Hb]. by apply (Hdoc b').
    - destruct (download url) as [b'|]; [|done]. intros [= Hb]. by apply (Hdoc b').
    - destruct (download url) as [b'|]; [|done]. intros [= Hb]. by apply (Hdoc b'). }
  destruct (pdf_get url) as [[[status content_type] content]|].
  - destruct ((status =? 200) && contains "pdf" (str_lower content_type)).
    + destruct (extract_pdf_text_from_bytes content) as [t|].
      * destruct (usable t) eqn:Hu.
        -- simpl. intros [= <-]. unfold usable in Hu. by apply andb_true_iff in Hu as [_ ?].
        -- destruct (_run_browser_pdf url) as [events result]. simpl in *. done.
      * destruct (_run_browser_pdf url) as [events result]. simpl in *. done.
    + destruct (_run_browser_pdf url) as [events result]. simpl in *. done.
  - destruct (_run_browser_pdf url) as [events result]. simpl in *. done.
Qed.

End Cascade.


(** ** C7: a successful HTML extraction below the threshold

    [_scrape_html] tests [len(text) >= MIN_CONTENT_LENGTH] on the extracted
    text and returns [clean_text(text)]: for the padded page the text
    tested has 120 characters and the text returned has 31.  (The document
    pipeline tests the text it returns, see [scrape_pdf_long].) *)
Lemma scrape_article_below_threshold :
  String.length padded_paragraph = 120%nat ∧
  @_extract_from_selectors padded_web "<html><article><p>...</p></article></html>"
    = Some padded_paragraph ∧
  snd (@scrape_article ascii_pystr padded_web no_browser "https://a.example/news/1")
    = Returns (Some "Harga saham naik. IHSG menguat.") ∧
  String.length "Harga saham naik. IHSG menguat." = 31%nat ∧
  Helpers.MIN_CONTENT_LENGTH = 100%nat.
Proof. repeat split; vm_compute; reflexivity. Qed.

(** ** C8: an extraction failure that leaves the boundary

    [pw.chromium.launch(...)] stands before the [try] of
    [_run_browser_html] (and of [_run_browser_pdf]): when the network fetch
    fails and the browser cannot be started, the exception leaves
    [scrape_article], and [analyze_single], which calls it outside any
    [try], is aborted. *)
Lemma scrape_article_raises :
  snd (@scrape_article ascii_pystr offline_web no_browser "https://a.example/news/1")
    = Raises ∧
  snd (@scrape_article ascii_pystr offline_web no_browser "https://a.example/doc.pdf")
    = Raises ∧
  @analysis_content ascii_pystr offline_web no_browser
     (sample_news "https://a.example/news/1") = Raises.
Proof. repeat split; vm_compute; reflexivity. Qed.

Section Boundary.
Context `{PyStr} `{Web} `{Playwright}.



(** ** C9: the cascade stops at the network fetch *)

Lemma extract_article_found url html :
  (∃ art_text, newspaper_text url html = Returns art_text ∧
     (usable art_text = true ∨
      ∃ text, _extract_from_selectors html = Some text ∧ usable text = true)) →
  ∃ text, extract_article url html = Returns (Some text).
Proof.
  intros (art_text & Hnews & Hcase). unfold extract_article. rewrite Hnews.
  destruct (usable art_text) eqn:Hart; [by eexists|].
  destruct Hcase as [?|(text & Hsel & Husable)]; [done|].
  rewrite Hsel, Husable. by eexists.
Qed.

End Boundary.

(** C9.  When the network fetch answers 200 with a page that shows no
    challenge marker, and newspaper or, failing that, the selector
    extraction yields a text that meets the length threshold, then
    [_scrape_html] (and [scrape_article] on a URL that is not a document)
    returns a text after the single network request: the browser is never
    launched. *)
Theorem network_fetch_short_circuits `{PyStr} `{Web} `{Playwright} (url html : string) :
  http_get url = Returns (200, html) →
  is_cloudflare_blocked html = false →
  (∃ art_text, newspaper_text url html = Returns art_text ∧
     (usable art_text = true ∨
      ∃ text, _extract_from_selectors html = Some text ∧ usable text = true)) →
  fst (_scrape_html url) = [HttpGet url] ∧
  browser_used (fst (_scrape_html url)) = false ∧
  (∃ text, snd (_scrape_html url) = Returns (Some text)) ∧
  (is_pdf_url url = false → scrape_article url = _scrape_html url).
Proof.
  intros Hget Hclear Hfound.
  destruct (extract_article_found url html Hfound) as [text Htext].
  unfold _scrape_html. rewrite Hget, Hclear, Htext. simpl.
  repeat split; [by eexists|].
  intros Hpdf. unfold scrape_article. rewrite Hpdf.
  unfold _scrape_html. by rewrite Hget, Hclear, Htext.
Qed.

(** A page on which newspaper finds the article. *)
Definition long_article : string :=
  "Indeks Harga Saham Gabungan ditutup menguat pada perdagangan hari ini, "
  +:+ "didorong aksi beli investor asing pada saham perbankan besar.".

Definition article_web : Web :=
  {| http_get := λ _, Returns (200, "<html>...</html>");
     newspaper_text := λ _ _, Returns long_article;
     parse_html := λ _, Raises;
     pdf_get := λ _, Raises;
     pdf_pages_text := λ _, Raises |}.

Lemma network_fetch_short_circuits_witness :
  fst (@_scrape_html ascii_pystr article_web no_browser "https://a.example/news/2")
    = [HttpGet "https://a.example/news/2"] ∧
  browser_used (fst (@_scrape_html ascii_pystr article_web no_browser
                       "https://a.example/news/2")) = false ∧
  (∃ text, snd (@_scrape_html ascii_pystr article_web no_browser
                  "https://a.example/news/2") = Returns (Some text)) ∧
  (@is_pdf_url ascii_pystr "https://a.example/news/2" = false →
   @scrape_article ascii_pystr article_web no_browser "https://a.example/news/2"
   = @_scrape_html ascii_pystr article_web no_browser "https://a.example/news/2").
Proof.
  apply (@network_fetch_short_circuits ascii_pystr article_web no_browser
           "https://a.example/news/2" "<html>...</html>").
  - reflexivity.
  - vm_compute. reflexivity.
  - exists long_article. split; [reflexivity|]. left. vm_compute. reflexivity.
Defined.

End Scraper.

(* ===================================================================== *)
(** * commands.py: the collection cycle                                   *)
(* ===================================================================== *)

(** A source descriptor, as [load_sources] returns it. *)
Record source := Source {
  s_id : Z;                 (* "id" *)
  s_name : string;          (* "name" *)
  s_feed_url : string;      (* "feed_url" *)
  s_type : string;          (* source.get("type", "rss") *)
  s_category : string       (* source.get("category", "Market") *)
}.

(** One value of the state dictionary. *)
Record watermark := Watermark {
  last_top_link : option string;
  last_scraped_at : string;
  wm_name : string
}.

(** The state dictionary: source id (as a string) to watermark. *)
Abbreviation pipeline_state := (gmap string watermark).

(** The feed adapters of sources.py, each raising or returning the
    entries newest first, and [extract_rss_summary]. *)
Class Feeds := {
  parse_feed : string → outcome (list raw_entry);
  fetch_idx_announcements : string → outcome (list raw_entry);
  fetch_stockbit_news : string → outcome (list raw_entry);
  extract_rss_summary : raw_entry → string
}.

(** What [cmd_collect] asks of the object [get_store()] returns. *)
Class NewsStore (S : Type) := {
  store_save : news_record → stateM S bool;
  store_get_by_id : string → stateM S (option news_record)
}.

#[global] Instance json_news_store `{PyStr} `{Difflib} `{Hashlib} `{FileNames}
  : NewsStore JSONStore.t :=
  {| store_save := JSONStore.save; store_get_by_id := JSONStore.get_by_id |}.

#[global] Instance supabase_news_store `{PyStr} `{Difflib} `{Hashlib}
  : NewsStore SupabaseDB.t :=
  {| store_save := SupabaseDB.save; store_get_by_id := SupabaseDB.get_by_id |}.

(** What a cycle does to the outside, in the order it does it. *)
Inductive cycle_event :=
| FetchCall (sid : string) (fetched : bool)
| FilterCall (batch : list loc)
| StoreCall (record : news_record) (inserted : bool) (saved : option news_record)
| Notify (records : list news_record)
| SaveState (state : pipeline_state).

Module Commands.

Definition sid (src : source) : string := pretty (s_id src).   (* str(source["id"]) *)

Definition fetch_entries `{Feeds} (src : source) : outcome (list raw_entry) :=
  if String.eqb (s_type src) "idx_api" then fetch_idx_announcements (s_feed_url src)
  else if String.eqb (s_type src) "stockbit_api" then fetch_stockbit_news (s_feed_url src)
  else parse_feed (s_feed_url src).

Definition fetched `{Feeds} (src : source) : bool :=
  match fetch_entries src with Returns _ => true | Raises => false end.

(** One turn of the scan loop: what is appended to [all_new], if
    anything. *)
Definition scan_source `{Feeds} (state : pipeline_state) (src : source)
  : option (source * list raw_entry * option string) :=
  match fetch_entries src with
  | Raises => None                                      (* except Exception: continue *)
  | Returns [] => None                                  (* if not entries: continue *)
  | Returns entries =>
      let last_link := state !! sid src ≫= last_top_link in
      let '(new_entries, top_link) := Sources.get_new_entries entries last_link in
      match new_entries with
      | [] => None                                      (* up to date *)
      | _ => Some (src, new_entries, top_link)
      end
  end.

Definition scan_sources `{Feeds} (state : pipeline_state) (sources : list source)
  : list (source * list raw_entry * option string) :=
  omap (scan_source state) sources.

(** Phase 2, one entry: skipped without a URL; the timestamp
    normalisation may raise. *)
Definition parse_entry `{Feeds} `{DateLib} (src : source) (e : raw_entry)
  : outcome (option entry) :=
  let url := or_str (e_link e) (Some (get_default (e_titleurl e) "")) in
  if truthy_str url then
    match Helpers.parse_published_date e (s_type src) with
    | Raises => Raises
    | Returns published_at =>
        Returns (Some
          {| p_title := get_default (e_title e) "";
             p_url := get_default url "";
             p_published_at := published_at;
             p_source_id := s_id src;
             p_source_name := s_name src;
             p_source_type := s_type src;
             p_rss_summary := extract_rss_summary e;
             p_source_category := s_category src;
             p_emiten := get_default (e_emiten e) "";
             p_attachments := match e_attachments e with Some l => l | None => [] end;
             p_filter_category := None; p_filter_sub_category := None;
             p_is_lapkeu := false; p_filter_sentiment := None;
             p_filter_reason := None |})
    end
  else Returns None.

Fixpoint parse_entries `{Feeds} `{DateLib} (src : source) (entries : list raw_entry)
  : outcome (list entry) :=
  match entries with
  | [] => Returns []
  | e :: rest =>
      match parse_entry src e with
      | Raises => Raises
      | Returns parsed =>
          match parse_entries src rest with
          | Raises => Raises
          | Returns later =>
              Returns (match parsed with Some p => p :: later | None => later end)
          end
      end
  end.

Fixpoint parse_all `{Feeds} `{DateLib}
    (all_new : list (source * list raw_entry * option string)) : outcome (list entry) :=
  match all_new with
  | [] => Returns []
  | (src, entries, _) :: rest =>
      match parse_entries src entries with
      | Raises => Raises
      | Returns parsed =>
          match parse_all rest with
          | Raises => Raises
          | Returns later => Returns (parsed ++ later)
          end
      end
  end.

(** [parsed[i : i + batch_size]] for [i] in [range(0, len(parsed), 20)] *)
Definition batch_size : nat := 20.

Fixpoint batches_upto (n : nat) (refs : list loc) : list (list loc) :=
  match n, refs with
  | S n, _ :: _ => take batch_size refs :: batches_upto n (drop batch_size refs)
  | _, _ => []
  end.

Definition batches (refs : list loc) : list (list loc) := batches_upto (length refs) refs.

(** Phase 3: the batches go to the filter one after the other; the heap
    and the replies still to come are threaded through. *)
Fixpoint classify (groq : list (outcome json)) (h : heap) (todo : list (list loc))
  : heap * list loc * list (outcome json) :=
  match todo with
  | [] => (h, [], groq)
  | batch :: rest =>
      let '(h, result, groq) := Llm.filter_news_batch groq h batch in
      let '(h, later, groq) := classify groq h rest in
      (h, result ++ later, groq)
  end.

(** The sort key [x.get("published_at", "") or ""] *)
Definition sort_key (h : heap) (l : loc) : string :=
  match h !! l with Some e => p_published_at e | None => "" end.

(** [relevant.sort(key=..., reverse=True)]: descending, and stable. *)
Fixpoint insert_desc (h : heap) (l : loc) (sorted : list loc) : list loc :=
  match sorted with
  | [] => [l]
  | l' :: rest =>
      if String.ltb (sort_key h l) (sort_key h l') then l' :: insert_desc h l rest
      else l :: sorted
  end.

Definition sort_newest_first (h : heap) (relevant : list loc) : list loc :=
  foldr (insert_desc h) [] relevant.

(** The URL stored for an entry: the first attachment that is not a
    supplement, for a financial report that has one. *)
Definition record_url (e : entry) : string :=
  if p_is_lapkeu e then
    match List.find (λ att, negb (is_lampiran att)) (p_attachments e) with
    | Some att => att_url att
    | None => p_url e
    end
  else p_url e.

Definition ticker_of `{PyStr} (emiten : string) : option string :=
  if negb (String.eqb emiten "") && Nat.eqb (String.length emiten) 4 && str_isalpha emiten
  then Some (str_upper emiten) else None.

(** The record dictionary of phase 4. *)
Definition build_record `{PyStr} (e : entry) : news_record :=
  {| r_title := p_title e;
     r_url := record_url e;
     r_published_at := p_published_at e;
     r_source_id := p_source_id e;
     r_source_name := p_source_name e;
     r_source_type := p_source_type e;
     r_category := match p_filter_category e with
                   | Some cat => cat
                   | None => p_source_category e
                   end;
     r_sentiment := match p_filter_sentiment e with Some s => s | None => "neutral" end;
     r_ticker := ticker_of (p_emiten e);
     r_rss_summary := p_rss_summary e;
     r_status := "raw";
     r_sub_category := match p_filter_sub_category e with
                       | Some sub => if truthy sub then Some sub else None
                       | None => None
                       end;
     r_id := None;
     r_filepath := None |}.

(** Phase 4: each entry goes through the store in turn. *)
Fixpoint store_all `{PyStr} `{Hashlib} {S} `{NewsStore S}
    (h : heap) (relevant : list loc) (store : S) : list cycle_event * S :=
  match relevant with
  | [] => ([], store)
  | l :: rest =>
      match h !! l with
      | None => store_all h rest store
      | Some e =>
          let record := build_record e in
          let '(inserted, store) := store_save record store in
          if (inserted : bool) then
            let '(saved, store) := store_get_by_id (Helpers.generate_id (p_url e)) store in
            let '(events, store) := store_all h rest store in
            (StoreCall record true saved :: events, store)
          else
            let '(events, store) := store_all h rest store in
            (StoreCall record false None :: events, store)
      end
  end.

(** [inserted_records], read off the store calls. *)
Definition inserted_records (events : list cycle_event) : list news_record :=
  omap (λ ev, match ev with StoreCall _ true (Some saved) => Some saved | _ => None end) events.

(** The records written, in the order they were written. *)
Definition written_records (events : list cycle_event) : list news_record :=
  omap (λ ev, match ev with StoreCall record true _ => Some record | _ => None end) events.

(** The [for source, _, top_link in all_new] loop. *)
Definition update_state `{DateLib}
    (all_new : list (source * list raw_entry * option string)) (state : pipeline_state)
  : pipeline_state :=
  fold_left (λ (state : pipeline_state) item,
               let '(src, _, top_link) := item in
               <[sid src := {| last_top_link := top_link;
                               last_scraped_at := PyTime.isoformat now_utc;
                               wm_name := s_name src |}]> state)
            all_new state.

(** [cmd_collect]: the events of the cycle and, unless an exception ends
    it, the state dictionary and the store at its end. *)
Definition cmd_collect `{PyStr} `{Hashlib} `{Feeds} `{DateLib} {S} `{NewsStore S}
    (sources : list source) (state : pipeline_state)
    (groq : list (outcome json)) (store : S)
  : list cycle_event * outcome (pipeline_state * S) :=
  let scan_events := map (λ src, FetchCall (sid src) (fetched src)) sources in
  match scan_sources state sources with
  | [] => (scan_events, Returns (state, store))       (* No new articles. Done. *)
  | all_new =>
      match parse_all all_new with
      | Raises => (scan_events, Raises)
      | Returns parsed =>
          let h := map_seq 0 parsed in
          let refs := seq 0 (length parsed) in
          let todo := batches refs in
          let '(h, relevant, _) := classify groq h todo in
          let sorted := sort_newest_first h relevant in
          let '(store_events, store) := store_all h sorted store in
          let notify_events :=
            match inserted_records store_events with
            | [] => []
            | records => [Notify records]
            end in
          let state := update_state all_new state in
          (scan_events ++ map FilterCall todo ++ store_events ++ notify_events
             ++ [SaveState state],
           Returns (state, store))
      end
  end.

(** ** The order on sort keys *)

(** [a] may stand before [b] in a list sorted newest first: [b <= a] as
    strings. *)
Definition newest_first (a b : string) : Prop := String.leb b a = true.

Lemma ascii_compare_lt_trans a b c :
  Ascii.compare a b = Lt → Ascii.compare b c = Lt → Ascii.compare a c = Lt.
Proof.
  unfold Ascii.compare. rewrite !N.compare_lt_iff. lia.
Qed.

Lemma string_compare_trans a :
  ∀ b c, String.compare a b ≠ Gt → String.compare b c ≠ Gt → String.compare a c ≠ Gt.
Proof.
  induction a as [|x a IH]; intros [|y b] [|z c]; simpl; try done.
  destruct (Ascii.compare x y) eqn:Hxy; [| |done].
  - apply Ascii.compare_eq_iff in Hxy as ->.
    destruct (Ascii.compare y z); [apply IH|done|done].
  - destruct (Ascii.compare y z) eqn:Hyz; [| |done].
    + apply Ascii.compare_eq_iff in Hyz as ->. by rewrite Hxy.
    + by rewrite (ascii_compare_lt_trans x y z).
Qed.

Lemma leb_not_gt a b : String.leb a b = true ↔ String.compare a b ≠ Gt.
Proof. unfold String.leb. by destruct (String.compare a b). Qed.

Lemma newest_first_trans a b c : newest_first a b → newest_first b c → newest_first a c.
Proof.
  unfold newest_first. rewrite !leb_not_gt. intros Hba Hcb.
  by apply string_compare_trans with b.
Qed.

Lemma newest_first_refl a : newest_first a a.
Proof. destruct (String.leb_total a a); done. Qed.

Lemma ltb_newest_first a b : String.ltb a b = true → newest_first b a.
Proof.
  unfold newest_first, String.ltb, String.leb. by destruct (String.compare a b).
Qed.

Lemma not_ltb_newest_first a b : String.ltb a b = false → newest_first a b.
Proof.
  unfold newest_first, String.ltb, String.leb. rewrite (String.compare_antisym a b).
  by destruct (String.compare b a).
Qed.

Lemma sublist_sorted {A} (R : A → A → Prop) (l k : list A) :
  sublist l k → StronglySorted R k → StronglySorted R l.
Proof.
  induction 1 as [|x l k Hsub IH|x l k Hsub IH]; intros Hk; [done| |].
  - apply StronglySorted_inv in Hk as [Hk Hx].
    constructor; [by apply IH|].
    apply Forall_forall. intros y Hy. rewrite Forall_forall in Hx.
    apply Hx. by apply (elem_of_sublist l k).
  - apply StronglySorted_inv in Hk as [Hk _]. by apply IH.
Qed.

(** ** The sort *)

Section Sort.
Context (h : heap).

Definition by_key (l1 l2 : loc) : Prop := newest_first (sort_key h l1) (sort_key h l2).

Lemma insert_desc_perm l sorted : insert_desc h l sorted ≡ₚ l :: sorted.
Proof.
  induction sorted as [|l' rest IH]; simpl; [done|].
  destruct (String.ltb _ _); [|done].
  rewrite IH. apply perm_swap.
Qed.

Lemma insert_desc_sorted l sorted :
  StronglySorted by_key sorted → StronglySorted by_key (insert_desc h l sorted).
Proof.
  induction sorted as [|l' rest IH]; intros Hs; simpl.
  - by repeat constructor.
  - apply StronglySorted_inv in Hs as [Hrest Hl'].
    destruct (String.ltb (sort_key h l) (sort_key h l')) eqn:Hlt.
    + constructor; [by apply IH|].
      rewrite insert_desc_perm. constructor; [|done].
      by apply ltb_newest_first.
    + constructor; [by constructor|].
      assert (Hfirst : by_key l l') by by apply not_ltb_newest_first.
      constructor; [done|].
      eapply Forall_impl; [exact Hl'|].
      intros l2 Hl2. by apply newest_first_trans with (sort_key h l').
Qed.

Lemma sort_newest_first_sorted relevant :
  StronglySorted by_key (sort_newest_first h relevant).
Proof.
  induction relevant as [|l rest IH]; simpl; [constructor|by apply insert_desc_sorted].
Qed.

Lemma sort_newest_first_perm relevant : sort_newest_first h relevant ≡ₚ relevant.
Proof.
  induction relevant as [|l rest IH]; simpl; [done|].
  by rewrite insert_desc_perm, IH.
Qed.

(** Equal keys keep their order: the sort is stable. *)
Lemma insert_desc_stable l sorted :
  Forall (λ l', newest_first (sort_key h l) (sort_key h l')) sorted →
  insert_desc h l sorted = l :: sorted.
Proof.
  destruct 1 as [|l' rest Hl' _]; simpl; [done|].
  destruct (String.ltb (sort_key h l) (sort_key h l')) eqn:Hlt; [|done].
  exfalso. revert Hl' Hlt. unfold newest_first, String.ltb, String.leb.
  rewrite (String.compare_antisym (sort_key h l') (sort_key h l)).
  by destruct (String.compare (sort_key h l) (sort_key h l')).
Qed.

End Sort.

(** ** Reading the events of a cycle *)

(** The records handed to [store.save], accepted or not. *)
Definition attempted_records (events : list cycle_event) : list news_record :=
  omap (λ ev, match ev with StoreCall record _ _ => Some record | _ => None end) events.


Definition is_store_call (ev : cycle_event) : bool :=
  match ev with StoreCall _ _ _ => true | _ => false end.

Lemma omap_none {A B} (f : A → option B) (l : list A) :
  Forall (λ x, f x = None) l → omap f l = [].
Proof. induction 1 as [|x l Hx _ IH]; simpl; [done|]. by rewrite Hx. Qed.

Lemma omap_sorted {A B} (R : A → A → Prop) (R' : B → B → Prop) (f : A → option B) l :
  (∀ x y b1 b2, R x y → f x = Some b1 → f y = Some b2 → R' b1 b2) →
  StronglySorted R l → StronglySorted R' (omap f l).
Proof.
  intros Hf. induction 1 as [|x l Hl IH Hx]; simpl; [constructor|].
  destruct (f x) as [b|] eqn:Hfx; [|done].
  constructor; [done|].
  apply Forall_forall. intros b2 Hb2.
  apply list_elem_of_omap in Hb2 as (y & Hy & Hfy).
  rewrite Forall_forall in Hx. apply (Hf x y); [by apply Hx|done|done].
Qed.

Lemma map_omap {A B C} (g : B → C) (f : A → option B) (l : list A) :
  map g (omap f l) = omap (λ x, g <$> f x) l.
Proof.
  induction l as [|x l IH]; simpl; [done|].
  destruct (f x); simpl; [f_equal|]; exact IH.
Qed.

Lemma omap_sublist {A B} (f g : A → option B) (l : list A) :
  (∀ x y, f x = Some y → g x = Some y) → omap f l `sublist_of` omap g l.
Proof.
  intros Hfg. induction l as [|x l IH]; simpl; [constructor|].
  destruct (f x) as [y|] eqn:Hfx.
  - rewrite (Hfg x y Hfx). by constructor.
  - destruct (g x); [by constructor|done].
Qed.

Lemma written_sublist_attempted events :
  written_records events `sublist_of` attempted_records events.
Proof. apply omap_sublist. by intros [| |record [|] saved| |] y; simpl. Qed.

(** When every lookup after a save returned a record with the publish time
    of the record just saved, the inserted list follows the written one. *)
Lemma inserted_times_sublist events :
  (∀ record saved, StoreCall record true (Some saved) ∈ events →
     r_published_at saved = r_published_at record) →
  map r_published_at (inserted_records events)
    `sublist_of` map r_published_at (written_records events).
Proof.
  induction events as [|ev events IH]; intros Hlook; [constructor|].
  assert (IH' : map r_published_at (inserted_records events)
                  `sublist_of` map r_published_at (written_records events)).
  { apply IH. intros record saved Hin. apply Hlook. by right. }
  destruct ev as [| |record [|] [saved|]| |]; simpl; try done.
  - rewrite (Hlook record saved) by left. by constructor.
  - by constructor.
Qed.

Section Cycle.
Context `{PyStr} `{Hashlib} `{Feeds} `{DateLib} {S : Type} `{NewsStore S}.

Lemma store_all_attempted h sorted (store : S) :
  attempted_records (fst (store_all h sorted store))
  = omap (λ l, build_record <$> h !! l) sorted.
Proof.
  revert store. induction sorted as [|l rest IH]; intros store; simpl; [done|].
  destruct (h !! l) as [e|]; simpl; [|apply IH].
  destruct (store_save (build_record e) store) as [[|] store1].
  - destruct (store_get_by_id _ store1) as [saved store2].
    specialize (IH store2). destruct (store_all h rest store2) as [events store3].
    simpl in *. by rewrite IH.
  - specialize (IH store1). destruct (store_all h rest store1) as [events store3].
    simpl in *. by rewrite IH.
Qed.

Lemma store_all_only_store_calls h sorted (store : S) :
  Forall (λ ev, is_store_call ev = true) (fst (store_all h sorted store)).
Proof.
  revert store. induction sorted as [|l rest IH]; intros store; simpl; [constructor|].
  destruct (h !! l) as [e|]; simpl; [|apply IH].
  destruct (store_save (build_record e) store) as [[|] store1].
  - destruct (store_get_by_id _ store1) as [saved store2].
    specialize (IH store2). destruct (store_all h rest store2) as [events store3].
    by constructor.
  - specialize (IH store1). destruct (store_all h rest store1) as [events store3].
    by constructor.
Qed.

(** The records reach the store newest first. *)
Lemma store_all_newest_first h relevant (store : S) :
  StronglySorted newest_first
    (map r_published_at
       (attempted_records (fst (store_all h (sort_newest_first h relevant) store)))).
Proof.
  rewrite store_all_attempted.
  rewrite map_omap.
  apply (omap_sorted (by_key h)); [|apply sort_newest_first_sorted].
  intros l1 l2 b1 b2 Hkey.
  unfold by_key, sort_key in Hkey.
  destruct (h !! l1) as [e1|]; [|done]. destruct (h !! l2) as [e2|]; [|done].
  simpl. by intros [= <-] [= <-].
Qed.

End Cycle.

Section Run.
Context `{PyStr} `{Hashlib} `{Feeds} `{DateLib} {S : Type} `{NewsStore S}.

Definition scan_events (sources : list source) : list cycle_event :=
  map (λ src, FetchCall (sid src) (fetched src)) sources.

Definition notify_events (store_events : list cycle_event) : list cycle_event :=
  match inserted_records store_events with
  | [] => []
  | records => [Notify records]
  end.

(** The three ways a cycle can go. *)
Lemma cmd_collect_cases sources state groq (store : S) :
  (scan_sources state sources = [] ∧
   cmd_collect sources state groq store = (scan_events sources, Returns (state, store))) ∨
  (scan_sources state sources ≠ [] ∧
   parse_all (scan_sources state sources) = Raises ∧
   cmd_collect sources state groq store = (scan_events sources, Raises)) ∨
  (scan_sources state sources ≠ [] ∧
   ∃ parsed h relevant later store_events store',
     parse_all (scan_sources state sources) = Returns parsed ∧
     classify groq (map_seq 0 parsed) (batches (seq 0 (length parsed)))
       = (h, relevant, later) ∧
     store_all h (sort_newest_first h relevant) store = (store_events, store') ∧
     cmd_collect sources state groq store =
       (scan_events sources ++ map FilterCall (batches (seq 0 (length parsed)))
          ++ store_events ++ notify_events store_events
          ++ [SaveState (update_state (scan_sources state sources) state)],
        Returns (update_state (scan_sources state sources) state, store'))).
Proof.
  unfold cmd_collect. fold (scan_events sources).
  destruct (scan_sources state sources) as [|item all_new] eqn:Hscan; [by left|].
  right. destruct (parse_all (item :: all_new)) as [parsed|] eqn:Hparse.
  - right. split; [done|].
    destruct (classify groq (map_seq 0 parsed) (batches (seq 0 (length parsed))))
      as [[h relevant] later] eqn:Hclassify.
    destruct (store_all h (sort_newest_first h relevant) store)
      as [store_events store'] eqn:Hstore.
    by exists parsed, h, relevant, later, store_events, store'.
  - left. by repeat split.
Qed.






Lemma attempted_scan sources : attempted_records (scan_events sources) = [].
Proof. apply omap_none, Forall_forall. intros ev Hin.
  apply list_elem_of_fmap in Hin as (src & -> & _). done.
Qed.

Lemma attempted_filter todo : attempted_records (map FilterCall todo) = [].
Proof. apply omap_none, Forall_forall. intros ev Hin.
  apply list_elem_of_fmap in Hin as (src & -> & _). done.
Qed.

Lemma attempted_notify store_events : attempted_records (notify_events store_events) = [].
Proof. unfold notify_events. by destruct (inserted_records store_events). Qed.

(** The sources of [all_new] were fetched. *)
Lemma scan_sources_fetched state sources src entries top_link :
  (src, entries, top_link) ∈ scan_sources state sources →
  src ∈ sources ∧ ∃ fetched_entries, fetch_entries src = Returns fetched_entries.
Proof.
  unfold scan_sources. intros Hin.
  apply list_elem_of_omap in Hin as (src' & Hsrc & Hscan).
  unfold scan_source in Hscan.
  destruct (fetch_entries src') as [[|e es]|] eqn:Hfetch; try done.
  destruct (Sources.get_new_entries (e :: es) _) as [[|n ns] top]; [done|].
  injection Hscan as -> _ _. split; [done|by eexists].
Qed.

(** The state update only touches the keys of [all_new]. *)
Lemma update_state_frame all_new (state : pipeline_state) (k : string) :
  (∀ src entries top_link, (src, entries, top_link) ∈ all_new → sid src ≠ k) →
  update_state all_new state !! k = state !! k.
Proof.
  unfold update_state. revert state.
  induction all_new as [|[[src entries] top_link] rest IH]; intros state Hkeys; simpl; [done|].
  rewrite IH.
  - apply lookup_insert_ne. apply (Hkeys src entries top_link). left.
  - intros src' entries' top' Hin. apply (Hkeys src' entries' top'). by right.
Qed.

End Run.

Section Events.
Context `{PyStr} `{Hashlib} `{Feeds} `{DateLib} {S : Type} `{NewsStore S}.

(** Every lookup that followed a successful save returned a record with
    the publish time of the record just saved. *)
Definition lookups_agree (events : list cycle_event) : bool :=
  forallb (λ ev, match ev with
                 | StoreCall record true (Some saved) =>
                     String.eqb (r_published_at saved) (r_published_at record)
                 | _ => true
                 end) events.

Lemma lookups_agree_spec events record saved :
  lookups_agree events = true →
  StoreCall record true (Some saved) ∈ events →
  r_published_at saved = r_published_at record.
Proof.
  unfold lookups_agree. rewrite forallb_forall. intros Hall Hin.
  apply list_elem_of_In in Hin. specialize (Hall _ Hin). simpl in Hall.
  by apply String.eqb_eq.
Qed.

(** Of the events of a completed cycle only the store calls matter to a
    reading that ignores everything else. *)
Lemma omap_store_calls {B} (f : cycle_event → option B) sources todo store_events final :
  (∀ ev, is_store_call ev = false → f ev = None) →
  Forall (λ ev, is_store_call ev = true) store_events →
  omap f (scan_events sources ++ map FilterCall todo ++ store_events
            ++ notify_events store_events ++ [SaveState final])
  = omap f store_events.
Proof.
  intros Hf Hstore. rewrite !omap_app.
  rewrite (omap_none f (scan_events sources)), (omap_none f (map FilterCall todo)),
    (omap_none f (notify_events store_events)); simpl.
  - rewrite (Hf (SaveState final)) by done. by rewrite app_nil_r.
  - unfold notify_events. destruct (inserted_records store_events); [constructor|].
    constructor; [by apply Hf|constructor].
  - apply Forall_forall. intros ev Hin.
    apply list_elem_of_fmap in Hin as (batch & -> & _). by apply Hf.
  - apply Forall_forall. intros ev Hin.
    apply list_elem_of_fmap in Hin as (src & -> & _). by apply Hf.
Qed.

Lemma attempted_not_store ev : is_store_call ev = false → 
  match ev with StoreCall record _ _ => Some record | _ => None end = None.
Proof. by destruct ev. Qed.

(** The records of a cycle reach [store.save] newest first, whatever the
    sources, the classifier and the store do. *)
Lemma cmd_collect_attempts_newest_first sources state groq (store : S) :
  StronglySorted newest_first
    (map r_published_at (attempted_records (fst (cmd_collect sources state groq store)))).
Proof.
  destruct (cmd_collect_cases sources state groq store)
    as [[_ ->]|[(_ & _ & ->)|(_ & parsed & h & relevant & later & store_events & store'
                               & _ & _ & Hstore & ->)]]; simpl.
  - rewrite attempted_scan. constructor.
  - rewrite attempted_scan. constructor.
  - assert (Hev : store_events = fst (store_all h (sort_newest_first h relevant) store))
      by by rewrite Hstore.
    unfold attempted_records. rewrite omap_store_calls.
    + rewrite Hev. apply store_all_newest_first.
    + apply attempted_not_store.
    + rewrite Hev. apply store_all_only_store_calls.
Qed.

(** The list handed to [notify_new_articles] is [inserted_records]. *)
Lemma cmd_collect_notifies_inserted sources state groq (store : S) records :
  Notify records ∈ fst (cmd_collect sources state groq store) →
  records = inserted_records (fst (cmd_collect sources state groq store)).
Proof.
  destruct (cmd_collect_cases sources state groq store)
    as [[_ ->]|[(_ & _ & ->)|(_ & parsed & h & relevant & later & store_events & store'
                               & _ & _ & Hstore & ->)]]; simpl.
  - intros Hin. by apply list_elem_of_fmap in Hin as (src & ? & _).
  - intros Hin. by apply list_elem_of_fmap in Hin as (src & ? & _).
  - assert (Hcalls : Forall (λ ev, is_store_call ev = true) store_events).
    { replace store_events with (fst (store_all h (sort_newest_first h relevant) store))
        by by rewrite Hstore.
      apply store_all_only_store_calls. }
    unfold inserted_records at 1. rewrite omap_store_calls; [|by intros []|done].
    fold (inserted_records store_events).
    rewrite !elem_of_app. intros [Hin|[Hin|[Hin|[Hin|Hin]]]].
    + by apply list_elem_of_fmap in Hin as (src & ? & _).
    + by apply list_elem_of_fmap in Hin as (batch & ? & _).
    + rewrite Forall_forall in Hcalls. by specialize (Hcalls _ Hin).
    + unfold notify_events in Hin.
      destruct (inserted_records store_events) as [|r rs]; [by apply elem_of_nil in Hin|].
      apply list_elem_of_singleton in Hin. by injection Hin.
    + by apply list_elem_of_singleton in Hin.
Qed.




End Events.

(** ** A concrete cycle *)

(** Two feeds that answer, a disclosure source whose fetch fails, and a
    classifier that keeps all three entries. *)
Definition feed_entry (link title published : string) : raw_entry :=
  {| e_link := Some link; e_titleurl := None; e_title := Some title;
     e_published := Some published; e_updated := None; e_created := None;
     e_published_parsed := None; e_emiten := None; e_attachments := None |}.

Definition two_feeds : Feeds :=
  {| parse_feed := λ url,
       if String.eqb url "https://a.example/rss" then
         Returns [feed_entry "https://a.example/3" "IHSG ditutup menguat"
                    "2024-05-03T10:00:00+07:00";
                  feed_entry "https://a.example/1" "Rupiah melemah"
                    "2024-05-01T10:00:00+07:00"]
       else if String.eqb url "https://b.example/rss" then
         Returns [feed_entry "https://b.example/2" "BBCA bagikan dividen"
                    "2024-05-02T10:00:00+07:00"]
       else Raises;
     fetch_idx_announcements := λ _, Raises;
     fetch_stockbit_news := λ _, Raises;
     extract_rss_summary := λ _, "" |}.

Definition feed_a : source :=
  {| s_id := 1; s_name := "A"; s_feed_url := "https://a.example/rss";
     s_type := "rss"; s_category := "Market" |}.

Definition feed_b : source :=
  {| s_id := 2; s_name := "B"; s_feed_url := "https://b.example/rss";
     s_type := "rss"; s_category := "Market" |}.

Definition disclosures : source :=
  {| s_id := 3; s_name := "IDX"; s_feed_url := "https://idx.example/api";
     s_type := "idx_api"; s_category := "Disclosure" |}.

Definition seen (link name : string) : watermark :=
  {| last_top_link := Some link; last_scraped_at := "2024-04-30T00:00:00+00:00";
     wm_name := name |}.

Definition first_state : pipeline_state :=
  {[ "3" := seen "https://idx.example/announcement/9" "IDX" ]}.

Definition keep_all : list (outcome json) :=
  [Llm.reply_results (JList [Llm.verdict 1 true; Llm.verdict 2 true; Llm.verdict 3 true])].

Definition first_cycle : list cycle_event * outcome (pipeline_state * JSONStore.t) :=
  @cmd_collect DedupGate.plain_pystr DedupGate.tagged_hashlib two_feeds
    Timestamps.iso_datelib JSONStore.t
    (@json_news_store DedupGate.plain_pystr DedupGate.exact_difflib
       DedupGate.tagged_hashlib DedupGate.plain_file_names)
    [feed_a; disclosures; feed_b] first_state keep_all DedupGate.empty_store.

(** The entries of the two feeds are written interleaved, by publish time. *)
Example first_cycle_written :
  map r_url (written_records (fst first_cycle))
  = ["https://a.example/3"; "https://b.example/2"; "https://a.example/1"] ∧
  map r_published_at (written_records (fst first_cycle))
  = ["2024-05-03T03:00:00+00:00"; "2024-05-02T03:00:00+00:00";
     "2024-05-01T03:00:00+00:00"] ∧
  map r_url (inserted_records (fst first_cycle))
  = ["https://a.example/3"; "https://b.example/2"; "https://a.example/1"].
Proof. vm_compute. by repeat split. Qed.

(** ** Newest first *)

Section Order.
Context `{PyStr} `{Hashlib} `{Feeds} `{DateLib} {S : Type} `{NewsStore S}.



End Order.

(** ** The concrete cycle, and the one after it *)






(** The state and the store the first cycle ends with. *)
Definition first_cycle_end : pipeline_state * JSONStore.t :=
  match snd first_cycle with
  | Returns ended => ended
  | Raises => (first_state, DedupGate.empty_store)
  end.

Example first_cycle_watermarks :
  last_top_link <$> fst first_cycle_end !! "1" = Some (Some "https://a.example/3") ∧
  last_top_link <$> fst first_cycle_end !! "2" = Some (Some "https://b.example/2") ∧
  fst first_cycle_end !! "3" = Some (seen "https://idx.example/announcement/9" "IDX").
Proof. vm_compute. by repeat split. Qed.







End Commands.

(* ===================================================================== *)
(** * Further properties of the code                                      *)
(* ===================================================================== *)

(** ** sources.py: scanning a feed again *)

Module Watermark.

(** Scanning the same feed again with the watermark the first scan
    returned finds nothing new, as long as the top entry carries a link. *)
Theorem get_new_entries_rescan (entries : list raw_entry) (last : option string) :
  truthy_str (snd (Sources.get_new_entries entries last)) = true →
  Sources.get_new_entries entries (snd (Sources.get_new_entries entries last))
  = ([], snd (Sources.get_new_entries entries last)).
Proof.
  destruct entries as [|top rest]; [done|].
  assert (Htop : snd (Sources.get_new_entries (top :: rest) last) = e_link top).
  { unfold Sources.get_new_entries.
    destruct (negb (truthy_str last)); [done|]. by destruct (decide _). }
  rewrite Htop. intros Htruthy.
  unfold Sources.get_new_entries. rewrite Htruthy. simpl.
  by destruct (decide (e_link top = e_link top)).
Qed.

Lemma get_new_entries_rescan_witness :
  Sources.get_new_entries Sources.feed_E1_E2_E3
    (snd (Sources.get_new_entries Sources.feed_E1_E2_E3 None))
  = ([], snd (Sources.get_new_entries Sources.feed_E1_E2_E3 None)).
Proof. apply get_new_entries_rescan. reflexivity. Defined.

(** A feed whose top entry has no link, or an empty one, never gets a
    usable watermark: every scan returns the whole feed as new. *)
Theorem get_new_entries_linkless_top (top : raw_entry) (rest : list raw_entry)
    (last : option string) :
  truthy_str (e_link top) = false →
  snd (Sources.get_new_entries (top :: rest) last) = e_link top ∧
  Sources.get_new_entries (top :: rest) (snd (Sources.get_new_entries (top :: rest) last))
  = (top :: rest, e_link top).
Proof.
  intros Hlink.
  assert (Htop : snd (Sources.get_new_entries (top :: rest) last) = e_link top).
  { unfold Sources.get_new_entries.
    destruct (negb (truthy_str last)); [done|]. by destruct (decide _). }
  split; [done|]. rewrite Htop.
  unfold Sources.get_new_entries. by rewrite Hlink.
Qed.

Definition linkless_entry : raw_entry :=
  {| e_link := None; e_titleurl := Some "https://stockbit.com/post/7";
     e_title := Some "IHSG"; e_published := None; e_updated := None; e_created := None;
     e_published_parsed := None; e_emiten := None; e_attachments := None |}.

Lemma get_new_entries_linkless_top_witness :
  snd (Sources.get_new_entries [linkless_entry; Sources.entry_with_link "E2"] (Some "E9"))
    = None ∧
  Sources.get_new_entries [linkless_entry; Sources.entry_with_link "E2"]
    (snd (Sources.get_new_entries [linkless_entry; Sources.entry_with_link "E2"] (Some "E9")))
  = ([linkless_entry; Sources.entry_with_link "E2"], None).
Proof.
  apply (get_new_entries_linkless_top linkless_entry [Sources.entry_with_link "E2"]
           (Some "E9")).
  reflexivity.
Defined.

(** The new entries are always the leading part of the feed, in feed
    order, and none of them carries the watermark that was used. *)
Theorem get_new_entries_leading_part (entries : list raw_entry) (last : option string) :
  fst (Sources.get_new_entries entries last) `prefix_of` entries ∧
  (truthy_str last = true →
   Forall (λ e, e_link e ≠ last) (fst (Sources.get_new_entries entries last))).
Proof.
  assert (Hscan : ∀ es, Sources.scan_until es last `prefix_of` es ∧
                        Forall (λ e, e_link e ≠ last) (Sources.scan_until es last)).
  { induction es as [|e es [IHp IHf]]; simpl; [split; [done|constructor]|].
    destruct (decide (e_link e = last)); [split; [apply prefix_nil|constructor]|].
    split; [by apply prefix_cons|by constructor]. }
  destruct entries as [|top rest]; [split; [done|by constructor]|].
  unfold Sources.get_new_entries.
  destruct (truthy_str last) eqn:Ht; simpl negb; cbv iota.
  - destruct (decide (e_link top = last)); simpl.
    + split; [apply prefix_nil|by constructor].
    + destruct (Hscan (top :: rest)) as [Hp Hf]. by split.
  - simpl. split; [done|]. done.
Qed.

End Watermark.

(** ** commands.py: batching and sorting *)

Module Batching.

Lemma batches_upto_concat (n : nat) (refs : list loc) :
  (length refs ≤ n)%nat →
  concat (Commands.batches_upto n refs) = refs ∧
  Forall (λ batch, batch ≠ [] ∧ (length batch ≤ Commands.batch_size)%nat)
         (Commands.batches_upto n refs).
Proof.
  revert refs. induction n as [|n IH]; intros refs Hlen.
  - destruct refs; [split; [done|constructor]|simpl in Hlen; lia].
  - destruct refs as [|l rest]; [split; [done|constructor]|].
    assert (Hdrop : (length (drop Commands.batch_size (l :: rest)) ≤ n)%nat).
    { rewrite length_drop. unfold Commands.batch_size. simpl in *. lia. }
    destruct (IH _ Hdrop) as [Hcat Hall].
    change (Commands.batches_upto (S n) (l :: rest))
      with (take Commands.batch_size (l :: rest)
              :: Commands.batches_upto n (drop Commands.batch_size (l :: rest))).
    set (first := take Commands.batch_size (l :: rest)) in *.
    set (later := drop Commands.batch_size (l :: rest)) in *.
    split.
    + rewrite concat_cons, Hcat. apply take_drop.
    + constructor; [|done]. split; [done|].
      unfold first. rewrite length_take. lia.
Qed.

(** Phase 3 sends every parsed entry to the classifier exactly once, in
    feed order, in batches of at least one and at most twenty entries. *)
Theorem batches_partition (refs : list loc) :
  concat (Commands.batches refs) = refs ∧
  Forall (λ batch, batch ≠ [] ∧ (length batch ≤ 20)%nat) (Commands.batches refs).
Proof. by apply batches_upto_concat. Qed.

Lemma insert_desc_filter (h : heap) (k : string) (l : loc) (sorted : list loc) :
  List.filter (λ x, String.eqb (Commands.sort_key h x) k) (Commands.insert_desc h l sorted)
  = List.filter (λ x, String.eqb (Commands.sort_key h x) k) (l :: sorted).
Proof.
  induction sorted as [|l' rest IH]; [done|].
  simpl Commands.insert_desc.
  destruct (String.ltb (Commands.sort_key h l) (Commands.sort_key h l')) eqn:Hlt; [|done].
  assert (Hne : Commands.sort_key h l ≠ Commands.sort_key h l').
  { intros Heq. rewrite Heq in Hlt. unfold String.ltb in Hlt.
    pose proof (String.compare_antisym (Commands.sort_key h l') (Commands.sort_key h l'))
      as Hanti.
    by destruct (String.compare (Commands.sort_key h l') (Commands.sort_key h l')). }
  simpl List.filter at 1. rewrite IH. simpl.
  destruct (String.eqb (Commands.sort_key h l) k) eqn:Hl;
    destruct (String.eqb (Commands.sort_key h l') k) eqn:Hl'; try done.
  apply String.eqb_eq in Hl, Hl'. congruence.
Qed.

(** The sort of phase 3 is a stable descending sort on the publish time:
    it keeps every entry, once; the result is in descending order of the
    keys; and entries with the same key stay in the order they had. *)
Theorem sort_newest_first_stable (h : heap) (relevant : list loc) :
  Commands.sort_newest_first h relevant ≡ₚ relevant ∧
  StronglySorted (Commands.by_key h) (Commands.sort_newest_first h relevant) ∧
  ∀ k, List.filter (λ x, String.eqb (Commands.sort_key h x) k)
         (Commands.sort_newest_first h relevant)
       = List.filter (λ x, String.eqb (Commands.sort_key h x) k) relevant.
Proof.
  split; [apply Commands.sort_newest_first_perm|].
  split; [apply Commands.sort_newest_first_sorted|].
  intros k. induction relevant as [|l rest IH]; [done|].
  simpl Commands.sort_newest_first. rewrite insert_desc_filter.
  simpl. by rewrite IH.
Qed.

End Batching.

(** ** commands.py: the cycle after a cycle *)

Module NextCycle.

Section Rescan.
Context `{PyStr} `{Hashlib} `{Feeds} `{DateLib} {S : Type} `{NewsStore S}.

(** What [all_new] holds for a source: the source itself, its new entries
    and the link of the top entry of its feed. *)
Lemma scan_source_some state src item :
  Commands.scan_source state src = Some item →
  ∃ top rest new_entries,
    Commands.fetch_entries src = Returns (top :: rest) ∧
    item = (src, new_entries, e_link top).
Proof.
  unfold Commands.scan_source.
  destruct (Commands.fetch_entries src) as [[|top rest]|]; try done.
  destruct (Sources.get_new_entries (top :: rest) _) as [new_entries top_link] eqn:Hnew.
  assert (Htop : top_link = e_link top).
  { change top_link with (snd (new_entries, top_link)). rewrite <- Hnew.
    unfold Sources.get_new_entries.
    destruct (negb (truthy_str _)); [done|]. by destruct (decide _). }
  destruct new_entries as [|e es]; [done|].
  intros [= <-]. exists top, rest, (e :: es). by rewrite Htop.
Qed.

Definition item_key (item : source * list raw_entry * option string) : string :=
  Commands.sid (fst (fst item)).

Lemma scan_sources_keys state sources :
  map item_key (Commands.scan_sources state sources) `sublist_of` map Commands.sid sources.
Proof.
  unfold Commands.scan_sources.
  induction sources as [|src rest IH]; simpl; [constructor|].
  destruct (Commands.scan_source state src) as [item|] eqn:Hscan.
  - apply scan_source_some in Hscan as (top & tail & new_entries & _ & ->).
    simpl. by constructor.
  - by constructor.
Qed.

Lemma update_state_lookup all_new (state : pipeline_state) src entries top_link :
  NoDup (map item_key all_new) →
  (src, entries, top_link) ∈ all_new →
  last_top_link <$> Commands.update_state all_new state !! Commands.sid src
  = Some top_link.
Proof.
  revert state. induction all_new as [|[[src' entries'] top'] rest IH];
    intros state Hnodup Hin; [by apply elem_of_nil in Hin|].
  apply NoDup_cons in Hnodup as [Hfresh Hnodup].
  change (Commands.update_state (((src', entries'), top') :: rest) state)
    with (Commands.update_state rest
            (<[Commands.sid src' := {| last_top_link := top';
                                      last_scraped_at := PyTime.isoformat now_utc;
                                      wm_name := s_name src' |}]> state)).
  apply elem_of_cons in Hin as [Heq|Hin]; [|by apply IH].
  injection Heq as -> -> ->.
  rewrite Commands.update_state_frame.
  - by rewrite lookup_insert_eq.
  - intros src2 entries2 top2 Hin2 Hkey. apply Hfresh.
    apply list_elem_of_fmap. by exists (src2, entries2, top2).
Qed.

(** A completed cycle leaves every feed up to date: scanning the same
    sources again, with the feeds unchanged, finds nothing new, and the
    next cycle ends right after its scan, state and store untouched.  The
    sources have distinct ids and the top entry of each feed has a link. *)
Theorem cmd_collect_then_up_to_date sources state groq (store : S) events final store' :
  NoDup (map Commands.sid sources) →
  (∀ src top rest, src ∈ sources →
     Commands.fetch_entries src = Returns (top :: rest) → truthy_str (e_link top) = true) →
  Commands.cmd_collect sources state groq store = (events, Returns (final, store')) →
  Commands.scan_sources final sources = [] ∧
  ∀ groq', Commands.cmd_collect sources final groq' store'
           = (Commands.scan_events sources, Returns (final, store')).
Proof.
  intros Hids Hlinks Hrun.
  assert (Hscan : Commands.scan_sources final sources = []).
  { destruct (Commands.cmd_collect_cases sources state groq store)
      as [[Hnone Hidle]|[(_ & _ & Hraise)|(_ & parsed & h & relevant & later & store_events
                                            & store1 & _ & _ & _ & Hdone)]].
    - rewrite Hidle in Hrun. by injection Hrun as _ <- _.
    - rewrite Hraise in Hrun. discriminate.
    - rewrite Hdone in Hrun. injection Hrun as _ <- _.
      apply Commands.omap_none, Forall_forall. intros src Hsrc.
      assert (Hkeys : NoDup (map item_key (Commands.scan_sources state sources))).
      { eapply sublist_NoDup; [exact Hids|apply scan_sources_keys]. }
      destruct (Commands.scan_source state src) as [item|] eqn:Hfirst.
      + pose proof Hfirst as Hitem.
        apply scan_source_some in Hitem as (top & rest & new_entries & Hfetch & ->).
        assert (Hin : (src, new_entries, e_link top) ∈ Commands.scan_sources state sources).
        { apply list_elem_of_omap. by exists src. }
        pose proof (update_state_lookup _ state _ _ _ Hkeys Hin) as Hlook.
        unfold Commands.scan_source. rewrite Hfetch.
        destruct (Commands.update_state _ state !! Commands.sid src) as [wm|];
          [|discriminate].
        simpl in Hlook. injection Hlook as Hlook. simpl. rewrite Hlook.
        unfold Sources.get_new_entries.
        rewrite (Hlinks src top rest Hsrc Hfetch). simpl.
        by destruct (decide (e_link top = e_link top)).
      + unfold Commands.scan_source. rewrite Commands.update_state_frame; [exact Hfirst|].
        intros src2 entries2 top2 Hin2 Hkey.
        apply list_elem_of_omap in Hin2 as (src3 & Hsrc3 & Hscan3).
        pose proof Hscan3 as Hitem.
        apply scan_source_some in Hitem as (top & rest & new_entries & _ & Heq).
        injection Heq as -> _ _.
        assert (src3 = src); [|by subst; rewrite Hfirst in Hscan3].
        apply list_elem_of_lookup in Hsrc as [i Hi].
        apply list_elem_of_lookup in Hsrc3 as [j Hj].
        assert (i = j); [|by subst; rewrite Hi in Hj; injection Hj].
        eapply NoDup_lookup; [exact Hids| |].
        * rewrite list_lookup_fmap, Hi. reflexivity.
        * rewrite list_lookup_fmap, Hj. simpl. by rewrite Hkey. }
  split; [done|]. intros groq'.
  destruct (Commands.cmd_collect_cases sources final groq' store')
    as [[_ Hidle]|[(Hnew & _)|(Hnew & _)]]; done.
Qed.

End Rescan.

Lemma feeds_have_links src top rest :
  src ∈ [Commands.feed_a; Commands.disclosures; Commands.feed_b] →
  @Commands.fetch_entries Commands.two_feeds src = Returns (top :: rest) →
  truthy_str (e_link top) = true.
Proof.
  intros Hin Hfetch.
  apply elem_of_cons in Hin as [->|Hin]; [vm_compute in Hfetch; by injection Hfetch as <- _|].
  apply elem_of_cons in Hin as [->|Hin]; [vm_compute in Hfetch; discriminate Hfetch|].
  apply elem_of_cons in Hin as [->|Hin]; [vm_compute in Hfetch; by injection Hfetch as <- _|].
  apply elem_of_nil in Hin. destruct Hin.
Qed.

Lemma distinct_source_ids :
  NoDup (map Commands.sid [Commands.feed_a; Commands.disclosures; Commands.feed_b]).
Proof.
  vm_compute.
  repeat (apply NoDup_cons; split;
          [intros Hin;
           repeat (apply elem_of_cons in Hin as [Hin|Hin]; [discriminate Hin|]);
           by apply elem_of_nil in Hin|]).
  apply NoDup_nil. done.
Qed.

Lemma first_cycle_run :
  Commands.first_cycle
  = (fst Commands.first_cycle,
     Returns (fst Commands.first_cycle_end, snd Commands.first_cycle_end)).
Proof. vm_compute. reflexivity. Qed.

Lemma cmd_collect_then_up_to_date_witness :
  @Commands.scan_sources Commands.two_feeds (fst Commands.first_cycle_end)
     [Commands.feed_a; Commands.disclosures; Commands.feed_b] = [] ∧
  ∀ groq', @Commands.cmd_collect DedupGate.plain_pystr DedupGate.tagged_hashlib
             Commands.two_feeds Timestamps.iso_datelib JSONStore.t
             (@json_news_store DedupGate.plain_pystr DedupGate.exact_difflib
                DedupGate.tagged_hashlib DedupGate.plain_file_names)
             [Commands.feed_a; Commands.disclosures; Commands.feed_b]
             (fst Commands.first_cycle_end) groq' (snd Commands.first_cycle_end)
           = (@Commands.scan_events Commands.two_feeds
                [Commands.feed_a; Commands.disclosures; Commands.feed_b],
              Returns (fst Commands.first_cycle_end, snd Commands.first_cycle_end)).
Proof.
  exact (cmd_collect_then_up_to_date _ _ _ _ _ _ _
           distinct_source_ids feeds_have_links first_cycle_run).
Defined.

End NextCycle.

(** ** llm.py: what the filter writes *)

Module FilterFrame.

(** A relation between an entry as it was and as it is after some of the
    assignments [_run_filter] makes: kept by each of them, for the values
    the code can assign. *)
Class FilterInvariant (R : entry → entry → Prop) := {
  inv_refl : ∀ e, R e e;
  inv_trans : ∀ e1 e2 e3, R e1 e2 → R e2 e3 → R e1 e3;
  inv_category : ∀ e c, c ∈ Llm.VALID_CATEGORIES → R e (Llm.set_filter_category c e);
  inv_sub_category : ∀ e v, R e (Llm.set_filter_sub_category v e);
  inv_is_lapkeu : ∀ e, R e (Llm.set_is_lapkeu e);
  inv_sentiment : ∀ e s, s ∈ Llm.VALID_SENTIMENTS → R e (Llm.set_filter_sentiment s e);
  inv_reason : ∀ e v, R e (Llm.set_filter_reason v e)
}.

(** [h'] comes from [h] by assignments to entries of [batch]: every other
    cell is as it was, no cell appears or disappears. *)
Definition touched (R : entry → entry → Prop) (batch : list loc) (h h' : heap) : Prop :=
  ∀ l, h' !! l = h !! l ∨
       (l ∈ batch ∧ ∃ e e', h !! l = Some e ∧ h' !! l = Some e' ∧ R e e').

Section Frame.
Context (R : entry → entry → Prop) `{!FilterInvariant R}.

Lemma touched_refl batch h : touched R batch h h.
Proof. intros l. by left. Qed.

Lemma touched_trans batch h1 h2 h3 :
  touched R batch h1 h2 → touched R batch h2 h3 → touched R batch h1 h3.
Proof.
  intros H12 H23 l.
  destruct (H12 l) as [Heq|(Hin & e & e' & He & He' & HR)];
    destruct (H23 l) as [Heq'|(Hin' & e2 & e2' & He2 & He2' & HR')].
  - left. congruence.
  - right. split; [done|]. exists e2, e2'. by rewrite <- Heq.
  - right. split; [done|]. exists e, e'. by rewrite Heq'.
  - right. split; [done|]. exists e, e2'. split; [done|]. split; [done|].
    apply inv_trans with e'; [done|]. congruence.
Qed.

Lemma touched_weaken batch batch' h h' :
  (∀ l, l ∈ batch → l ∈ batch') → touched R batch h h' → touched R batch' h h'.
Proof.
  intros Hsub Ht l. destruct (Ht l) as [?|(Hin & Hrest)]; [by left|].
  right. split; [by apply Hsub|done].
Qed.

Lemma touched_alter batch (f : entry → entry) l h :
  l ∈ batch → (∀ e, R e (f e)) → touched R batch h (alter f l h).
Proof.
  intros Hin Hf l'. destruct (decide (l' = l)) as [->|Hne].
  - rewrite lookup_alter_eq. destruct (h !! l) as [e|] eqn:He; [|by left].
    right. split; [done|]. by exists e, (f e).
  - left. by rewrite lookup_alter_ne.
Qed.

Lemma checked_choice_valid valid default v s :
  default ∈ valid → Llm.checked_choice valid default v = Returns s → s ∈ valid.
Proof.
  intros Hdefault. unfold Llm.checked_choice.
  destruct v as [| | | |t| |]; simpl; try (by intros [= <-]); try done.
  destruct (bool_decide (t ∈ valid)) eqn:Hin; intros [= <-]; [|done].
  by apply bool_decide_eq_true in Hin.
Qed.

Lemma market_is_valid : "Market" ∈ Llm.VALID_CATEGORIES.
Proof. left. Qed.

Lemma disclosure_is_valid : "Disclosure" ∈ Llm.VALID_CATEGORIES.
Proof. unfold Llm.VALID_CATEGORIES. do 5 right. left. Qed.

Lemma neutral_is_valid : "neutral" ∈ Llm.VALID_SENTIMENTS.
Proof. unfold Llm.VALID_SENTIMENTS. do 2 right. left. Qed.

Lemma annotate_touched batch is_idx r l h :
  l ∈ batch → touched R batch h (fst (Llm.annotate is_idx r l h)).
Proof.
  intros Hin. unfold Llm.annotate.
  assert (Hsentiment : ∀ h0, touched R batch h h0 →
            touched R batch h
              (fst (match Llm.checked_choice Llm.VALID_SENTIMENTS "neutral"
                            (obj_get_default "sentiment" (JStr "neutral") r) with
                    | Raises => (h0, false)
                    | Returns sentiment =>
                        (alter (Llm.set_filter_reason
                                  (obj_get_default "reason" (JStr "") r)) l
                           (alter (Llm.set_filter_sentiment sentiment) l h0), true)
                    end))).
  { intros h0 H0.
    destruct (Llm.checked_choice Llm.VALID_SENTIMENTS _ _) as [s|] eqn:Hs; [|done].
    simpl. eapply touched_trans; [exact H0|].
    eapply touched_trans; apply touched_alter; try done.
    - intros e. apply inv_sentiment.
      by apply (checked_choice_valid _ _ _ _ neutral_is_valid Hs).
    - intros e. apply inv_reason. }
  destruct is_idx.
  - assert (Hidx : touched R batch h
              (alter (Llm.set_filter_sub_category
                        (obj_get_default "sub_category" (JStr "lainnya") r)) l
                 (alter (Llm.set_filter_category "Disclosure") l h))).
    { eapply touched_trans; apply touched_alter; try done.
      - intros e. apply inv_category, disclosure_is_valid.
      - intros e. apply inv_sub_category. }
    destruct (Llm.is_lapkeu_sub _).
    + apply Hsentiment. eapply touched_trans; [exact Hidx|].
      apply touched_alter; [done|]. intros e. apply inv_is_lapkeu.
    + by apply Hsentiment.
  - destruct (Llm.checked_choice Llm.VALID_CATEGORIES _ _) as [c|] eqn:Hc.
    + apply Hsentiment. apply touched_alter; [done|].
      intros e. apply inv_category.
      by apply (checked_choice_valid _ _ _ _ market_is_valid Hc).
    + apply touched_refl.
Qed.

Lemma filter_loop_touched is_idx entries results_list :
  ∀ h relevant h' out,
    Llm.filter_loop is_idx entries results_list h relevant = (h', out) →
    touched R entries h h'.
Proof.
  induction results_list as [|r rest IH]; intros h relevant h' out Hrun.
  - simpl in Hrun. injection Hrun as <- _. apply touched_refl.
  - destruct r as [| | | | |items|r]; simpl in Hrun; try (eapply IH; eassumption).
    destruct (Llm.index_minus_one (obj_get_default "index" (JInt 0) r)) as [i|f|] eqn:Hidx.
    + Llm.branch_on_guard Hrun; [|eapply IH; eassumption].
      destruct (entries !! Z.to_nat i) as [l|] eqn:Hl.
      * pose proof (annotate_touched entries is_idx r l h
                      (list_elem_of_lookup_2 _ _ _ Hl)) as Hann.
        destruct (Llm.annotate is_idx r l h) as [h1 [|]]; simpl in Hann.
        -- eapply touched_trans; [exact Hann|]. eapply IH; eassumption.
        -- by injection Hrun as <- _.
      * injection Hrun as <- _. apply touched_refl.
    + Llm.branch_on_guard Hrun; [|eapply IH; eassumption].
      injection Hrun as <- _. apply touched_refl.
    + injection Hrun as <- _. apply touched_refl.
Qed.

Lemma run_filter_touched reply is_idx h entries :
  touched R entries h (fst (Llm._run_filter reply is_idx h entries)).
Proof.
  unfold Llm._run_filter.
  destruct reply as [[| | | | | |data]|]; try apply touched_refl.
  destruct (obj_get_default "results" (JList []) data) as [| | | | |results_list|];
    try apply touched_refl.
  destruct (Llm.filter_loop is_idx entries results_list h []) as [h' out] eqn:Hloop.
  apply filter_loop_touched in Hloop. by destruct out.
Qed.

Lemma filter_In_elem (f : loc → bool) entries l :
  l ∈ List.filter f entries → l ∈ entries.
Proof.
  intros Hin. apply list_elem_of_In in Hin. apply filter_In in Hin as [Hin _].
  by apply list_elem_of_In.
Qed.

Lemma route_touched groq h entries :
  touched R entries h (fst (fst (Llm.route_batch groq h entries))).
Proof.
  unfold Llm.route_batch.
  set (news := List.filter (λ l, negb (Llm.is_idx_entry h l)) entries).
  set (idx := List.filter (Llm.is_idx_entry h) entries).
  assert (Hnews : ∀ reply, touched R entries h (fst (Llm._run_filter reply false h news))).
  { intros reply. eapply touched_weaken; [|apply run_filter_touched].
    intros l. apply filter_In_elem. }
  assert (Hidx : ∀ reply h0, touched R entries h0 (fst (Llm._run_filter reply true h0 idx))).
  { intros reply h0. eapply touched_weaken; [|apply run_filter_touched].
    intros l. apply filter_In_elem. }
  destruct news as [|n ns] eqn:Hn.
  - destruct idx as [|i ixs] eqn:Hi; [apply touched_refl|].
    destruct (Llm.next_reply groq) as [reply later].
    specialize (Hidx reply h).
    by destruct (Llm._run_filter reply true h (i :: ixs)).
  - destruct (Llm.next_reply groq) as [reply later].
    specialize (Hnews reply).
    destruct (Llm._run_filter reply false h (n :: ns)) as [h1 kept].
    destruct idx as [|i ixs] eqn:Hi; [done|].
    destruct (Llm.next_reply later) as [reply' later'].
    specialize (Hidx reply' h1).
    destruct (Llm._run_filter reply' true h1 (i :: ixs)) as [h2 kept'].
    simpl in *. by eapply touched_trans.
Qed.

Lemma batch_touched groq h entries :
  touched R entries h (fst (fst (Llm.filter_news_batch groq h entries))).
Proof.
  destruct entries as [|l rest]; [apply touched_refl|apply route_touched].
Qed.

Lemma classify_touched groq h todo :
  touched R (concat todo) h (fst (fst (Commands.classify groq h todo))).
Proof.
  revert groq h. induction todo as [|batch rest IH]; intros groq h; [apply touched_refl|].
  simpl.
  pose proof (batch_touched groq h batch) as Hbatch.
  destruct (Llm.filter_news_batch groq h batch) as [[h1 result] groq1].
  pose proof (IH groq1 h1) as Hrest.
  destruct (Commands.classify groq1 h1 rest) as [[h2 later] groq2]. simpl in *.
  eapply touched_trans.
  - eapply touched_weaken; [|exact Hbatch]. intros l Hl. apply elem_of_app. by left.
  - eapply touched_weaken; [|exact Hrest]. intros l Hl. apply elem_of_app. by right.
Qed.

End Frame.

(** The keys of an entry the filter does not write. *)
Definition same_article (e e' : entry) : Prop :=
  p_title e' = p_title e ∧ p_url e' = p_url e ∧ p_published_at e' = p_published_at e ∧
  p_source_id e' = p_source_id e ∧ p_source_name e' = p_source_name e ∧
  p_source_type e' = p_source_type e ∧ p_rss_summary e' = p_rss_summary e ∧
  p_source_category e' = p_source_category e ∧ p_emiten e' = p_emiten e ∧
  p_attachments e' = p_attachments e.

#[global] Instance same_article_invariant : FilterInvariant same_article.
Proof.
  split; unfold same_article; simpl; intros; try by repeat split.
  repeat match goal with H : _ ∧ _ |- _ => destruct H end.
  repeat split; congruence.
Qed.

(** The category and the sentiment of an entry, where the filter has set
    them, are among the valid ones. *)
Definition annotations_valid (e : entry) : Prop :=
  (∀ c, p_filter_category e = Some c → c ∈ Llm.VALID_CATEGORIES) ∧
  (∀ s, p_filter_sentiment e = Some s → s ∈ Llm.VALID_SENTIMENTS).

Definition keeps_valid (e e' : entry) : Prop := annotations_valid e → annotations_valid e'.

#[global] Instance keeps_valid_invariant : FilterInvariant keeps_valid.
Proof.
  split; unfold keeps_valid, annotations_valid; simpl; try tauto.
  - intros e c Hc [_ Hs]. split; [by intros c' [= <-]|done].
  - intros e s Hs [Hc _]. split; [done|by intros s' [= <-]].
Qed.

(** [filter_news_batch] assigns to entries of its batch only, and there
    only to the five filter keys: no entry appears or disappears, an entry
    outside the batch is left as it is, and title, URL, publish time,
    source fields, summary, issuer code and attachments of every entry
    stay what they were, whatever the classifier replies. *)
Theorem filter_news_batch_frame groq (h : heap) entries l :
  match h !! l with
  | None => fst (fst (Llm.filter_news_batch groq h entries)) !! l = None
  | Some e =>
      ∃ e', fst (fst (Llm.filter_news_batch groq h entries)) !! l = Some e' ∧
            same_article e e' ∧ (l ∉ entries → e' = e)
  end.
Proof.
  destruct (batch_touched same_article groq h entries l)
    as [Heq|(Hin & e & e' & He & He' & HR)].
  - rewrite Heq. destruct (h !! l) as [e|]; [|done].
    exists e. split; [done|]. split; [apply inv_refl|done].
  - rewrite He. exists e'. split; [done|]. split; [done|]. by intros Hout.
Qed.

(** The filter never assigns a category or a sentiment outside the valid
    sets: when the annotations present before the call are valid, so are
    all annotations after it, for every reply of the classifier. *)
Theorem filter_news_batch_valid groq (h : heap) entries :
  (∀ l e, h !! l = Some e → annotations_valid e) →
  ∀ l e, fst (fst (Llm.filter_news_batch groq h entries)) !! l = Some e →
         annotations_valid e.
Proof.
  intros Hvalid l e' He'.
  destruct (batch_touched keeps_valid groq h entries l)
    as [Heq|(Hin & e & e2 & He & He2 & HR)].
  - apply (Hvalid l). by rewrite <- Heq.
  - rewrite He2 in He'. injection He' as <-. apply HR. by apply (Hvalid l).
Qed.

Lemma sample_heap_valid l e : Llm.sample_heap !! l = Some e → annotations_valid e.
Proof.
  unfold Llm.sample_heap. intros Hl.
  apply lookup_insert_Some in Hl as [[_ <-]|[_ Hl]]; [by split|].
  apply lookup_insert_Some in Hl as [[_ <-]|[_ Hl]]; [by split|].
  by rewrite lookup_empty in Hl.
Qed.

(** A reply with a category and a sentiment the code does not know. *)
Definition odd_verdict : json :=
  JObj [("index", JInt 1); ("relevant", JBool true);
        ("category", JStr "Gossip"); ("sentiment", JStr "very bullish")].

Definition odd_run : heap :=
  fst (fst (Llm.filter_news_batch
              [Llm.reply_results (JList [odd_verdict]);
               Llm.reply_results (JList [odd_verdict])]
              Llm.sample_heap [0%nat; 1%nat])).

Lemma odd_run_first :
  ∃ e, odd_run !! 0%nat = Some e ∧ p_filter_sentiment e = Some "neutral".
Proof. eexists. split; vm_compute; reflexivity. Qed.

Lemma filter_news_batch_valid_witness :
  ∃ e, odd_run !! 0%nat = Some e ∧ annotations_valid e.
Proof.
  destruct odd_run_first as (e & He & _). exists e. split; [exact He|].
  exact (filter_news_batch_valid _ _ _ sample_heap_valid _ _ He).
Defined.

Example odd_verdict_defaults :
  (λ e, (p_filter_category e, p_filter_sentiment e)) <$>
    fst (fst (Llm.filter_news_batch
                [Llm.reply_results (JList [odd_verdict]);
                 Llm.reply_results (JList [odd_verdict])]
                Llm.sample_heap [0%nat; 1%nat])) !! 0%nat
  = Some (Some "Market", Some "neutral").
Proof. vm_compute. reflexivity. Qed.

End FilterFrame.

(** ** commands.py: the records a cycle hands to the store *)

Module StoredRecords.

Section Records.
Context `{PyStr} `{Hashlib} `{Feeds} `{DateLib} {S : Type} `{NewsStore S}.

(** An entry as phase 2 builds it for a source of [all_new]: no filter key
    yet, and the category of its source. *)
Definition fresh_from (all_new : list (source * list raw_entry * option string))
    (p : entry) : Prop :=
  p_filter_category p = None ∧ p_filter_sentiment p = None ∧
  ∃ item, item ∈ all_new ∧ p_source_category p = s_category (fst (fst item)).

Lemma parse_entries_fresh all_new item src entries parsed :
  item ∈ all_new → fst (fst item) = src →
  Commands.parse_entries src entries = Returns parsed →
  Forall (fresh_from all_new) parsed.
Proof.
  intros Hitem Hsrc. revert parsed.
  induction entries as [|e rest IH]; intros parsed; simpl.
  - intros [= <-]. constructor.
  - destruct (Commands.parse_entry src e) as [found|] eqn:He; [|done].
    destruct (Commands.parse_entries src rest) as [later|]; [|done].
    intros [= <-]. specialize (IH later eq_refl).
    destruct found as [p|]; [|done]. constructor; [|done].
    unfold Commands.parse_entry in He.
    destruct (truthy_str _); [|done].
    destruct (Helpers.parse_published_date e (s_type src)); [|done].
    injection He as <-. simpl. split; [done|]. split; [done|].
    exists item. by rewrite Hsrc.
Qed.

Lemma parse_all_fresh all_new :
  ∀ items parsed, (∀ item, item ∈ items → item ∈ all_new) →
    Commands.parse_all items = Returns parsed → Forall (fresh_from all_new) parsed.
Proof.
  induction items as [|[[src entries] top] rest IH]; intros parsed Hsub; simpl.
  - intros [= <-]. constructor.
  - destruct (Commands.parse_entries src entries) as [first|] eqn:Hfirst; [|done].
    destruct (Commands.parse_all rest) as [later|] eqn:Hlater; [|done].
    intros [= <-]. apply Forall_app. split.
    + apply (parse_entries_fresh all_new (src, entries, top) src entries); try done.
      apply Hsub. left.
    + apply IH; [|done]. intros item Hin. apply Hsub. by right.
Qed.

(** What the events of a cycle say was handed to [store.save]. *)
Lemma cmd_collect_attempted sources state groq (store : S) record :
  record ∈ Commands.attempted_records (fst (Commands.cmd_collect sources state groq store)) →
  ∃ parsed h relevant later l e,
    Commands.parse_all (Commands.scan_sources state sources) = Returns parsed ∧
    Commands.classify groq (map_seq 0 parsed) (Commands.batches (seq 0 (length parsed)))
      = (h, relevant, later) ∧
    h !! l = Some e ∧ record = Commands.build_record e.
Proof.
  destruct (Commands.cmd_collect_cases sources state groq store)
    as [[_ ->]|[(_ & _ & ->)|(_ & parsed & h & relevant & later & store_events & store'
                               & Hparse & Hclassify & Hstore & ->)]]; simpl.
  - rewrite Commands.attempted_scan. intros Hin. by apply elem_of_nil in Hin.
  - rewrite Commands.attempted_scan. intros Hin. by apply elem_of_nil in Hin.
  - assert (Hev : store_events
                  = fst (Commands.store_all h (Commands.sort_newest_first h relevant) store))
      by by rewrite Hstore.
    unfold Commands.attempted_records.
    rewrite Commands.omap_store_calls;
      [|apply Commands.attempted_not_store
       |rewrite Hev; apply Commands.store_all_only_store_calls].
    fold (Commands.attempted_records store_events).
    rewrite Hev, Commands.store_all_attempted.
    intros Hin. apply list_elem_of_omap in Hin as (l & _ & Hl).
    destruct (h !! l) as [e|] eqn:He; [|done]. injection Hl as <-.
    by exists parsed, h, relevant, later, l, e.
Qed.

(** Every record a cycle hands to the store has status raw, no id yet, a
    sentiment among bullish, bearish and neutral, and a category that is
    one of the six valid ones or the category configured for one of the
    sources, whatever the feeds hold and the classifier replies. *)
Theorem cmd_collect_records_valid sources state groq (store : S) :
  Forall (λ record,
            r_status record = "raw" ∧ r_id record = None ∧
            r_sentiment record ∈ Llm.VALID_SENTIMENTS ∧
            (r_category record ∈ Llm.VALID_CATEGORIES ∨
             r_category record ∈ map s_category sources))
         (Commands.attempted_records (fst (Commands.cmd_collect sources state groq store))).
Proof.
  apply Forall_forall. intros record Hin.
  apply cmd_collect_attempted in Hin
    as (parsed & h & relevant & later & l & e & Hparse & Hclassify & He & ->).
  split; [done|]. split; [done|].
  pose proof (parse_all_fresh (Commands.scan_sources state sources) _ parsed
                (λ _ Hin, Hin) Hparse) as Hfresh.
  assert (Hh : h = fst (fst (Commands.classify groq (map_seq 0 parsed)
                               (Commands.batches (seq 0 (length parsed))))))
    by by rewrite Hclassify.
  assert (Hstart : ∀ e0, (map_seq 0 parsed : heap) !! l = Some e0 →
            fresh_from (Commands.scan_sources state sources) e0).
  { intros e0 He0. rewrite lookup_map_seq_0 in He0.
    rewrite Forall_forall in Hfresh. apply Hfresh. by eapply list_elem_of_lookup_2. }
  assert (Hvalid : FilterFrame.annotations_valid e ∧
            ∃ e0, (map_seq 0 parsed : heap) !! l = Some e0 ∧
                  FilterFrame.same_article e0 e).
  { destruct (FilterFrame.classify_touched FilterFrame.keeps_valid groq (map_seq 0 parsed)
                (Commands.batches (seq 0 (length parsed))) l)
      as [Heq|(_ & e0 & e1 & He0 & He1 & HR)];
    destruct (FilterFrame.classify_touched FilterFrame.same_article groq (map_seq 0 parsed)
                (Commands.batches (seq 0 (length parsed))) l)
      as [Heq'|(_ & e0' & e1' & He0' & He1' & HR')];
    rewrite <- Hh in *.
    - rewrite He in Heq. split.
      + destruct (Hstart e (eq_sym Heq)) as (Hc & Hs & _).
        split; intros x Hx; congruence.
      + exists e. split; [done|]. apply FilterFrame.inv_refl.
    - rewrite He in Heq. rewrite He in He1'. injection He1' as <-. split.
      + destruct (Hstart e (eq_sym Heq)) as (Hc & Hs & _).
        split; intros x Hx; congruence.
      + by exists e0'.
    - rewrite He in He1. injection He1 as <-. split.
      + apply HR. destruct (Hstart e0 He0) as (Hc & Hs & _).
        split; intros x Hx; congruence.
      + exists e0. split; [done|]. rewrite He in Heq'.
        rewrite He0 in Heq'. injection Heq' as <-. apply FilterFrame.inv_refl.
    - rewrite He in He1. injection He1 as <-. split.
      + apply HR. destruct (Hstart e0 He0) as (Hc & Hs & _).
        split; intros x Hx; congruence.
      + rewrite He in He1'. injection He1' as <-. by exists e0'. }
  destruct Hvalid as [[Hcat Hsent] (e0 & He0 & Hsame)].
  split.
  - simpl. destruct (p_filter_sentiment e) as [s|]; [by apply Hsent|].
    apply FilterFrame.neutral_is_valid.
  - simpl. destruct (p_filter_category e) as [c|]; [left; by apply Hcat|].
    right. destruct (Hstart e0 He0) as (_ & _ & item & Hitem & Hsrc).
    destruct Hsame as (_ & _ & _ & _ & _ & _ & _ & Hsc & _).
    rewrite Hsc, Hsrc. apply list_elem_of_fmap_2.
    destruct item as [[src entries] top].
    by apply Commands.scan_sources_fetched in Hitem as [Hin _].
Qed.

End Records.

End StoredRecords.

(** ** scraper.py: documents, the browser, and the caller *)

Module Extraction.



Section Cascade.
Context `{PyStr} `{Web} `{Playwright}.

(** A document URL only ever yields a text of at least
    [MIN_CONTENT_LENGTH] characters: the document strategies test the
    text they return. *)
Theorem scrape_article_document_threshold url text :
  Scraper.is_pdf_url url = true →
  snd (Scraper.scrape_article url) = Returns (Some text) →
  (Helpers.MIN_CONTENT_LENGTH ≤ String.length text)%nat.
Proof.
  intros Hpdf. unfold Scraper.scrape_article. rewrite Hpdf. intros Hrun.
  apply Scraper.scrape_pdf_long in Hrun. unfold Scraper.long_enough in Hrun.
  by apply Nat.leb_le.
Qed.


Lemma challenge_waits_bounded reads :
  Scraper.challenge_waits 0 3 reads
    `prefix_of` [ChallengeWait 8; ChallengeWait 13; ChallengeWait 18].
Proof.
  destruct reads as [|[t1 c1] reads]; simpl; [apply prefix_nil|].
  destruct (negb _ && negb _); [apply prefix_nil|]. apply prefix_cons.
  destruct reads as [|[t2 c2] reads]; simpl; [apply prefix_nil|].
  destruct (negb _ && negb _); [apply prefix_nil|]. apply prefix_cons.
  destruct reads as [|[t3 c3] reads]; simpl; [apply prefix_nil|].
  destruct (negb _ && negb _); [apply prefix_nil|]. apply prefix_cons.
  apply prefix_nil.
Qed.




(** What the browser fallback does, whatever the page: the browser is
    launched once, at most three challenge waits of 8, 13 and 18 seconds
    are made, and when the launch went through the browser is closed again
    as the last step. *)
Lemma run_browser_html_events url :
  ∃ waits, waits `prefix_of` [ChallengeWait 8; ChallengeWait 13; ChallengeWait 18] ∧
    (fst (Scraper._run_browser_html url) = [BrowserLaunch url] ∧
     snd (Scraper._run_browser_html url) = Raises ∧ waits = [] ∨
     fst (Scraper._run_browser_html url) = BrowserLaunch url :: waits ++ [BrowserClose] ∧
     snd (Scraper._run_browser_html url) ≠ Raises).
Proof.
  unfold Scraper._run_browser_html.
  destruct (launch url); [|exists []; split; [apply prefix_nil|by left]].
  destruct (render url) as [[reads html]|].
  - exists (Scraper.challenge_waits 0 3 reads).
    split; [apply challenge_waits_bounded|by right].
  - exists []. split; [apply prefix_nil|by right].
Qed.

Lemma run_browser_pdf_events url :
  fst (Scraper._run_browser_pdf url) = [BrowserLaunch url] ∧
  snd (Scraper._run_browser_pdf url) = Raises ∨
  fst (Scraper._run_browser_pdf url) = [BrowserLaunch url; BrowserClose] ∧
  snd (Scraper._run_browser_pdf url) ≠ Raises.
Proof.
  unfold Scraper._run_browser_pdf. destruct (launch url); [by right|by left].
Qed.


End Cascade.

(** A document server, and a browser that is never needed. *)
Definition document_web : Web :=
  {| http_get := λ _, Raises;
     newspaper_text := λ _ _, Raises;
     parse_html := λ _, Raises;
     pdf_get := λ _, Returns (200, "application/pdf", "%PDF-1.7 ...");
     pdf_pages_text := λ _, Returns (Scraper.long_article +:+ Scraper.newline) |}.

Lemma scrape_article_document_threshold_witness :
  snd (@Scraper.scrape_article Scraper.ascii_pystr document_web Scraper.no_browser
         "https://idx.example/files/report.PDF") = Returns (Some Scraper.long_article) ∧
  (Helpers.MIN_CONTENT_LENGTH ≤ String.length Scraper.long_article)%nat.
Proof.
  assert (Hrun : snd (@Scraper.scrape_article Scraper.ascii_pystr document_web
                        Scraper.no_browser "https://idx.example/files/report.PDF")
                 = Returns (Some Scraper.long_article)) by (vm_compute; reflexivity).
  split; [exact Hrun|].
  apply (@scrape_article_document_threshold Scraper.ascii_pystr document_web
           Scraper.no_browser "https://idx.example/files/report.PDF");
    [vm_compute; reflexivity|exact Hrun].
Defined.



End Extraction.

(** ** store.py and db.py: looking up, updating, counting *)

Module StoreOps.

(** [JSONStore.update] *)
Definition update (record : news_record) : stateM JSONStore.t unit :=
  if truthy_str (r_filepath record) then
    _ ← JSONStore.write (get_default (r_filepath record) "") (public_keys record);
    JSONStore._invalidate
  else mret tt.                                   (* Cannot update without _filepath *)

Definition has_status (status : string) (r : news_record) : bool :=
  String.eqb (r_status r) status.

(** [JSONStore.stats]: total, raw, analyzed. *)
Definition stats : stateM JSONStore.t (nat * nat * nat) :=
  all_news ← JSONStore._load_all;
  mret (length all_news,
        length (List.filter (has_status "raw") (JSONStore.dict_values all_news)),
        length (List.filter (has_status "analyzed") (JSONStore.dict_values all_news))).

Section Lookup.
Context `{PyStr} `{Difflib} `{Hashlib} `{FileNames}.

(** Reading the directory: what is listed under an id is built from a file
    that carries this id. *)
Lemma load_keeps (P : news_record → Prop) i dir acc :
  (∀ name d, (name, Some d) ∈ dir → r_id d = Some i → P (set_filepath (Some name) d)) →
  (∀ d, JSONStore.dict_get i acc = Some d → P d) →
  ∀ d, JSONStore.dict_get i (fold_left JSONStore.load_step dir acc) = Some d → P d.
Proof.
  revert acc. induction dir as [|[name content] rest IH]; intros acc Hdir Hacc; simpl; [done|].
  apply IH.
  - intros name' d' Hin. apply (Hdir name'). by right.
  - destruct content as [data|]; simpl; [|done].
    destruct (String.eqb (get_default (r_id data) "") "") eqn:Hempty; [done|].
    intros d. rewrite DedupGate.dict_get_set.
    destruct (String.eqb i (get_default (r_id data) "")) eqn:Hi; [|apply Hacc].
    intros [= <-]. apply String.eqb_eq in Hi.
    apply (Hdir name data); [left|].
    destruct (r_id data) as [j|]; simpl in *; [by subst|].
    subst i. discriminate.
Qed.

(** When all files that carry the id [i] are the file [name] with the
    record [d], that record is what the directory lists under [i]. *)
Lemma read_dir_unique i name d dir :
  i ≠ "" → (name, Some d) ∈ dir → r_id d = Some i →
  (∀ name' d', (name', Some d') ∈ dir → r_id d' = Some i → name' = name ∧ d' = d) →
  JSONStore.dict_get i (JSONStore.read_dir dir) = Some (set_filepath (Some name) d).
Proof.
  intros Hi Hin Hid Honly.
  destruct (DedupGate.load_finds_id i dir [] Hi) as [r Hr].
  { right. by exists name, d. }
  unfold JSONStore.read_dir. rewrite Hr. f_equal.
  apply (load_keeps (λ r, r = set_filepath (Some name) d) i dir []); [|done|exact Hr].
  intros name' d' Hin' Hid'. by destruct (Honly name' d' Hin' Hid') as [-> ->].
Qed.

Lemma get_by_id_fresh_cache i dir :
  is_Some (JSONStore.dict_get i (JSONStore.read_dir dir)) →
  fst (JSONStore.get_by_id i {| JSONStore.news_dir := dir; JSONStore._cache := None |})
  = JSONStore.dict_get i (JSONStore.read_dir dir).
Proof.
  intros [r Hr]. unfold JSONStore.get_by_id, JSONStore._load_all, mbind, stateM_bind.
  simpl. by rewrite Hr.
Qed.

(** Saving and looking up: after [save] accepted a record, [get_by_id]
    with the id of its URL returns that record, with its id and the path
    of its file, provided no file already in the directory carries the
    id. *)
Theorem json_save_then_get_by_id self record :
  JSONStore.cache_ok self →
  fst (JSONStore.save record self) = true →
  (∀ name d, (name, Some d) ∈ JSONStore.news_dir self →
     r_id d ≠ Some (Helpers.generate_id (r_url record))) →
  fst (JSONStore.get_by_id (Helpers.generate_id (r_url record))
         (snd (JSONStore.save record self)))
  = Some (set_filepath (Some (JSONStore.file_name record))
            (set_id (Helpers.generate_id (r_url record)) record)).
Proof.
  intros Hok Hsaved Hfree.
  pose proof (DedupGate.json_save_run self record Hok) as Hrun. cbv zeta in Hrun.
  rewrite Hrun in Hsaved |- *.
  destruct (is_duplicate_in _ _ || bool_decide _); [done|]. simpl.
  set (i := Helpers.generate_id (r_url record)) in *.
  set (dir' := JSONStore.write_file _ _ _).
  assert (Hget : JSONStore.dict_get i (JSONStore.read_dir dir')
                 = Some (set_filepath (Some (JSONStore.file_name record))
                           (public_keys (set_id i record)))).
  { apply read_dir_unique; [apply md5_hex8_nonempty|apply DedupGate.write_file_written|done|].
    intros name' d' Hin Hid.
    apply DedupGate.write_file_elem in Hin as [Heq|Hin]; [by injection Heq as -> ->|].
    by destruct (Hfree name' d' Hin). }
  rewrite get_by_id_fresh_cache by (rewrite Hget; by eexists).
  by rewrite Hget.
Qed.

(** The listing of a directory: sorted by name, no name twice. *)
Definition listed (dir : list (string * option news_record)) : Prop :=
  StronglySorted (λ a b, String.compare (fst a) (fst b) = Lt) dir.

Lemma compare_lt_ne a b : String.compare a b = Lt → a ≠ b.
Proof.
  intros Hlt ->. pose proof (String.compare_antisym b b) as Hanti.
  rewrite Hlt in Hanti. discriminate.
Qed.

Lemma compare_gt_ne a b : String.compare a b = Gt → a ≠ b.
Proof.
  intros Hgt ->. pose proof (String.compare_antisym b b) as Hanti.
  rewrite Hgt in Hanti. discriminate.
Qed.

(** Writing a file replaces what was at its name. *)
Lemma write_file_replaces name data dir file :
  listed dir → file ∈ JSONStore.write_file name data dir →
  file = (name, data) ∨ (file ∈ dir ∧ fst file ≠ name).
Proof.
  induction dir as [|[name' data'] rest IH]; intros Hsorted; simpl.
  - intros Hin. apply list_elem_of_singleton in Hin. by left.
  - apply StronglySorted_inv in Hsorted as [Hrest Hfirst].
    rewrite Forall_forall in Hfirst.
    destruct (String.compare name name') eqn:Hcmp.
    + apply String.compare_eq_iff in Hcmp as <-.
      intros Hin. apply elem_of_cons in Hin as [->|Hin]; [by left|].
      right. split; [by right|].
      apply not_eq_sym, compare_lt_ne. by apply (Hfirst file).
    + intros Hin. apply elem_of_cons in Hin as [->|Hin]; [by left|].
      right. split; [done|].
      apply elem_of_cons in Hin as [->|Hin]; [by apply not_eq_sym, compare_lt_ne|].
      intros Heq. specialize (Hfirst file Hin). simpl in Hfirst.
      rewrite Heq, String.compare_antisym, Hcmp in Hfirst. discriminate.
    + intros Hin. apply elem_of_cons in Hin as [->|Hin].
      * right. split; [left|]. by apply not_eq_sym, compare_gt_ne.
      * destruct (IH Hrest Hin) as [->|[Hin' Hne]]; [by left|].
        right. split; [by right|done].
Qed.

(** [update] and [get_by_id]: a record without a file path is not
    written; a record with one is written to that file, and is then found
    again, as it is, under its id, provided every file that carries the id
    is that file. *)
Theorem json_update_then_get_by_id self record i fp :
  r_id record = Some i → i ≠ "" → r_filepath record = Some fp → fp ≠ "" →
  listed (JSONStore.news_dir self) →
  (∀ name d, (name, Some d) ∈ JSONStore.news_dir self → r_id d = Some i → name = fp) →
  fst (JSONStore.get_by_id i (snd (update record self))) = Some record ∧
  ∀ unsaved, truthy_str (r_filepath unsaved) = false → update unsaved self = (tt, self).
Proof.
  intros Hid Hi Hfp Hfpne Hlisted Honly.
  split; [|intros unsaved Hnone; unfold update; by rewrite Hnone].
  unfold update. rewrite Hfp. simpl.
  destruct (String.eqb fp "") eqn:Hempty; [by apply String.eqb_eq in Hempty|]. simpl.
  unfold mbind, stateM_bind, JSONStore.write, JSONStore._invalidate. simpl.
  set (dir' := JSONStore.write_file fp (Some (public_keys record)) (JSONStore.news_dir self)).
  assert (Hget : JSONStore.dict_get i (JSONStore.read_dir dir')
                 = Some (set_filepath (Some fp) (public_keys record))).
  { apply read_dir_unique; [done|apply DedupGate.write_file_written|done|].
    intros name' d' Hin Hid'.
    apply (write_file_replaces _ _ _ _ Hlisted) in Hin as [Heq|[Hin Hne]];
      [by injection Heq as -> ->|].
    by destruct Hne, (Honly name' d' Hin Hid'). }
  rewrite get_by_id_fresh_cache by (rewrite Hget; by eexists).
  rewrite Hget. f_equal. destruct record; simpl in *. by subst.
Qed.

Lemma dict_values_length (d : JSONStore.pydict) : length (JSONStore.dict_values d) = length d.
Proof. apply length_map. Qed.

Lemma count_statuses (records : list news_record) :
  (length (List.filter (has_status "raw") records)
   + length (List.filter (has_status "analyzed") records) ≤ length records)%nat.
Proof.
  induction records as [|r rest IH]; [done|].
  cbn [List.filter].
  destruct (has_status "raw" r) eqn:Hraw; destruct (has_status "analyzed" r) eqn:Hdone;
    cbn [length]; try lia.
  unfold has_status in *. apply String.eqb_eq in Hraw, Hdone. congruence.
Qed.

(** The numbers [stats] reports are consistent: the total is the number
    of ids the directory lists, and raw and analyzed records together are
    never more than the total. *)
Theorem json_stats_consistent self :
  JSONStore.cache_ok self →
  let '(total, raw, analyzed) := fst (stats self) in
  total = length (JSONStore.stored self) ∧ (raw + analyzed ≤ total)%nat.
Proof.
  intros Hok. unfold stats, mbind, stateM_bind, mret, stateM_ret.
  destruct (DedupGate.json_load_all_ok self Hok) as (Hv & _ & _).
  destruct (JSONStore._load_all self) as [records self1]. simpl in *. subst records.
  unfold JSONStore.stored. rewrite dict_values_length. split; [done|].
  rewrite <- dict_values_length. apply count_statuses.
Qed.

Lemma prefix_refl (i : string) : String.prefix i i = true.
Proof.
  induction i as [|c i IH]; simpl; [done|].
  destruct (ascii_dec c c); [exact IH|done].
Qed.

Lemma read_dir_keys k v dir :
  JSONStore.dict_get k (JSONStore.read_dir dir) = Some v → r_id v = Some k.
Proof.
  apply (load_keeps (λ r, r_id r = Some k) k dir []); [|done].
  by intros name d _ Hid.
Qed.

(** [get_by_id] only returns stored records, and only records whose id
    starts with the id asked for. *)
Theorem json_get_by_id_sound self i r :
  JSONStore.cache_ok self →
  fst (JSONStore.get_by_id i self) = Some r →
  r ∈ JSONStore.stored self ∧ ∃ k, r_id r = Some k ∧ String.prefix i k = true.
Proof.
  intros Hok.
  destruct (DedupGate.json_load_all_ok self Hok) as (Hv & _ & _).
  unfold JSONStore.get_by_id, mbind, stateM_bind, mret, stateM_ret.
  destruct (JSONStore._load_all self) as [records self1]. simpl in Hv. subst records.
  destruct (JSONStore.dict_get i (JSONStore.read_dir _)) as [found|] eqn:Hexact; simpl.
  - intros [= <-]. split; [by apply DedupGate.dict_get_value with i|].
    exists i. split; [by apply read_dir_keys with (JSONStore.news_dir self)|apply prefix_refl].
  - destruct (filter _ _) as [|k [|k' ks]] eqn:Hmatches; simpl; try done.
    intros Hget. split; [by apply DedupGate.dict_get_value with k|].
    exists k. split; [by apply read_dir_keys with (JSONStore.news_dir self)|].
    assert (Hk : k ∈ filter (λ k, String.prefix i k = true)
                   (map fst (JSONStore.read_dir (JSONStore.news_dir self))))
      by (rewrite Hmatches; left).
    by apply list_elem_of_filter in Hk as [Hk _].
Qed.

Lemma filter_id_absent (i : string) (rows : list news_record) :
  Forall (λ row, r_id row ≠ Some i) rows → filter (λ r, r_id r = Some i) rows = [].
Proof.
  induction 1 as [|row rows Hrow _ IH]; [done|].
  rewrite filter_cons. by destruct (decide (r_id row = Some i)).
Qed.

(** Saving and looking up on the Supabase store: after [save] accepted a
    record, [get_by_id] with the id of its URL returns the row inserted,
    provided no row of the table already has that id. *)
Theorem db_save_then_get_by_id (self : SupabaseDB.t) record :
  SupabaseDB.cache_ok self →
  fst (SupabaseDB.save record self) = true →
  Forall (λ row, r_id row ≠ Some (Helpers.generate_id (r_url record)))
         (SupabaseDB.news self) →
  fst (SupabaseDB.get_by_id (Helpers.generate_id (r_url record))
         (snd (SupabaseDB.save record self)))
  = Some (public_keys (set_id (Helpers.generate_id (r_url record)) record)).
Proof.
  intros Hok Hsaved Hfree.
  destruct (DedupGate.db_save_gate self record Hok) as (_ & _ & Hrow & _).
  specialize (Hrow Hsaved). unfold SupabaseDB.get_by_id. rewrite Hrow.
  set (i := Helpers.generate_id (r_url record)) in *.
  rewrite filter_app.
  rewrite (filter_id_absent i (SupabaseDB.news self) Hfree). simpl. rewrite filter_cons. simpl.
  by destruct (decide (Some i = Some i)).
Qed.

End Lookup.

(** The store after one record was saved into an empty directory, and the
    record as [get_by_id] returns it. *)
Definition one_record : news_record :=
  DedupGate.sample_record "https://a.example/1" "IHSG menguat" "2024-05-01T03:00:00+00:00".

Definition store_of_one : JSONStore.t :=
  snd (@JSONStore.save DedupGate.plain_pystr DedupGate.exact_difflib
         DedupGate.tagged_hashlib DedupGate.plain_file_names one_record
         DedupGate.empty_store).

Definition one_record_stored : news_record :=
  set_filepath (Some "id:https://a.example/1_IHSG menguat.json")
    (set_id "id:https://a.example/1" one_record).

Lemma json_save_then_get_by_id_witness :
  fst (JSONStore.get_by_id "id:https://a.example/1" store_of_one) = Some one_record_stored.
Proof.
  apply (@json_save_then_get_by_id DedupGate.plain_pystr DedupGate.exact_difflib
           DedupGate.tagged_hashlib DedupGate.plain_file_names
           DedupGate.empty_store one_record).
  - by left.
  - reflexivity.
  - intros name d Hin. by apply elem_of_nil in Hin.
Defined.

(** The record after its analysis, as [cmd_analyze] hands it to
    [update]. *)
Definition one_record_analyzed : news_record :=
  {| r_title := r_title one_record_stored; r_url := r_url one_record_stored;
     r_published_at := r_published_at one_record_stored;
     r_source_id := r_source_id one_record_stored;
     r_source_name := r_source_name one_record_stored;
     r_source_type := r_source_type one_record_stored;
     r_category := "Macro"; r_sentiment := "bullish"; r_ticker := Some "BBCA";
     r_rss_summary := r_rss_summary one_record_stored; r_status := "analyzed";
     r_sub_category := r_sub_category one_record_stored;
     r_id := r_id one_record_stored; r_filepath := r_filepath one_record_stored |}.

Lemma store_of_one_listing :
  JSONStore.news_dir store_of_one
  = [("id:https://a.example/1_IHSG menguat.json",
      Some (public_keys (set_id "id:https://a.example/1" one_record)))].
Proof. reflexivity. Qed.

Lemma json_update_then_get_by_id_witness :
  fst (JSONStore.get_by_id "id:https://a.example/1"
         (snd (update one_record_analyzed store_of_one))) = Some one_record_analyzed ∧
  ∀ unsaved, truthy_str (r_filepath unsaved) = false →
             update unsaved store_of_one = (tt, store_of_one).
Proof.
  apply (json_update_then_get_by_id store_of_one one_record_analyzed
           "id:https://a.example/1" "id:https://a.example/1_IHSG menguat.json").
  - reflexivity.
  - discriminate.
  - reflexivity.
  - discriminate.
  - rewrite store_of_one_listing. repeat constructor.
  - rewrite store_of_one_listing. intros name d Hin _.
    apply list_elem_of_singleton in Hin. by injection Hin as -> _.
Defined.

Lemma json_stats_consistent_witness :
  fst (stats (snd (update one_record_analyzed store_of_one))) = (1, 0, 1)%nat ∧
  (1%nat = length (JSONStore.stored (snd (update one_record_analyzed store_of_one)))
   ∧ (0 + 1 ≤ 1)%nat).
Proof.
  split; [reflexivity|].
  apply (json_stats_consistent (snd (update one_record_analyzed store_of_one))).
  by left.
Defined.

Lemma json_get_by_id_sound_witness :
  one_record_stored ∈ JSONStore.stored store_of_one ∧
  ∃ k, r_id one_record_stored = Some k ∧ String.prefix "id:https://a" k = true.
Proof.
  apply (json_get_by_id_sound store_of_one "id:https://a" one_record_stored).
  - by left.
  - reflexivity.
Defined.

Definition db_of_one : SupabaseDB.t :=
  snd (@SupabaseDB.save DedupGate.plain_pystr DedupGate.exact_difflib
         DedupGate.tagged_hashlib one_record (DedupGate.empty_db [])).

Lemma db_save_then_get_by_id_witness :
  fst (SupabaseDB.get_by_id "id:https://a.example/1" db_of_one)
  = Some (public_keys (set_id "id:https://a.example/1" one_record)).
Proof.
  apply (@db_save_then_get_by_id DedupGate.plain_pystr DedupGate.exact_difflib
           DedupGate.tagged_hashlib (DedupGate.empty_db []) one_record).
  - by split; left.
  - reflexivity.
  - constructor.
Defined.

End StoreOps.

(** ** llm.py: what [analyze_single] returns *)

(** [str(value)] for a value decoded from JSON; on a string it is the
    string itself. *)
Class PyRepr := {
  str_of : json → string;
  str_of_str : ∀ s, str_of (JStr s) = s
}.

Module Analysis.

(** [d[key] = value] on a decoded object (the position of the key in the
    dictionary is not kept). *)
Definition obj_set (key : string) (value : json) (members : list (string * json))
  : list (string * json) :=
  List.filter (λ member, negb (String.eqb (fst member) key)) members ++ [(key, value)].

(** The dictionary returned when anything raises inside the [try]. *)
Definition fallback (record : news_record) : list (string * json) :=
  [("summary", JStr ""); ("sentiment_direction", JStr "neutral");
   ("sentiment_reasoning", JStr ""); ("category", JStr (r_category record));
   ("tags", JList []); ("ticker", JNull); ("key_data", JList [])].

(** [ticker.upper() if ticker else None], after
    [if ticker and (not isinstance(ticker, str) or len(ticker) != 4):
       ticker = None] *)
Definition checked_ticker `{PyStr} (ticker : json) : json :=
  match ticker with
  | JStr t =>
      if negb (String.eqb t "") && Nat.eqb (String.length t) 4
      then JStr (str_upper t) else JNull
  | _ => JNull
  end.

(** [[str(t).lower().strip() for t in tags if t] if isinstance(tags, list)
    else []] *)
Definition checked_tags `{PyStr} `{PyRepr} (tags : json) : json :=
  match tags with
  | JList items =>
      JList (map (λ t, JStr (Scraper.strip (str_lower (str_of t))))
                 (List.filter truthy items))
  | _ => JList []
  end.

(** [cat not in VALID_CATEGORIES]: a TypeError for an unhashable value. *)
Definition checked_category (record : news_record) (cat : json) : outcome json :=
  match cat with
  | JStr c => Returns (if bool_decide (c ∈ Llm.VALID_CATEGORIES) then JStr c
                       else JStr (r_category record))
  | _ => if hashable cat then Returns (JStr (r_category record)) else Raises
  end.

(** The [try] block of [analyze_single]; [reply] is what
    [json.loads(groq.chat(...))] gives, or [Raises]. *)
Definition analyze_reply `{PyStr} `{PyRepr} (record : news_record) (reply : outcome json)
  : list (string * json) :=
  match reply with
  | Returns (JObj analysis) =>
      match checked_category record
              (obj_get_default "category" (JStr (r_category record)) analysis) with
      | Raises => fallback record
      | Returns cat =>
          let analysis := obj_set "category" cat analysis in
          match Llm.checked_choice Llm.VALID_SENTIMENTS "neutral"
                  (obj_get_default "sentiment_direction" (JStr "neutral") analysis) with
          | Raises => fallback record
          | Returns direction =>
              let analysis := obj_set "sentiment_direction" (JStr direction) analysis in
              let ticker := obj_get_default "ticker" JNull analysis in
              let analysis := obj_set "ticker" (checked_ticker ticker) analysis in
              let tags := obj_get_default "tags" (JList []) analysis in
              obj_set "tags" (checked_tags tags) analysis
          end
      end
  | _ => fallback record                        (* any exception: the default dictionary *)
  end.

(** [analyze_single] *)
Definition analyze_single `{PyStr} `{PyRepr} `{Web} `{Playwright}
    (record : news_record) (reply : outcome json) : outcome (list (string * json)) :=
  match Scraper.analysis_content record with
  | Raises => Raises
  | Returns _ => Returns (analyze_reply record reply)
  end.

(** [if analysis.get(key): record[key] = analysis[key]] for a key of the
    record that holds a string: the value of the key afterwards, [None]
    when what is assigned is not a string. *)
Definition assigned (old : string) (value : json) : option string :=
  match value with
  | JStr s => Some (if String.eqb s "" then old else s)
  | _ => if truthy value then None else Some old
  end.

Definition assigned_ticker (old : option string) (value : json) : option (option string) :=
  match value with
  | JStr t => Some (if String.eqb t "" then old else Some t)
  | _ => if truthy value then None else Some old
  end.

(** The assignments of [cmd_analyze] to the keys [news_record] keeps (the
    keys ["analysis"] and ["analyzed_at"] are set as well). *)
Definition analyzed_record (record : news_record) (analysis : list (string * json))
  : option news_record :=
  category ← assigned (r_category record) (obj_get_default "category" JNull analysis);
  ticker ← assigned_ticker (r_ticker record) (obj_get_default "ticker" JNull analysis);
  sentiment ← assigned (r_sentiment record)
                 (obj_get_default "sentiment_direction" JNull analysis);
  Some {| r_title := r_title record; r_url := r_url record;
          r_published_at := r_published_at record; r_source_id := r_source_id record;
          r_source_name := r_source_name record; r_source_type := r_source_type record;
          r_category := category; r_sentiment := sentiment; r_ticker := ticker;
          r_rss_summary := r_rss_summary record; r_status := "analyzed";
          r_sub_category := r_sub_category record;
          r_id := r_id record; r_filepath := r_filepath record |}.

Lemma obj_get_app key members later :
  obj_get key (members ++ later)
  = match obj_get key later with Some v => Some v | None => obj_get key members end.
Proof.
  unfold obj_get. rewrite fold_left_app.
  generalize (fold_left (λ found member, if String.eqb (fst member) key
                                         then Some (snd member) else found) members None).
  induction later as [|[k v] later IH] using rev_ind; intros found; [by destruct found|].
  rewrite !fold_left_app. simpl. by destruct (String.eqb k key).
Qed.

Lemma obj_get_filter_other key other members :
  key ≠ other →
  obj_get key (List.filter (λ member, negb (String.eqb (fst member) other)) members)
  = obj_get key members.
Proof.
  intros Hne. induction members as [|[k v] members IH] using rev_ind; [done|].
  rewrite List.filter_app, !obj_get_app. simpl.
  destruct (String.eqb k other) eqn:Hk; simpl.
  - apply String.eqb_eq in Hk as ->. unfold obj_get. simpl.
    destruct (String.eqb other key) eqn:Hok; [|exact IH].
    apply String.eqb_eq in Hok. congruence.
  - unfold obj_get at 1 3. simpl. by destruct (String.eqb k key).
Qed.

Lemma obj_get_set key other value members :
  obj_get key (obj_set other value members)
  = if String.eqb other key then Some value else obj_get key members.
Proof.
  unfold obj_set. rewrite obj_get_app. unfold obj_get at 1. simpl.
  destruct (String.eqb other key) eqn:Hk; [done|].
  apply obj_get_filter_other. intros ->. by rewrite String.eqb_refl in Hk.
Qed.

Section Validation.
Context `{PyStr} `{PyRepr}.

(** What is under a key of the analysis that the caller reads. *)
Definition valid_analysis (record : news_record) (analysis : list (string * json)) : Prop :=
  (∃ c, obj_get "category" analysis = Some (JStr c) ∧
        (c ∈ Llm.VALID_CATEGORIES ∨ c = r_category record)) ∧
  (∃ s, obj_get "sentiment_direction" analysis = Some (JStr s) ∧ s ∈ Llm.VALID_SENTIMENTS) ∧
  (obj_get "ticker" analysis = Some JNull ∨
   ∃ t, String.length t = 4%nat ∧ obj_get "ticker" analysis = Some (JStr (str_upper t))) ∧
  (∃ tags, obj_get "tags" analysis = Some (JList tags) ∧
           Forall (λ tag, ∃ s, tag = JStr s) tags).

Lemma fallback_valid record : valid_analysis record (fallback record).
Proof.
  split; [exists (r_category record); split; [done|by right]|].
  split; [exists "neutral"; split; [done|apply FilterFrame.neutral_is_valid]|].
  split; [by left|]. exists []. split; [done|constructor].
Qed.

(** Whatever the analysis model replies (or if the call or the decoding
    raises), the dictionary [analyze_single] builds has a category that is
    valid or the record's own, a sentiment direction among bullish,
    bearish and neutral, a ticker that is null or a four-character string
    in upper case, and a list of strings as tags. *)
Theorem analyze_reply_valid record reply :
  valid_analysis record (analyze_reply record reply).
Proof.
  unfold analyze_reply.
  destruct reply as [[| | | | | |analysis]|]; try apply fallback_valid.
  destruct (checked_category record _) as [cat|] eqn:Hcat; [|apply fallback_valid].
  destruct (Llm.checked_choice Llm.VALID_SENTIMENTS "neutral" _) as [direction|] eqn:Hdir;
    [|apply fallback_valid].
  cbv zeta. unfold valid_analysis. rewrite !obj_get_set. simpl.
  split; [|split; [|split]].
  - unfold checked_category in Hcat.
    destruct (obj_get_default "category" _ analysis) as [| | | |c| |]; simpl in Hcat;
      try (injection Hcat as <-; exists (r_category record); split; [done|by right]);
      try done.
    destruct (bool_decide (c ∈ Llm.VALID_CATEGORIES)) eqn:Hc; injection Hcat as <-.
    + exists c. split; [done|]. left. by apply bool_decide_eq_true in Hc.
    + exists (r_category record). split; [done|by right].
  - exists direction. split; [done|].
    by apply (FilterFrame.checked_choice_valid _ _ _ _ FilterFrame.neutral_is_valid Hdir).
  - unfold checked_ticker.
    destruct (obj_get_default "ticker" JNull _) as [| | | |t| |]; try by left.
    destruct (negb (String.eqb t "") && Nat.eqb (String.length t) 4) eqn:Ht; [|by left].
    right. exists t. split; [|done].
    apply andb_true_iff in Ht as [_ Ht]. by apply Nat.eqb_eq.
  - unfold checked_tags.
    destruct (obj_get_default "tags" (JList []) _) as [| | | | |items|];
      try (exists []; split; [done|constructor]).
    eexists. split; [done|]. apply Forall_forall. intros tag Hin.
    apply list_elem_of_fmap in Hin as (t & -> & _). by eexists.
Qed.

(** The record [cmd_analyze] hands to [store.update] after
    [analyze_single]: its status is analyzed, its sentiment is among
    bullish, bearish and neutral, its category is valid or the one it had,
    its ticker is the one it had or a four-character string in upper case,
    and id, file path and URL are untouched, whatever the analysis model
    replied. *)
Theorem analyzed_record_valid record reply :
  ∃ updated,
    analyzed_record record (analyze_reply record reply) = Some updated ∧
    r_status updated = "analyzed" ∧
    r_sentiment updated ∈ Llm.VALID_SENTIMENTS ∧
    (r_category updated ∈ Llm.VALID_CATEGORIES ∨ r_category updated = r_category record) ∧
    (r_ticker updated = r_ticker record ∨
     ∃ t, String.length t = 4%nat ∧ r_ticker updated = Some (str_upper t)) ∧
    r_id updated = r_id record ∧ r_filepath updated = r_filepath record ∧
    r_url updated = r_url record.
Proof.
  destruct (analyze_reply_valid record reply)
    as ((c & Hc & Hcat) & (s & Hs & Hvalid) & Hticker & _).
  unfold analyzed_record, obj_get_default. rewrite Hc, Hs. simpl.
  assert (Hsent : (if String.eqb s "" then r_sentiment record else s) ∈ Llm.VALID_SENTIMENTS).
  { destruct (String.eqb s "") eqn:Hempty; [|done].
    apply String.eqb_eq in Hempty. subst s.
    unfold Llm.VALID_SENTIMENTS in Hvalid.
    repeat (apply elem_of_cons in Hvalid as [Hvalid|Hvalid]; [discriminate Hvalid|]).
    by apply elem_of_nil in Hvalid. }
  assert (Hcategory : (if String.eqb c "" then r_category record else c)
                        ∈ Llm.VALID_CATEGORIES ∨
                      (if String.eqb c "" then r_category record else c) = r_category record).
  { destruct (String.eqb c ""); [by right|done]. }
  destruct Hticker as [Ht|(t & Hlen & Ht)]; rewrite Ht; simpl.
  - eexists. split; [reflexivity|]. simpl. repeat split; try done. by left.
  - eexists. split; [reflexivity|]. simpl. repeat split; try done.
    destruct (String.eqb (str_upper t) ""); [by left|]. right. by exists t.
Qed.

End Validation.

End Analysis.

(** ** db.py: rows and records *)

Module DbRows.

(** A record or a row as a Python dictionary of JSON values. *)
Definition pydict := list (string * json).

(** [d.pop(key, None)], for its effect on [d]. *)
Definition obj_pop (key : string) (d : pydict) : pydict :=
  List.filter (λ member, negb (String.eqb (fst member) key)) d.

(** [value is None] for what [d.get(key)] gives. *)
Definition is_none (v : json) : bool := match v with JNull => true | _ => false end.

(** [analysis and isinstance(analysis, dict)] *)
Definition analysis_dict (v : json) : option pydict :=
  match v with
  | JObj (member :: members) => Some (member :: members)
  | _ => None
  end.

(** The seven columns an analysis is spread over. *)
Definition analysis_columns (analysis : pydict) : list (string * json) :=
  [("analysis_summary", obj_get_default "summary" (JStr "") analysis);
   ("analysis_sentiment", obj_get_default "sentiment_direction" (JStr "") analysis);
   ("analysis_reasoning", obj_get_default "sentiment_reasoning" (JStr "") analysis);
   ("analysis_category", obj_get_default "category" (JStr "") analysis);
   ("analysis_ticker", obj_get_default "ticker" JNull analysis);
   ("analysis_tags", obj_get_default "tags" (JList []) analysis);
   ("analysis_key_data", obj_get_default "key_data" (JList []) analysis)].

Definition set_all (columns : list (string * json)) (d : pydict) : pydict :=
  fold_left (λ d column, Analysis.obj_set (fst column) (snd column) d) columns d.

(** [SupabaseDB._serialize_for_insert] *)
Definition _serialize_for_insert (record : pydict) : pydict :=
  let clean := List.filter (λ member, negb (String.prefix "_" (fst member))) record in
  let analysis := obj_get_default "analysis" JNull clean in
  let clean := obj_pop "analysis" clean in
  let clean :=
    match analysis_dict analysis with
    | Some analysis => set_all (analysis_columns analysis) clean
    | None => clean
    end in
  if is_none (obj_get_default "analyzed_at" JNull clean)
  then obj_pop "analyzed_at" clean else clean.

(** [SupabaseDB._deserialize] *)
Definition _deserialize (row : pydict) : pydict :=
  if truthy (obj_get_default "analysis_summary" JNull row)
     || truthy (obj_get_default "analysis_sentiment" JNull row)
  then
    Analysis.obj_set "analysis"
      (JObj [("summary", obj_get_default "analysis_summary" (JStr "") row);
             ("sentiment_direction", obj_get_default "analysis_sentiment" (JStr "neutral") row);
             ("sentiment_reasoning", obj_get_default "analysis_reasoning" (JStr "") row);
             ("category", obj_get_default "analysis_category" (JStr "") row);
             ("ticker", obj_get_default "analysis_ticker" JNull row);
             ("tags", obj_get_default "analysis_tags" (JList []) row);
             ("key_data", obj_get_default "analysis_key_data" (JList []) row)])
      row
  else Analysis.obj_set "analysis" JNull row.

(** [SupabaseDB._serialize_for_update] *)
Definition _serialize_for_update (record : pydict) : pydict :=
  let update_data :=
    [("status", obj_get_default "status" JNull record);
     ("sentiment", obj_get_default "sentiment" JNull record);
     ("category", obj_get_default "category" JNull record);
     ("ticker", obj_get_default "ticker" JNull record);
     ("analyzed_at", obj_get_default "analyzed_at" JNull record)] in
  let update_data :=
    match analysis_dict (obj_get_default "analysis" JNull record) with
    | Some analysis => set_all (analysis_columns analysis) update_data
    | None => update_data
    end in
  List.filter (λ member, negb (is_none (snd member))) update_data.

(** The columns an update may write. *)
Definition UPDATE_COLUMNS : list string :=
  ["status"; "sentiment"; "category"; "ticker"; "analyzed_at";
   "analysis_summary"; "analysis_sentiment"; "analysis_reasoning"; "analysis_category";
   "analysis_ticker"; "analysis_tags"; "analysis_key_data"].

Lemma obj_get_pop key other d :
  key ≠ other → obj_get key (obj_pop other d) = obj_get key d.
Proof. apply Analysis.obj_get_filter_other. Qed.

Lemma obj_get_default_set key other value default d :
  obj_get_default key default (Analysis.obj_set other value d)
  = if String.eqb other key then value else obj_get_default key default d.
Proof.
  unfold obj_get_default. rewrite Analysis.obj_get_set. by destruct (String.eqb other key).
Qed.

Lemma obj_get_default_pop key other default d :
  key ≠ other → obj_get_default key default (obj_pop other d) = obj_get_default key default d.
Proof. intros Hne. unfold obj_get_default. by rewrite obj_get_pop. Qed.

(** What a row built from a record with an analysis holds in the seven
    columns. *)
Lemma serialized_columns record analysis key value default :
  analysis_dict (obj_get_default "analysis" JNull
                   (List.filter (λ member, negb (String.prefix "_" (fst member))) record))
  = Some analysis →
  (key, value) ∈ analysis_columns analysis →
  obj_get_default key default (_serialize_for_insert record) = value.
Proof.
  intros Hdict Hin. unfold _serialize_for_insert. rewrite Hdict.
  set (clean := obj_pop "analysis" _).
  assert (Hset : obj_get_default key default (set_all (analysis_columns analysis) clean)
                 = value).
  { unfold set_all, analysis_columns in *. simpl.
    rewrite !obj_get_default_set.
    repeat (apply elem_of_cons in Hin as [Hin|Hin]; [by injection Hin as -> ->|]).
    by apply elem_of_nil in Hin. }
  assert (Hne : key ≠ "analyzed_at").
  { unfold analysis_columns in Hin.
    repeat (apply elem_of_cons in Hin as [Hin|Hin]; [by injection Hin as -> _|]).
    by apply elem_of_nil in Hin. }
  destruct (is_none _); [by rewrite obj_get_default_pop|done].
Qed.

(** Writing a record with an analysis to a row and reading the row back:
    the analysis comes back with its seven fields (a missing field as its
    default) when its summary or its sentiment direction is non-empty, and
    as [None] when both are empty or missing. *)
Theorem deserialize_serialize_analysis record analysis :
  analysis_dict (obj_get_default "analysis" JNull
                   (List.filter (λ member, negb (String.prefix "_" (fst member))) record))
  = Some analysis →
  obj_get "analysis" (_deserialize (_serialize_for_insert record))
  = Some (if truthy (obj_get_default "summary" (JStr "") analysis)
             || truthy (obj_get_default "sentiment_direction" (JStr "") analysis)
          then JObj [("summary", obj_get_default "summary" (JStr "") analysis);
                     ("sentiment_direction",
                      obj_get_default "sentiment_direction" (JStr "") analysis);
                     ("sentiment_reasoning",
                      obj_get_default "sentiment_reasoning" (JStr "") analysis);
                     ("category", obj_get_default "category" (JStr "") analysis);
                     ("ticker", obj_get_default "ticker" JNull analysis);
                     ("tags", obj_get_default "tags" (JList []) analysis);
                     ("key_data", obj_get_default "key_data" (JList []) analysis)]
          else JNull).
Proof.
  intros Hdict.
  assert (Hcol : ∀ key value default, (key, value) ∈ analysis_columns analysis →
            obj_get_default key default (_serialize_for_insert record) = value).
  { intros key value default. by apply serialized_columns. }
  assert (Hsummary : ∀ default,
            obj_get_default "analysis_summary" default (_serialize_for_insert record)
            = obj_get_default "summary" (JStr "") analysis)
    by (intros; apply Hcol; repeat constructor).
  assert (Hsentiment : ∀ default,
            obj_get_default "analysis_sentiment" default (_serialize_for_insert record)
            = obj_get_default "sentiment_direction" (JStr "") analysis)
    by (intros; apply Hcol; repeat constructor).
  assert (Hreasoning : ∀ default,
            obj_get_default "analysis_reasoning" default (_serialize_for_insert record)
            = obj_get_default "sentiment_reasoning" (JStr "") analysis)
    by (intros; apply Hcol; repeat constructor).
  assert (Hcategory : ∀ default,
            obj_get_default "analysis_category" default (_serialize_for_insert record)
            = obj_get_default "category" (JStr "") analysis)
    by (intros; apply Hcol; repeat constructor).
  assert (Hticker : ∀ default,
            obj_get_default "analysis_ticker" default (_serialize_for_insert record)
            = obj_get_default "ticker" JNull analysis)
    by (intros; apply Hcol; repeat constructor).
  assert (Htags : ∀ default,
            obj_get_default "analysis_tags" default (_serialize_for_insert record)
            = obj_get_default "tags" (JList []) analysis)
    by (intros; apply Hcol; repeat constructor).
  assert (Hkey_data : ∀ default,
            obj_get_default "analysis_key_data" default (_serialize_for_insert record)
            = obj_get_default "key_data" (JList []) analysis)
    by (intros; apply Hcol; repeat constructor).
  unfold _deserialize.
  rewrite !Hsummary, !Hsentiment, Hreasoning, Hcategory, Hticker, Htags, Hkey_data.
  by destruct (truthy _ || truthy _); rewrite Analysis.obj_get_set.
Qed.

Definition analysed_row_record : pydict :=
  [("id", JStr "0a1b2c3d"); ("title", JStr "IHSG menguat"); ("status", JStr "analyzed");
   ("_filepath", JStr "news/0a1b2c3d_IHSG_menguat.json");
   ("analysis", JObj [("summary", JStr "IHSG naik 1 persen.");
                      ("sentiment_direction", JStr "bullish");
                      ("tags", JList [JStr "ihsg"])]);
   ("analyzed_at", JNull)].

Lemma deserialize_serialize_analysis_witness :
  obj_get "analysis" (_deserialize (_serialize_for_insert analysed_row_record))
  = Some (JObj [("summary", JStr "IHSG naik 1 persen.");
                ("sentiment_direction", JStr "bullish");
                ("sentiment_reasoning", JStr "");
                ("category", JStr "");
                ("ticker", JNull);
                ("tags", JList [JStr "ihsg"]);
                ("key_data", JList [])]).
Proof.
  exact (deserialize_serialize_analysis analysed_row_record
           [("summary", JStr "IHSG naik 1 persen.");
            ("sentiment_direction", JStr "bullish");
            ("tags", JList [JStr "ihsg"])] eq_refl).
Defined.

(** An analysis whose summary and sentiment direction are both empty does
    not come back from the row. *)
Example empty_analysis_lost :
  obj_get "analysis"
    (_deserialize (_serialize_for_insert
                     [("id", JStr "0a1b2c3d");
                      ("analysis", JObj [("summary", JStr ""); ("category", JStr "Macro")])]))
  = Some JNull.
Proof. reflexivity. Qed.

Lemma obj_set_keys key value (d : pydict) member :
  member ∈ Analysis.obj_set key value d → member = (key, value) ∨ member ∈ d.
Proof.
  unfold Analysis.obj_set. intros Hin. apply elem_of_app in Hin as [Hin|Hin].
  - right. apply list_elem_of_In in Hin. apply filter_In in Hin as [Hin _].
    by apply list_elem_of_In.
  - left. by apply list_elem_of_singleton in Hin.
Qed.

Lemma set_all_keys columns (d : pydict) member :
  member ∈ set_all columns d → member ∈ columns ∨ member ∈ d.
Proof.
  unfold set_all. revert d. induction columns as [|[key value] columns IH]; intros d; simpl.
  - by right.
  - intros Hin. destruct (IH _ Hin) as [Hcol|Hset]; [left; by right|].
    apply obj_set_keys in Hset as [->|Hd]; [left; left|by right].
Qed.

(** An update only ever writes the twelve analysis and status columns,
    and never writes a null: id, URL, title, publish time and the other
    columns of a row are out of its reach. *)
Theorem serialize_for_update_columns (record : pydict) :
  Forall (λ member, fst member ∈ UPDATE_COLUMNS ∧ snd member ≠ JNull)
         (_serialize_for_update record).
Proof.
  apply Forall_forall. intros [key value] Hin. unfold _serialize_for_update in Hin.
  apply list_elem_of_In in Hin. apply filter_In in Hin as [Hin Hvalue].
  apply list_elem_of_In in Hin. split.
  - assert (Hbase : ∀ member : string * json,
              member ∈ [("status", obj_get_default "status" JNull record);
                        ("sentiment", obj_get_default "sentiment" JNull record);
                        ("category", obj_get_default "category" JNull record);
                        ("ticker", obj_get_default "ticker" JNull record);
                        ("analyzed_at", obj_get_default "analyzed_at" JNull record)] →
              fst member ∈ UPDATE_COLUMNS).
    { intros member Hm.
      repeat (apply elem_of_cons in Hm as [->|Hm]; [unfold UPDATE_COLUMNS; simpl; repeat constructor|]).
      by apply elem_of_nil in Hm. }
    destruct (analysis_dict _) as [analysis|]; [|by apply (Hbase (key, value))].
    apply set_all_keys in Hin as [Hcol|Hin]; [|by apply (Hbase (key, value))].
    unfold analysis_columns in Hcol.
    repeat (apply elem_of_cons in Hcol as [Hcol|Hcol];
            [injection Hcol as -> _; unfold UPDATE_COLUMNS; simpl; repeat constructor|]).
    by apply elem_of_nil in Hcol.
  - simpl in Hvalue. by destruct value.
Qed.

End DbRows.

(** ** helpers.py: [clean_text] *)

Module Cleaning.

Definition is_newline (c : ascii) : bool := Nat.eqb (nat_of_ascii c) 10.

Fixpoint newlines_ok (run : nat) (text : string) : Prop :=
  match text with
  | EmptyString => True
  | String c rest =>
      if is_newline c then (run < 2)%nat ∧ newlines_ok (S run) rest
      else newlines_ok 0 rest
  end.

Fixpoint blanks_ok (after_blank : bool) (text : string) : Prop :=
  match text with
  | EmptyString => True
  | String c rest =>
      if Scraper.is_blank c then after_blank = false ∧ blanks_ok true rest
      else blanks_ok false rest
  end.

Lemma collapse_newlines_cons n c rest :
  Scraper.collapse_newlines n (String c rest)
  = if is_newline c
    then if Nat.leb 2 n then Scraper.collapse_newlines (S n) rest
         else String c (Scraper.collapse_newlines (S n) rest)
    else String c (Scraper.collapse_newlines 0 rest).
Proof. reflexivity. Qed.

Lemma collapse_blanks_cons skipping c rest :
  Scraper.collapse_blanks skipping (String c rest)
  = if Scraper.is_blank c then
      if skipping then Scraper.collapse_blanks true rest
      else match rest with
           | String c' _ =>
               if Scraper.is_blank c' then String " " (Scraper.collapse_blanks true rest)
               else String c (Scraper.collapse_blanks false rest)
           | EmptyString => String c EmptyString
           end
    else String c (Scraper.collapse_blanks false rest).
Proof. reflexivity. Qed.

Lemma newlines_ok_cons n c rest :
  newlines_ok n (String c rest)
  = if is_newline c then (n < 2)%nat ∧ newlines_ok (S n) rest else newlines_ok 0 rest.
Proof. reflexivity. Qed.

Lemma blanks_ok_cons b c rest :
  blanks_ok b (String c rest)
  = if Scraper.is_blank c then b = false ∧ blanks_ok true rest else blanks_ok false rest.
Proof. reflexivity. Qed.

Lemma blank_not_newline c : Scraper.is_blank c = true → is_newline c = false.
Proof.
  unfold Scraper.is_blank, is_newline. intros Hb.
  apply orb_true_iff in Hb as [Hb|Hb]; apply Nat.eqb_eq in Hb; by rewrite Hb.
Qed.

Lemma newlines_ok_mono text : ∀ n m, (n ≤ m)%nat → newlines_ok m text → newlines_ok n text.
Proof.
  induction text as [|c rest IH]; intros n m Hle; [done|].
  rewrite !newlines_ok_cons. destruct (is_newline c); [|done].
  intros [Hm Hrest]. split; [lia|]. apply (IH (S n) (S m)); [lia|done].
Qed.

Lemma collapse_newlines_ok text : ∀ n, newlines_ok n (Scraper.collapse_newlines n text).
Proof.
  induction text as [|c rest IH]; intros n; [done|].
  rewrite collapse_newlines_cons. destruct (is_newline c) eqn:Hc.
  - destruct (Nat.leb 2 n) eqn:Hn.
    + apply (newlines_ok_mono _ n (S n)); [lia|apply IH].
    + rewrite newlines_ok_cons, Hc. apply Nat.leb_gt in Hn. split; [lia|apply IH].
  - rewrite newlines_ok_cons, Hc. apply IH.
Qed.

Lemma collapse_newlines_fixed text :
  ∀ n, newlines_ok n text → Scraper.collapse_newlines n text = text.
Proof.
  induction text as [|c rest IH]; intros n; [done|].
  rewrite collapse_newlines_cons, newlines_ok_cons. destruct (is_newline c).
  - intros [Hn Hrest]. destruct (Nat.leb 2 n) eqn:Hle; [apply Nat.leb_le in Hle; lia|].
    f_equal. by apply IH.
  - intros Hrest. f_equal. by apply IH.
Qed.

Lemma collapse_blanks_newlines text :
  (∀ n, newlines_ok n text → newlines_ok n (Scraper.collapse_blanks false text)) ∧
  (newlines_ok 0 text → newlines_ok 0 (Scraper.collapse_blanks true text)).
Proof.
  induction text as [|c rest [IHf IHt]]; [done|].
  assert (Hfalse : ∀ n, newlines_ok n (String c rest) →
            newlines_ok n (Scraper.collapse_blanks false (String c rest))).
  { intros n. rewrite collapse_blanks_cons, newlines_ok_cons.
    destruct (Scraper.is_blank c) eqn:Hc.
    - rewrite (blank_not_newline c Hc). intros Hrest.
      destruct rest as [|c' rest']; [by rewrite newlines_ok_cons, (blank_not_newline c Hc)|].
      destruct (Scraper.is_blank c') eqn:Hc'.
      + rewrite newlines_ok_cons. change (is_newline " ") with false. cbv iota. by apply IHt.
      + rewrite newlines_ok_cons, (blank_not_newline c Hc). by apply IHf.
    - rewrite newlines_ok_cons. destruct (is_newline c).
      + intros [Hn Hrest]. split; [done|]. by apply IHf.
      + intros Hrest. by apply IHf. }
  split; [exact Hfalse|].
  rewrite collapse_blanks_cons.
  destruct (Scraper.is_blank c) eqn:Hc.
  - rewrite newlines_ok_cons, (blank_not_newline c Hc). exact IHt.
  - intros Hok. specialize (Hfalse 0%nat Hok).
    by rewrite collapse_blanks_cons, Hc in Hfalse.
Qed.

Lemma blanks_ok_weaken text b : blanks_ok b text → blanks_ok false text.
Proof.
  destruct text as [|c rest]; [done|]. rewrite !blanks_ok_cons.
  destruct (Scraper.is_blank c); [|done]. by intros [_ ?].
Qed.

Lemma collapse_blanks_ok text :
  blanks_ok false (Scraper.collapse_blanks false text) ∧
  blanks_ok true (Scraper.collapse_blanks true text).
Proof.
  induction text as [|c rest [IHf IHt]]; [done|].
  rewrite !collapse_blanks_cons. destruct (Scraper.is_blank c) eqn:Hc.
  - split; [|exact IHt].
    destruct rest as [|c' rest']; [by rewrite blanks_ok_cons, Hc|].
    destruct (Scraper.is_blank c') eqn:Hc'.
    + rewrite blanks_ok_cons. change (Scraper.is_blank " ") with true. by split.
    + rewrite blanks_ok_cons, Hc. split; [done|].
      rewrite collapse_blanks_cons, Hc' in IHf |- *.
      rewrite blanks_ok_cons, Hc' in IHf |- *. done.
  - rewrite !blanks_ok_cons, Hc. by split.
Qed.

Lemma collapse_blanks_fixed text :
  ∀ b, blanks_ok b text → Scraper.collapse_blanks false text = text.
Proof.
  induction text as [|c rest IH]; intros b; [done|].
  rewrite collapse_blanks_cons, blanks_ok_cons. destruct (Scraper.is_blank c) eqn:Hc.
  - intros [_ Hrest]. destruct rest as [|c' rest']; [done|].
    rewrite blanks_ok_cons in Hrest. destruct (Scraper.is_blank c') eqn:Hc'.
    + by destruct Hrest.
    + f_equal. apply (IH true). by rewrite blanks_ok_cons, Hc'.
  - intros Hrest. f_equal. by apply (IH false).
Qed.

(** Stripping keeps both properties. *)
Lemma lstrip_suffix text : ∃ dropped, text = dropped +:+ Scraper.lstrip text.
Proof.
  induction text as [|c rest [dropped IH]]; [by exists ""|].
  simpl. destruct (Scraper.is_space c); [|by exists ""].
  exists (String c dropped). change (String c rest = String c (dropped +:+ Scraper.lstrip rest)).
  f_equal. exact IH.
Qed.

Lemma newlines_ok_suffix dropped text n :
  newlines_ok n (dropped +:+ text) → newlines_ok 0 text.
Proof.
  revert n. induction dropped as [|c dropped IH]; intros n; simpl.
  - apply newlines_ok_mono. lia.
  - destruct (is_newline c); [intros [_ Hrest]|intros Hrest]; by eapply IH.
Qed.

Lemma blanks_ok_suffix dropped text b :
  blanks_ok b (dropped +:+ text) → blanks_ok false text.
Proof.
  revert b. induction dropped as [|c dropped IH]; intros b; simpl.
  - apply blanks_ok_weaken.
  - destruct (Scraper.is_blank c); [intros [_ Hrest]|intros Hrest]; by eapply IH.
Qed.

Lemma rstrip_cons c rest :
  Scraper.rstrip (String c rest)
  = match Scraper.rstrip rest with
    | EmptyString => if Scraper.is_space c then EmptyString else String c EmptyString
    | kept => String c kept
    end.
Proof. reflexivity. Qed.

Lemma rstrip_newlines text : ∀ n, newlines_ok n text → newlines_ok n (Scraper.rstrip text).
Proof.
  induction text as [|c rest IH]; intros n; [done|].
  rewrite rstrip_cons, newlines_ok_cons.
  destruct (Scraper.rstrip rest) as [|k kept] eqn:Hkept.
  - destruct (Scraper.is_space c); [done|].
    rewrite newlines_ok_cons. destruct (is_newline c); [by intros [? _]|done].
  - rewrite newlines_ok_cons. destruct (is_newline c).
    + intros [Hn Hrest]. split; [done|by apply IH].
    + by apply IH.
Qed.

Lemma rstrip_blanks text : ∀ b, blanks_ok b text → blanks_ok b (Scraper.rstrip text).
Proof.
  induction text as [|c rest IH]; intros b; [done|].
  rewrite rstrip_cons, blanks_ok_cons.
  destruct (Scraper.rstrip rest) as [|k kept] eqn:Hkept.
  - destruct (Scraper.is_space c); [done|].
    rewrite blanks_ok_cons. destruct (Scraper.is_blank c); [by intros [? _]|done].
  - rewrite blanks_ok_cons. destruct (Scraper.is_blank c).
    + intros [Hn Hrest]. split; [done|by apply IH].
    + by apply IH.
Qed.

Lemma rstrip_idempotent text : Scraper.rstrip (Scraper.rstrip text) = Scraper.rstrip text.
Proof.
  induction text as [|c rest IH]; [done|].
  rewrite rstrip_cons. destruct (Scraper.rstrip rest) as [|k kept] eqn:Hkept.
  - destruct (Scraper.is_space c) eqn:Hc; [done|]. by rewrite rstrip_cons, Hc.
  - rewrite rstrip_cons, IH. done.
Qed.

(** The first character of a text, when it is a space character. *)
Definition starts_with_space (text : string) : bool :=
  match text with
  | EmptyString => false
  | String c _ => Scraper.is_space c
  end.

Lemma lstrip_start text : starts_with_space (Scraper.lstrip text) = false.
Proof.
  induction text as [|c rest IH]; [done|].
  simpl. destruct (Scraper.is_space c) eqn:Hc; [exact IH|]. simpl. exact Hc.
Qed.

Lemma rstrip_start text :
  starts_with_space text = false → starts_with_space (Scraper.rstrip text) = false.
Proof.
  destruct text as [|c rest]; [done|]. rewrite rstrip_cons. simpl. intros Hc.
  destruct (Scraper.rstrip rest); [by rewrite Hc|done].
Qed.

Lemma lstrip_fixed text : starts_with_space text = false → Scraper.lstrip text = text.
Proof. destruct text as [|c rest]; [done|]. simpl. by intros ->. Qed.

Lemma strip_idempotent text : Scraper.strip (Scraper.strip text) = Scraper.strip text.
Proof.
  unfold Scraper.strip.
  rewrite (lstrip_fixed (Scraper.rstrip (Scraper.lstrip text)))
    by apply rstrip_start, lstrip_start.
  apply rstrip_idempotent.
Qed.

(** [clean_text] applied to its own result changes nothing. *)
Theorem clean_text_idempotent (text : string) :
  Scraper.clean_text (Scraper.clean_text text) = Scraper.clean_text text.
Proof.
  unfold Scraper.clean_text.
  set (collapsed := Scraper.collapse_blanks false (Scraper.collapse_newlines 0 text)).
  assert (Hnl : newlines_ok 0 collapsed).
  { apply (proj1 (collapse_blanks_newlines _)), collapse_newlines_ok. }
  assert (Hbl : blanks_ok false collapsed) by apply collapse_blanks_ok.
  destruct (lstrip_suffix collapsed) as [dropped Hdrop].
  assert (Hnl' : newlines_ok 0 (Scraper.strip collapsed)).
  { unfold Scraper.strip. apply rstrip_newlines.
    apply (newlines_ok_suffix dropped _ 0%nat). by rewrite <- Hdrop. }
  assert (Hbl' : blanks_ok false (Scraper.strip collapsed)).
  { unfold Scraper.strip. apply rstrip_blanks.
    apply (blanks_ok_suffix dropped _ false). by rewrite <- Hdrop. }
  rewrite (collapse_newlines_fixed _ 0%nat Hnl').
  rewrite (collapse_blanks_fixed _ false Hbl').
  apply strip_idempotent.
Qed.

Lemma collapse_newlines_length text :
  ∀ n, (String.length (Scraper.collapse_newlines n text) ≤ String.length text)%nat.
Proof.
  induction text as [|c rest IH]; intros n; [done|].
  rewrite collapse_newlines_cons.
  pose proof (IH (S n)) as Hnext. pose proof (IH 0%nat) as Hzero.
  destruct (is_newline c); [destruct (Nat.leb 2 n)|]; simpl; lia.
Qed.

Lemma collapse_blanks_length text :
  ∀ b, (String.length (Scraper.collapse_blanks b text) ≤ String.length text)%nat.
Proof.
  induction text as [|c rest IH]; intros b; [done|].
  rewrite collapse_blanks_cons.
  pose proof (IH true) as Ht. pose proof (IH false) as Hf.
  destruct (Scraper.is_blank c); [destruct b|]; simpl; try lia.
  destruct rest as [|c' rest']; [simpl; lia|].
  destruct (Scraper.is_blank c'); simpl in *; lia.
Qed.

Lemma lstrip_length text : (String.length (Scraper.lstrip text) ≤ String.length text)%nat.
Proof.
  induction text as [|c rest IH]; [done|]. simpl.
  destruct (Scraper.is_space c); simpl; lia.
Qed.

Lemma rstrip_length text : (String.length (Scraper.rstrip text) ≤ String.length text)%nat.
Proof.
  induction text as [|c rest IH]; [done|]. rewrite rstrip_cons.
  destruct (Scraper.rstrip rest); [destruct (Scraper.is_space c)|]; simpl in *; lia.
Qed.

(** [clean_text] never makes a text longer, and what it returns has no
    three newlines in a row, no two blanks side by side, and no space
    character at its start. *)
Theorem clean_text_shape (text : string) :
  (String.length (Scraper.clean_text text) ≤ String.length text)%nat ∧
  newlines_ok 0 (Scraper.clean_text text) ∧
  blanks_ok false (Scraper.clean_text text) ∧
  starts_with_space (Scraper.clean_text text) = false.
Proof.
  unfold Scraper.clean_text.
  set (collapsed := Scraper.collapse_blanks false (Scraper.collapse_newlines 0 text)).
  assert (Hnl : newlines_ok 0 collapsed).
  { apply (proj1 (collapse_blanks_newlines _)), collapse_newlines_ok. }
  assert (Hbl : blanks_ok false collapsed) by apply collapse_blanks_ok.
  destruct (lstrip_suffix collapsed) as [dropped Hdrop].
  split; [|split; [|split]].
  - unfold Scraper.strip.
    pose proof (rstrip_length (Scraper.lstrip collapsed)).
    pose proof (lstrip_length collapsed).
    pose proof (collapse_blanks_length (Scraper.collapse_newlines 0 text) false) as Hb.
    pose proof (collapse_newlines_length text 0%nat).
    change (Scraper.collapse_blanks false (Scraper.collapse_newlines 0 text))
      with collapsed in Hb.
    lia.
  - unfold Scraper.strip. apply rstrip_newlines.
    apply (newlines_ok_suffix dropped _ 0%nat). by rewrite <- Hdrop.
  - unfold Scraper.strip. apply rstrip_blanks.
    apply (blanks_ok_suffix dropped _ false). by rewrite <- Hdrop.
  - unfold Scraper.strip. apply rstrip_start, lstrip_start.
Qed.

End Cleaning.

(** ** sources.py: the announcement feed *)

(** Exceptions as a monad. *)
#[global] Instance outcome_ret : MRet outcome := λ A a, Returns a.
#[global] Instance outcome_bind : MBind outcome := λ A B f m,
  match m with
  | Returns a => f a
  | Raises => Raises
  end.

(** A loop whose body may raise: the results of the turns, or the first
    exception. *)
Fixpoint for_each {A B} (body : A → outcome B) (items : list A) : outcome (list B) :=
  match items with
  | [] => Returns []
  | item :: rest =>
      match body item with
      | Raises => Raises
      | Returns b =>
          match for_each body rest with
          | Raises => Raises
          | Returns bs => Returns (b :: bs)
          end
      end
  end.

Lemma for_each_returns {A B} (body : A → outcome B) items results :
  for_each body items = Returns results →
  Forall2 (λ item result, body item = Returns result) items results.
Proof.
  revert results. induction items as [|item rest IH]; intros results; simpl.
  - intros [= <-]. constructor.
  - destruct (body item) as [b|] eqn:Hb; [|done].
    destruct (for_each body rest) as [bs|]; [|done].
    intros [= <-]. constructor; [done|by apply IH].
Qed.

Module Disclosures.

(** [value.get(...)]: an AttributeError unless the value is a dictionary. *)
Definition as_dict (v : json) : outcome (list (string * json)) :=
  match v with
  | JObj members => Returns members
  | _ => Raises
  end.

(** [value.strip()]: an AttributeError unless the value is a string. *)
Definition stripped (v : json) : outcome string :=
  match v with
  | JStr s => Returns (Scraper.strip s)
  | _ => Raises
  end.

(** [a or b] *)
Definition py_or (a b : json) : json := if truthy a then a else b.

(** [for x in value]: the items of a list, the characters of a string,
    the keys of a dictionary; a TypeError otherwise. *)
Definition iterate (v : json) : outcome (list json) :=
  match v with
  | JList items => Returns items
  | JStr s => Returns (map (λ c, JStr (String c EmptyString)) (list_ascii_of_string s))
  | JObj members => Returns (map (λ member, JStr (fst member)) members)
  | _ => Raises
  end.

(** An item of [attachment_links]. *)
Record attachment_link := AttachmentLink {
  url : json;                 (* "url" *)
  filename : string;          (* "filename" *)
  is_lampiran : json          (* "is_lampiran" *)
}.

(** An entry as [_parse_idx_data] builds it. *)
Record idx_entry := IdxEntry {
  link : json;
  title : string;
  published : json;
  _emiten : string;
  _no_pengumuman : string;
  _jenis : string;
  _perihal : string;
  _attachments : list attachment_link
}.

(** One turn of [for att in attachments]: the item appended, if any. *)
Definition attachment_of (att : json) : outcome (option attachment_link) :=
  att ← as_dict att;
  let pdf_url := obj_get_default "FullSavePath" (JStr "") att in
  pdf_url ←
    (if truthy pdf_url then Returns pdf_url
     else
       let pdf_url :=
         obj_get_default "file_path" (obj_get_default "FilePath" (JStr "") att) att in
       if truthy pdf_url then
         match pdf_url with
         | JStr path =>
             Returns (if String.prefix "http" path then pdf_url
                      else JStr ("https://www.idx.co.id" +:+ path))
         | _ => Raises                              (* startswith: AttributeError *)
         end
       else Returns pdf_url);
  original_name ←
    stripped (py_or (obj_get_default "OriginalFilename" (JStr "") att)
                    (obj_get_default "PDFFilename" (JStr "") att));
  let is_attachment := obj_get_default "IsAttachment" (JBool false) att in
  Returns (if truthy pdf_url
           then Some {| url := pdf_url; filename := original_name;
                        is_lampiran := is_attachment |}
           else None).

Definition not_lampiran (att : attachment_link) : bool := negb (truthy (is_lampiran att)).

(** [primary_link] after the loop over [attachment_links] and the
    fallback to the first attachment. *)
Definition primary_of (attachment_links : list attachment_link) : json :=
  let primary_link :=
    match List.find not_lampiran attachment_links with
    | Some att => url att                             (* break *)
    | None => JStr ""
    end in
  match attachment_links with
  | att :: _ => if truthy primary_link then primary_link else url att
  | [] => primary_link
  end.

Definition ANNOUNCEMENT_URL : string :=
  "https://www.idx.co.id/id/perusahaan-tercatat/keterbukaan-informasi/".

(** One turn of [for reply in replies]: the entry appended, if any. *)
Definition entry_of `{PyRepr} (reply : json) : outcome (option idx_entry) :=
  reply ← as_dict reply;
  pengumuman ← as_dict (obj_get_default "pengumuman" (JObj []) reply);
  let attachments := obj_get_default "attachments" (JList []) reply in
  emiten ← stripped (obj_get_default "Kode_Emiten" (JStr "") pengumuman);
  emiten ← (if String.eqb emiten ""
            then stripped (obj_get_default "kode_emiten" (JStr "") pengumuman)
            else Returns emiten);
  judul ← stripped
             (py_or (obj_get_default "JudulPengumuman" (JStr "") pengumuman)
                (py_or (obj_get_default "judul" (JStr "") pengumuman)
                   (py_or (obj_get_default "PerihalPengumuman" (JStr "") pengumuman)
                      (obj_get_default "perihal" (JStr "") pengumuman))));
  let tanggal :=
    py_or (obj_get_default "TglPengumuman" (JStr "") pengumuman)
      (py_or (obj_get_default "tanggal" (JStr "") pengumuman)
             (obj_get_default "CreatedDate" (JStr "") pengumuman)) in
  no_pengumuman ← stripped (obj_get_default "NoPengumuman" (JStr "") pengumuman);
  jenis ← stripped (obj_get_default "JenisPengumuman" (JStr "") pengumuman);
  perihal ← stripped (obj_get_default "PerihalPengumuman" (JStr "") pengumuman);
  items ← iterate attachments;
  found ← for_each attachment_of items;
  let attachment_links := omap id (found : list (option attachment_link)) in
  let primary_link := primary_of attachment_links in
  let primary_link :=
    if truthy primary_link then primary_link
    else
      let aid := obj_get_default "Id2" (obj_get_default "Id" (JStr "") pengumuman)
                   pengumuman in
      if truthy aid then JStr (ANNOUNCEMENT_URL +:+ str_of aid) else JStr "" in
  Returns (if truthy primary_link then
             Some {| link := primary_link;
                     title := if String.eqb emiten "" then judul
                              else "[" +:+ emiten +:+ "] " +:+ judul;
                     published := tanggal;
                     _emiten := emiten; _no_pengumuman := no_pengumuman;
                     _jenis := jenis; _perihal := perihal;
                     _attachments := attachment_links |}
           else None).                                              (* continue *)

(** [_parse_idx_data] *)
Definition _parse_idx_data `{PyRepr} (data : json) : outcome (list idx_entry) :=
  data ← as_dict data;
  let replies := obj_get_default "Replies" (JList []) data in
  replies ←
    (if truthy replies then iterate replies
     else
       let results :=
         obj_get_default "Results" (obj_get_default "results" (JList []) data) data in
       items ← iterate results;
       for_each (λ item,
                   fields ← as_dict item;
                   Returns (JObj [("pengumuman", item);
                                  ("attachments",
                                   obj_get_default "attachments" (JList []) fields)]))
                items);
  found ← for_each entry_of replies;
  Returns (omap id (found : list (option idx_entry))).

(** commands.py, for an entry marked as a financial report: the URL of the
    first attachment that is not a supplement, the entry's URL when there
    is none. *)
Definition lapkeu_url (e : idx_entry) : json :=
  match List.find not_lampiran (_attachments e) with
  | Some att => url att
  | None => link e
  end.

Lemma attachment_of_truthy att found :
  attachment_of att = Returns (Some found) → truthy (url found) = true.
Proof.
  unfold attachment_of, mbind, outcome_bind, mret, outcome_ret.
  destruct (as_dict att) as [fields|]; [|done].
  destruct (if truthy (obj_get_default "FullSavePath" (JStr "") fields) then _ else _)
    as [pdf_url|]; [|done].
  destruct (stripped _) as [name|]; [|done].
  destruct (truthy pdf_url) eqn:Hurl; [|done]. by intros [= <-].
Qed.

Lemma attachments_truthy items found :
  for_each attachment_of items = Returns found →
  Forall (λ att, truthy (url att) = true) (omap id found).
Proof.
  intros Hrun. apply for_each_returns in Hrun.
  induction Hrun as [|item result items results Hitem _ IH]; [constructor|].
  destruct result as [att|]; simpl; [|exact IH].
  constructor; [by apply attachment_of_truthy with item|exact IH].
Qed.

Lemma primary_of_found attachment_links att :
  Forall (λ att, truthy (url att) = true) attachment_links →
  List.find not_lampiran attachment_links = Some att →
  primary_of attachment_links = url att.
Proof.
  intros Hall Hfind. unfold primary_of. rewrite Hfind.
  destruct attachment_links as [|first rest]; [done|].
  apply find_some in Hfind as [Hin _]. rewrite Forall_forall in Hall.
  by rewrite (Hall att (proj2 (list_elem_of_In _ _) Hin)).
Qed.

Section Links.
Context `{PyRepr}.

Lemma entry_of_link reply e :
  entry_of reply = Returns (Some e) →
  truthy (link e) = true ∧ lapkeu_url e = link e ∧
  Forall (λ att, truthy (url att) = true) (_attachments e).
Proof.
  unfold entry_of, mbind, outcome_bind, mret, outcome_ret.
  destruct (as_dict reply) as [fields|]; [|done].
  destruct (as_dict (obj_get_default "pengumuman" _ fields)) as [pengumuman|]; [|done].
  destruct (stripped (obj_get_default "Kode_Emiten" _ pengumuman)) as [emiten|]; [|done].
  destruct (if String.eqb emiten "" then _ else _) as [emiten'|]; [|done].
  destruct (stripped (py_or _ _)) as [judul|]; [|done].
  destruct (stripped (obj_get_default "NoPengumuman" _ pengumuman)) as [no|]; [|done].
  destruct (stripped (obj_get_default "JenisPengumuman" _ pengumuman)) as [jenis|]; [|done].
  destruct (stripped (obj_get_default "PerihalPengumuman" _ pengumuman)) as [perihal|];
    [|done].
  destruct (iterate _) as [items|]; [|done].
  destruct (for_each attachment_of items) as [found|] eqn:Hfound; [|done].
  pose proof (attachments_truthy items found Hfound) as Hall.
  set (links := omap id found) in *.
  destruct (truthy (if truthy (primary_of links) then _ else _)) eqn:Hlink; [|done].
  intros [= <-]. simpl. split; [exact Hlink|]. split; [|exact Hall].
  unfold lapkeu_url. simpl.
  destruct (List.find not_lampiran links) as [att|] eqn:Hfind; [|done].
  rewrite (primary_of_found links att Hall Hfind).
  apply find_some in Hfind as [Hin _]. rewrite Forall_forall in Hall.
  by rewrite (Hall att (proj2 (list_elem_of_In _ _) Hin)).
Qed.

(** Every announcement [_parse_idx_data] returns has a usable link, each
    of its attachments has a URL, and the URL [cmd_collect] stores for it
    when it is a financial report (the first attachment that is not a
    supplement) is that same link. *)
Theorem parse_idx_data_links data entries :
  _parse_idx_data data = Returns entries →
  Forall (λ e, truthy (link e) = true ∧ lapkeu_url e = link e ∧
               Forall (λ att, truthy (url att) = true) (_attachments e)) entries.
Proof.
  unfold _parse_idx_data, mbind, outcome_bind, mret, outcome_ret.
  destruct (as_dict data) as [fields|]; [|done].
  destruct (if truthy (obj_get_default "Replies" _ fields) then _ else _) as [replies|];
    [|done].
  destruct (for_each entry_of replies) as [found|] eqn:Hfound; [|done].
  intros [= <-]. apply for_each_returns in Hfound.
  induction Hfound as [|reply result replies results Hreply _ IH]; [constructor|].
  destruct result as [e|]; simpl; [|exact IH].
  constructor; [by apply entry_of_link with reply|exact IH].
Qed.

End Links.

End Disclosures.

(** [str] on the values the examples use (strings, integers, booleans and
    [None]; the texts of floats, lists and dictionaries are not spelled
    out). *)
Definition plain_repr : PyRepr :=
  {| str_of := λ v, match v with
                    | JStr s => s
                    | JInt z => pretty z
                    | JBool true => "True"
                    | JBool false => "False"
                    | JNull => "None"
                    | _ => ""
                    end;
     str_of_str := λ s, eq_refl |}.

Module DisclosureExamples.

(** A reply of the announcement API: one announcement with a supplement
    listed before the report itself. *)
Definition announcements : json :=
  JObj [("Replies",
         JList [JObj [("pengumuman",
                       JObj [("Kode_Emiten", JStr "BBCA ");
                             ("JudulPengumuman", JStr "Penyampaian Laporan Keuangan Tahunan");
                             ("TglPengumuman", JStr "2024-05-01T10:00:00");
                             ("Id2", JStr "a1b2")]);
                      ("attachments",
                       JList [JObj [("FullSavePath", JStr "https://www.idx.co.id/lampiran.pdf");
                                    ("OriginalFilename", JStr "lampiran.pdf");
                                    ("IsAttachment", JBool true)];
                              JObj [("file_path", JStr "/StaticData/laporan.pdf");
                                    ("OriginalFilename", JStr " laporan.pdf ");
                                    ("IsAttachment", JBool false)]])]])].

Definition parsed_announcements : list Disclosures.idx_entry :=
  match @Disclosures._parse_idx_data plain_repr announcements with
  | Returns entries => entries
  | Raises => []
  end.

Example announcement_link :
  map (λ e, (Disclosures.link e, Disclosures.title e)) parsed_announcements
  = [(JStr "https://www.idx.co.id/StaticData/laporan.pdf",
      "[BBCA] Penyampaian Laporan Keuangan Tahunan")].
Proof. vm_compute. reflexivity. Qed.

(** An announcement whose issuer code is not a string makes the whole
    parse raise. *)
Example announcement_raises :
  @Disclosures._parse_idx_data plain_repr
    (JObj [("Replies", JList [JObj [("pengumuman", JObj [("Kode_Emiten", JNull)])]])])
  = Raises.
Proof. reflexivity. Qed.

Lemma parse_idx_data_links_witness :
  Forall (λ e, truthy (Disclosures.link e) = true ∧
               Disclosures.lapkeu_url e = Disclosures.link e ∧
               Forall (λ att, truthy (Disclosures.url att) = true)
                      (Disclosures._attachments e))
         parsed_announcements.
Proof.
  apply (@Disclosures.parse_idx_data_links plain_repr announcements).
  vm_compute. reflexivity.
Defined.

End DisclosureExamples.

(** ** sources.py: the Stockbit feed *)

Module Stockbit.

(** An entry as [fetch_stockbit_news] builds it. *)
Record stockbit_entry := StockbitEntry {
  post_id : string;          (* "id": str(post_id) *)
  title : json;
  link : json;
  titleurl : json;
  created : json;
  content : json;
  username : json
}.

(** [value[:100]]: a TypeError unless the value is a string or a list. *)
Definition first_hundred (v : json) : outcome json :=
  match v with
  | JStr s => Returns (JStr (substring 0 100 s))
  | JList items => Returns (JList (take 100 items))
  | _ => Raises
  end.

Definition POST_URL : string := "https://stockbit.com/post/".

(** One turn of [for item in data_list]: the entry appended, if any. *)
Definition entry_of `{PyRepr} (item : json) : outcome (option stockbit_entry) :=
  match item with
  | JObj fields =>
      let postid := obj_get_default "postid" JNull fields in
      if truthy postid then
        let external_link := obj_get_default "titleurl" JNull fields in
        let final_link :=
          if truthy external_link then external_link
          else JStr (POST_URL +:+ str_of postid) in
        title ← (if truthy (obj_get_default "title" JNull fields)
                 then Returns (obj_get_default "title" JNull fields)
                 else first_hundred (obj_get_default "content" (JStr "") fields));
        Returns (Some {| post_id := str_of postid; title := title; link := final_link;
                         titleurl := external_link;
                         created := obj_get_default "created" (JStr "") fields;
                         content := obj_get_default "content" (JStr "") fields;
                         username := obj_get_default "username" (JStr "StockbitNews")
                                       fields |})
      else Returns None                                  (* continue *)
  | _ => Returns None                                    (* not a dict: continue *)
  end.

(** [fetch_stockbit_news]; [response] is what [requests.get] gives, the
    status code and what [resp.json()] gives, each of which may raise. *)
Definition fetch_stockbit_news `{PyRepr} (response : outcome (Z * outcome json))
  : list stockbit_entry :=
  match response with
  | Raises => []                                         (* except Exception *)
  | Returns (status_code, body) =>
      if negb (status_code =? 200) then []
      else
        match body with
        | Raises => []
        | Returns (JObj js) =>
            match obj_get_default "data" (JList []) js with
            | JList data_list =>
                match for_each entry_of data_list with
                | Returns found => omap id found
                | Raises => []                           (* except Exception *)
                end
            | _ => []
            end
        | Returns _ => []                                (* js.get: AttributeError *)
        end
  end.

(** An item that yields an entry: a dictionary with a post id. *)
Definition has_post_id (item : json) : bool :=
  match item with
  | JObj fields => truthy (obj_get_default "postid" JNull fields)
  | _ => false
  end.

(** [item.get(key)] on an item of the reply. *)
Definition item_get (key : string) (item : json) : json :=
  match item with
  | JObj fields => obj_get_default key JNull fields
  | _ => JNull
  end.

(** The entry built for an item: it carries the item's post id and
    external link, and its own link is the external link when the item
    has one and the address of the post otherwise. *)
Definition entry_for `{PyRepr} (item : json) (e : stockbit_entry) : Prop :=
  post_id e = str_of (item_get "postid" item) ∧
  titleurl e = item_get "titleurl" item ∧
  link e = (if truthy (item_get "titleurl" item) then item_get "titleurl" item
            else JStr (POST_URL +:+ str_of (item_get "postid" item))) ∧
  truthy (link e) = true.

Section Entries.
Context `{PyRepr}.

Lemma stockbit_entry_link item e :
  entry_of item = Returns (Some e) → entry_for item e.
Proof.
  unfold entry_of, entry_for. destruct item as [| | | | | |fields]; try done.
  cbn [item_get].
  destruct (truthy (obj_get_default "postid" JNull fields)); [|done].
  unfold mbind, outcome_bind, mret, outcome_ret.
  destruct (if truthy (obj_get_default "title" JNull fields) then _ else _) as [t|]; [|done].
  intros [= <-]. cbn [post_id titleurl link].
  split; [done|]. split; [done|]. split; [done|].
  by destruct (truthy (obj_get_default "titleurl" JNull fields)) eqn:Hext.
Qed.

Lemma entry_of_some item :
  match entry_of item with
  | Returns (Some _) => has_post_id item = true
  | Returns None => has_post_id item = false
  | Raises => True
  end.
Proof.
  unfold entry_of, has_post_id. destruct item as [| | | | | |fields]; try done.
  destruct (truthy (obj_get_default "postid" JNull fields)); [|done].
  unfold mbind, outcome_bind, mret, outcome_ret.
  by destruct (if truthy (obj_get_default "title" JNull fields) then _ else _).
Qed.

Lemma for_each_entries data_list found :
  for_each entry_of data_list = Returns found →
  Forall2 entry_for (List.filter has_post_id data_list) (omap id found).
Proof.
  intros Hrun. apply for_each_returns in Hrun.
  induction Hrun as [|item result items results Hitem _ IH]; [constructor|].
  pose proof (entry_of_some item) as Hsome. rewrite Hitem in Hsome.
  destruct result as [e|]; cbn [omap list_omap id List.filter]; rewrite Hsome; [|done].
  constructor; [by apply stockbit_entry_link|done].
Qed.

(** [fetch_stockbit_news] returns all or nothing: the empty list, or one
    entry for each item of the reply that is a dictionary with a post id,
    in the order of the reply.  The entry of an item carries its post id
    and its external link, and its own link, never empty, is the external
    link when the item has one and the address of the post only when it
    has none. *)
Theorem fetch_stockbit_news_entries response :
  fetch_stockbit_news response = [] ∨
  ∃ status_code js data_list,
    response = Returns (status_code, Returns (JObj js)) ∧
    obj_get_default "data" (JList []) js = JList data_list ∧
    Forall2 entry_for (List.filter has_post_id data_list) (fetch_stockbit_news response).
Proof.
  unfold fetch_stockbit_news.
  destruct response as [[status_code body]|]; [|by left].
  destruct (negb (status_code =? 200)); [by left|].
  destruct body as [[| | | | | |js]|]; try by left.
  destruct (obj_get_default "data" (JList []) js) as [| | | | |data_list|] eqn:Hdata;
    try by left.
  destruct (for_each entry_of data_list) as [found|] eqn:Hfound; [|by left].
  right. exists status_code, js, data_list.
  split; [done|]. split; [done|]. by apply for_each_entries.
Qed.

End Entries.

(** One item without title whose content is not a text loses the whole
    feed; an item with an external link gets that link, not the address
    of its post. *)
Example one_bad_item_empties_the_feed :
  @fetch_stockbit_news plain_repr
    (Returns (200, Returns (JObj [("data",
       JList [JObj [("postid", JInt 7); ("title", JStr "IHSG menguat")];
              JObj [("postid", JInt 8); ("content", JNull)]])]))) = [] ∧
  map link
    (@fetch_stockbit_news plain_repr
       (Returns (200, Returns (JObj [("data",
          JList [JObj [("postid", JInt 7); ("title", JStr "IHSG menguat")];
                 JObj [("postid", JInt 8); ("titleurl", JStr "https://a.example/8");
                       ("content", JStr "Rupiah melemah")]])]))))
  = [JStr "https://stockbit.com/post/7"; JStr "https://a.example/8"].
Proof. split; vm_compute; reflexivity. Qed.

End Stockbit.

(** ** The JSON store in a collection cycle *)

Module JsonCycle.

(** Every file of the directory holds a record whose id is the id of its
    URL, as [save] writes them. *)
Definition ids_of_urls `{Hashlib} (dir : list (string * option news_record)) : Prop :=
  ∀ name d, (name, Some d) ∈ dir → r_id d = Some (Helpers.generate_id (r_url d)).

Definition well_kept `{Hashlib} (self : JSONStore.t) : Prop :=
  JSONStore.cache_ok self ∧ ids_of_urls (JSONStore.news_dir self).

(** The URL an entry is filed under: [e.get("link") or e.get("titleurl", "")]. *)
Definition entry_url (raw : raw_entry) : string :=
  get_default (or_str (e_link raw) (Some (get_default (e_titleurl raw) ""))) "".

(** The URLs a cycle deals with: those of the records in the directory
    and those of the entries its sources deliver. *)
Definition stored_urls (self : JSONStore.t) : list string :=
  omap (λ file, r_url <$> snd file) (JSONStore.news_dir self).

Definition fetched_urls `{Feeds} (sources : list source) : list string :=
  concat (map (λ src, match Commands.fetch_entries src with
                      | Returns entries => map entry_url entries
                      | Raises => []
                      end) sources).

(** No two of these URLs have the same id. *)
Definition ids_distinct `{Hashlib} (urls : list string) : Prop :=
  ∀ a b, a ∈ urls → b ∈ urls →
    Helpers.generate_id a = Helpers.generate_id b → a = b.

(** A well kept store all of whose records have their URL among [urls]. *)
Definition kept_within `{Hashlib} (urls : list string) (self : JSONStore.t) : Prop :=
  well_kept self ∧
  ∀ name d, (name, Some d) ∈ JSONStore.news_dir self → r_url d ∈ urls.

(** The URL stored for an entry is the entry's own URL: its first
    attachment that is not a supplement, if it has one, is at that URL. *)
Definition primary_is_url (e : entry) : Prop :=
  match List.find (λ att, negb (is_lampiran att)) (p_attachments e) with
  | Some att => att_url att = p_url e
  | None => True
  end.

(** The same for an entry as a feed delivers it. *)
Definition raw_primary_is_link (raw : raw_entry) : Prop :=
  match List.find (λ att, negb (is_lampiran att))
          (match e_attachments raw with Some atts => atts | None => [] end) with
  | Some att => att_url att = entry_url raw
  | None => True
  end.

Section Store.
Context `{PyStr} `{Difflib} `{Hashlib} `{FileNames}.
Variable urls : list string.
Hypothesis no_clash : ids_distinct urls.

Lemma accepted_id_is_free self record :
  kept_within urls self → r_url record ∈ urls →
  fst (JSONStore.save record self) = true →
  ∀ name d, (name, Some d) ∈ JSONStore.news_dir self →
    r_id d ≠ Some (Helpers.generate_id (r_url record)).
Proof.
  intros [[Hok Hids] Hurls] Hrecord Hsaved name d Hin Hid.
  set (i := Helpers.generate_id (r_url record)) in *.
  assert (Hstored : r_url record ∈ map r_url (JSONStore.stored self)).
  { destruct (DedupGate.load_finds_id i (JSONStore.news_dir self) [])
      as [r Hr]; [apply md5_hex8_nonempty|right; by exists name, d|].
    assert (Hurl : r_url r = r_url record).
    { apply (StoreOps.load_keeps (λ r, r_url r = r_url record) i
               (JSONStore.news_dir self) []); [|done|exact Hr].
      intros name' d' Hin' Hid'. simpl.
      apply no_clash; [by apply (Hurls name')|done|].
      pose proof (Hids name' d' Hin') as Hd'. rewrite Hid' in Hd'.
      by injection Hd' as <-. }
    rewrite <- Hurl. apply list_elem_of_fmap_2.
    by apply DedupGate.dict_get_value with i. }
  destruct (DedupGate.json_save_gate self record Hok) as (Hfalse & _).
  assert (fst (JSONStore.save record self) = false); [|congruence].
  apply Hfalse. by left.
Qed.

Lemma save_keeps_well_kept self record :
  kept_within urls self → r_url record ∈ urls →
  kept_within urls (snd (JSONStore.save record self)).
Proof.
  intros [[Hok Hids] Hurls] Hrecord.
  destruct (DedupGate.json_save_gate self record Hok) as (_ & Hsame & Hnew & Hok').
  destruct (fst (JSONStore.save record self)) eqn:Hsaved.
  - split; [split; [done|]|]; rewrite (Hnew eq_refl); intros name d Hin;
      (apply DedupGate.write_file_elem in Hin as [Heq|Hin];
       [injection Heq as _ ->|]).
    + reflexivity.
    + by apply (Hids name).
    + exact Hrecord.
    + by apply (Hurls name).
  - split; [split; [done|]|]; by rewrite (Hsame eq_refl).
Qed.

Lemma get_by_id_keeps_well_kept self i :
  kept_within urls self → kept_within urls (snd (JSONStore.get_by_id i self)).
Proof.
  intros [[Hok Hids] Hurls].
  destruct (DedupGate.json_load_all_ok self Hok) as (_ & Hdir & Hcache).
  unfold JSONStore.get_by_id, mbind, stateM_bind, mret, stateM_ret.
  destruct (JSONStore._load_all self) as [records self1]. simpl in Hdir, Hcache.
  assert (Hkept : kept_within urls self1).
  { split; [split; [right; by rewrite Hcache, Hdir|by rewrite Hdir]|by rewrite Hdir]. }
  destruct (JSONStore.dict_get i records); [done|].
  by destruct (filter _ _) as [|k [|k' ks]].
Qed.

(** The record as [get_by_id] returns it after [save] wrote it. *)
Definition as_stored (record : news_record) : news_record :=
  set_filepath (Some (JSONStore.file_name record))
    (set_id (Helpers.generate_id (r_url record)) record).

Definition lookup_exact (ev : cycle_event) : Prop :=
  match ev with
  | StoreCall record true saved => saved = Some (as_stored record)
  | _ => True
  end.

(** On a well kept directory, the URLs at hand having distinct ids, each
    lookup of phase 4 returns the record the preceding [save] wrote. *)
Lemma store_all_lookups_exact (h : heap) sorted (store : JSONStore.t) :
  kept_within urls store →
  (∀ l e, h !! l = Some e → primary_is_url e ∧ p_url e ∈ urls) →
  Forall lookup_exact (fst (Commands.store_all h sorted store)) ∧
  kept_within urls (snd (Commands.store_all h sorted store)).
Proof.
  intros Hkept Hurls. revert store Hkept.
  induction sorted as [|l rest IH]; intros store Hkept; [by split; [constructor|]|].
  simpl. destruct (h !! l) as [e|] eqn:He; [|by apply IH].
  change (store_save (Commands.build_record e) store)
    with (JSONStore.save (Commands.build_record e) store).
  assert (Hurl : p_url e = r_url (Commands.build_record e)).
  { simpl. unfold Commands.record_url. destruct (Hurls l e He) as [Hprimary _].
    unfold primary_is_url in Hprimary.
    destruct (p_is_lapkeu e); [|done].
    by destruct (List.find _ (p_attachments e)). }
  assert (Hrecord : r_url (Commands.build_record e) ∈ urls).
  { rewrite <- Hurl. by apply (Hurls l e He). }
  pose proof (save_keeps_well_kept store (Commands.build_record e) Hkept Hrecord) as Hkept1.
  pose proof (accepted_id_is_free store (Commands.build_record e) Hkept Hrecord) as Hfree.
  pose proof (StoreOps.json_save_then_get_by_id store (Commands.build_record e)
                (proj1 (proj1 Hkept))) as Hget.
  destruct (JSONStore.save (Commands.build_record e) store) as [[|] store1];
    simpl in Hkept1, Hfree, Hget.
  - change (store_get_by_id (Helpers.generate_id (p_url e)) store1)
      with (JSONStore.get_by_id (Helpers.generate_id (p_url e)) store1).
    rewrite Hurl.
    pose proof (get_by_id_keeps_well_kept store1
                  (Helpers.generate_id (r_url (Commands.build_record e))) Hkept1) as Hkept2.
    specialize (Hget eq_refl (Hfree eq_refl)).
    destruct (JSONStore.get_by_id _ store1) as [saved store2]. simpl in Hget, Hkept2.
    destruct (IH store2 Hkept2) as [Hrest Hend].
    destruct (Commands.store_all h rest store2) as [events store3]. simpl in *.
    split; [|done]. constructor; [exact Hget|done].
  - destruct (IH store1 Hkept1) as [Hrest Hend].
    destruct (Commands.store_all h rest store1) as [events store3].
    split; [|done]. by constructor.
Qed.

Lemma lookups_exact_agree events :
  Forall lookup_exact events → Commands.lookups_agree events = true.
Proof.
  unfold Commands.lookups_agree. induction 1 as [|ev events Hev _ IH]; [done|].
  simpl. rewrite IH, andb_true_r.
  destruct ev as [| |record [|] [saved|]| |]; try done.
  simpl in Hev. injection Hev as ->. apply String.eqb_refl.
Qed.

Lemma lookups_exact_inserted events :
  Forall lookup_exact events →
  Commands.inserted_records events = map as_stored (Commands.written_records events).
Proof.
  induction 1 as [|ev events Hev _ IH]; [done|].
  destruct ev as [| |record [|] saved| |]; simpl; try done.
  simpl in Hev. subst saved. simpl. by rewrite IH.
Qed.

End Store.

Section Cycle.
Context `{PyStr} `{Difflib} `{Hashlib} `{FileNames} `{Feeds} `{DateLib}.

Lemma scan_until_elem entries last raw :
  raw ∈ Sources.scan_until entries last → raw ∈ entries.
Proof.
  induction entries as [|e rest IH]; simpl; [done|].
  destruct (decide (e_link e = last)); [intros Hin; by apply elem_of_nil in Hin|].
  intros Hin. apply elem_of_cons in Hin as [->|Hin]; [left|right; by apply IH].
Qed.

Lemma get_new_entries_elem entries last raw :
  raw ∈ fst (Sources.get_new_entries entries last) → raw ∈ entries.
Proof.
  unfold Sources.get_new_entries. destruct entries as [|top rest]; [done|].
  destruct (negb (truthy_str last)); [done|].
  destruct (decide (e_link top = last)); [intros Hin; by apply elem_of_nil in Hin|].
  apply scan_until_elem.
Qed.

Lemma scan_source_entries state src item :
  Commands.scan_source state src = Some item →
  fst (fst item) = src ∧
  ∃ entries, Commands.fetch_entries src = Returns entries ∧
             ∀ raw, raw ∈ snd (fst item) → raw ∈ entries.
Proof.
  unfold Commands.scan_source.
  destruct (Commands.fetch_entries src) as [[|top rest]|]; try done.
  pose proof (get_new_entries_elem (top :: rest) (state !! Commands.sid src ≫= last_top_link))
    as Helem.
  destruct (Sources.get_new_entries (top :: rest) _) as [[|e es] top_link]; [done|].
  intros [= <-]. split; [done|]. by exists (top :: rest).
Qed.

Lemma parse_entries_primary (urls : list string) src entries parsed :
  Forall (λ raw, raw_primary_is_link raw ∧ entry_url raw ∈ urls) entries →
  Commands.parse_entries src entries = Returns parsed →
  Forall (λ p, primary_is_url p ∧ p_url p ∈ urls) parsed.
Proof.
  intros Hraw. revert parsed. induction Hraw as [|raw rest Hfirst _ IH]; intros parsed; simpl.
  - intros [= <-]. constructor.
  - destruct (Commands.parse_entry src raw) as [found|] eqn:He; [|done].
    destruct (Commands.parse_entries src rest) as [later|]; [|done].
    intros [= <-]. specialize (IH later eq_refl).
    destruct found as [p|]; [|done]. constructor; [|done].
    unfold Commands.parse_entry in He.
    destruct (truthy_str _); [|done].
    destruct (Helpers.parse_published_date raw (s_type src)); [|done].
    injection He as <-. exact Hfirst.
Qed.

Lemma parse_all_primary (urls : list string) items parsed :
  Forall (λ item, Forall (λ raw, raw_primary_is_link raw ∧ entry_url raw ∈ urls)
                         (snd (fst item))) items →
  Commands.parse_all items = Returns parsed →
  Forall (λ p, primary_is_url p ∧ p_url p ∈ urls) parsed.
Proof.
  intros Hraw. revert parsed.
  induction Hraw as [|[[src entries] top] rest Hfirst _ IH]; intros parsed; simpl.
  - intros [= <-]. constructor.
  - destruct (Commands.parse_entries src entries) as [first|] eqn:Hparse; [|done].
    destruct (Commands.parse_all rest) as [later|]; [|done].
    intros [= <-]. apply Forall_app. split; [|by apply IH].
    by apply (parse_entries_primary urls src entries).
Qed.

Lemma stored_urls_elem (self : JSONStore.t) name d :
  (name, Some d) ∈ JSONStore.news_dir self → r_url d ∈ stored_urls self.
Proof.
  intros Hin. apply list_elem_of_omap. by exists (name, Some d).
Qed.

Lemma fetched_urls_elem sources src entries raw :
  src ∈ sources → Commands.fetch_entries src = Returns entries → raw ∈ entries →
  entry_url raw ∈ fetched_urls sources.
Proof.
  intros Hsrc Hfetch Hraw. unfold fetched_urls.
  apply list_elem_of_In, in_concat. eexists. split.
  - apply in_map_iff. exists src. split; [reflexivity|by apply list_elem_of_In].
  - rewrite Hfetch. apply list_elem_of_In. by apply list_elem_of_fmap_2.
Qed.

(** On the JSON store the notification gets exactly the records the
    cycle wrote, each with its id and the path of its file, and so in
    descending order of publish time.  This holds when the directory is
    well kept, no two of the URLs at hand (those in the directory and
    those the sources deliver) have the same id, and an entry with
    attachments has its link at the first attachment that is not a
    supplement. *)
Theorem json_cycle_notifies_written sources state groq (store : JSONStore.t) :
  well_kept store →
  ids_distinct (stored_urls store ++ fetched_urls sources) →
  (∀ src entries, src ∈ sources → Commands.fetch_entries src = Returns entries →
     Forall raw_primary_is_link entries) →
  Commands.lookups_agree (fst (Commands.cmd_collect sources state groq store)) = true ∧
  Commands.inserted_records (fst (Commands.cmd_collect sources state groq store))
  = map as_stored
      (Commands.written_records (fst (Commands.cmd_collect sources state groq store))) ∧
  ∀ records, Notify records ∈ fst (Commands.cmd_collect sources state groq store) →
    records = Commands.inserted_records (fst (Commands.cmd_collect sources state groq store)) ∧
    StronglySorted Commands.newest_first (map r_published_at records).
Proof.
  intros Hkept Hdistinct Hfeeds.
  set (urls := stored_urls store ++ fetched_urls sources) in *.
  assert (Hwithin : kept_within urls store).
  { split; [done|]. intros name d Hin.
    apply elem_of_app. left. by apply (stored_urls_elem store name). }
  assert (Hexact : Forall lookup_exact
                     (fst (Commands.cmd_collect sources state groq store))).
  { destruct (Commands.cmd_collect_cases sources state groq store)
      as [[_ ->]|[(_ & _ & ->)|(_ & parsed & h & relevant & later & store_events & store'
                                 & Hparse & Hclassify & Hstore & ->)]]; simpl.
    - apply Forall_forall. intros ev Hin.
      by apply list_elem_of_fmap in Hin as (src & -> & _).
    - apply Forall_forall. intros ev Hin.
      by apply list_elem_of_fmap in Hin as (src & -> & _).
    - assert (Hparsed : Forall (λ p, primary_is_url p ∧ p_url p ∈ urls) parsed).
      { apply (parse_all_primary urls (Commands.scan_sources state sources)); [|done].
        apply Forall_forall. intros item Hitem.
        apply list_elem_of_omap in Hitem as (src & Hsrc & Hscan).
        apply scan_source_entries in Hscan as (_ & entries & Hfetch & Hsub).
        specialize (Hfeeds src entries Hsrc Hfetch). rewrite Forall_forall in Hfeeds.
        apply Forall_forall. intros raw Hraw. split; [by apply Hfeeds, Hsub|].
        apply elem_of_app. right.
        apply (fetched_urls_elem sources src entries); [done|done|by apply Hsub]. }
      assert (Hheap : ∀ l e, h !! l = Some e → primary_is_url e ∧ p_url e ∈ urls).
      { intros l e He.
        assert (Hh : h = fst (fst (Commands.classify groq (map_seq 0 parsed)
                                     (Commands.batches (seq 0 (length parsed))))))
          by by rewrite Hclassify.
        assert (Hstart : ∀ e0, (map_seq 0 parsed : heap) !! l = Some e0 →
                               primary_is_url e0 ∧ p_url e0 ∈ urls).
        { intros e0 He0. rewrite lookup_map_seq_0 in He0.
          rewrite Forall_forall in Hparsed. apply Hparsed.
          by eapply list_elem_of_lookup_2. }
        destruct (FilterFrame.classify_touched FilterFrame.same_article groq
                    (map_seq 0 parsed) (Commands.batches (seq 0 (length parsed))) l)
          as [Heq|(_ & e0 & e1 & He0 & He1 & Hsame)]; rewrite <- Hh in *.
        - apply Hstart. by rewrite <- Heq.
        - rewrite He in He1. injection He1 as <-.
          specialize (Hstart e0 He0). unfold primary_is_url in *.
          destruct Hsame as (_ & Hurl & _ & _ & _ & _ & _ & _ & _ & Hatt).
          by rewrite Hurl, Hatt. }
      destruct (store_all_lookups_exact urls Hdistinct h
                  (Commands.sort_newest_first h relevant) store Hwithin Hheap) as [Hcalls _].
      rewrite Hstore in Hcalls. simpl in Hcalls.
      rewrite !Forall_app. split; [|split; [|split; [done|split]]].
      + apply Forall_forall. intros ev Hin.
        by apply list_elem_of_fmap in Hin as (src & -> & _).
      + apply Forall_forall. intros ev Hin.
        by apply list_elem_of_fmap in Hin as (batch & -> & _).
      + unfold Commands.notify_events.
        destruct (Commands.inserted_records store_events); by repeat constructor.
      + by repeat constructor. }
  pose proof (lookups_exact_agree _ Hexact) as Hagree.
  split; [exact Hagree|]. split; [by apply lookups_exact_inserted|].
  intros records Hin.
  pose proof (Commands.cmd_collect_notifies_inserted _ _ _ _ _ Hin) as ->.
  split; [done|].
  eapply Commands.sublist_sorted;
    [|apply (Commands.cmd_collect_attempts_newest_first sources state groq store)].
  etrans.
  - apply Commands.inserted_times_sublist. intros record saved Hcall.
    by apply (Commands.lookups_agree_spec _ _ _ Hagree).
  - apply (fmap_sublist r_published_at), Commands.written_sublist_attempted.
Qed.

End Cycle.

End JsonCycle.

(** ** A cycle with a financial report *)

Module JsonCycleExample.

(** A disclosure with a supplement listed before the report itself; the
    entry's link is the report's URL, as [_parse_idx_data] sets it. *)
Definition report_entry : raw_entry :=
  {| e_link := Some "https://idx.example/lk.pdf"; e_titleurl := None;
     e_title := Some "Penyampaian Laporan Keuangan Tahunan";
     e_published := Some "2024-05-04T10:00:00"; e_updated := None; e_created := None;
     e_published_parsed := None; e_emiten := Some "BBCA";
     e_attachments :=
       Some [Attachment "https://idx.example/lampiran.pdf" "lampiran.pdf" true;
             Attachment "https://idx.example/lk.pdf" "lk.pdf" false] |}.

Definition report_feeds : Feeds :=
  {| parse_feed := λ url,
       if String.eqb url "https://a.example/rss" then
         Returns [Commands.feed_entry "https://a.example/3" "IHSG ditutup menguat"
                    "2024-05-03T10:00:00+07:00"]
       else Raises;
     fetch_idx_announcements := λ _, Returns [report_entry];
     fetch_stockbit_news := λ _, Raises;
     extract_rss_summary := λ _, "" |}.

(** The directory already holds a record of another feed. *)
Definition report_store : JSONStore.t :=
  snd (@JSONStore.save DedupGate.plain_pystr DedupGate.exact_difflib
         DedupGate.tagged_hashlib DedupGate.plain_file_names
         (DedupGate.sample_record "https://b.example/2" "BBCA bagikan dividen"
            "2024-05-02T03:00:00+00:00")
         DedupGate.empty_store).

Definition report_verdict : json :=
  JObj [("index", JInt 1); ("relevant", JBool true);
        ("sub_category", JStr "lapkeu_tahunan"); ("sentiment", JStr "neutral");
        ("reason", JStr "laporan keuangan tahunan")].

(** The feed's entries are classified first, then the disclosures. *)
Definition report_replies : list (outcome json) :=
  [Llm.reply_results (JList [Llm.verdict 1 true]);
   Llm.reply_results (JList [report_verdict])].

Definition report_cycle : list cycle_event * outcome (pipeline_state * JSONStore.t) :=
  @Commands.cmd_collect DedupGate.plain_pystr DedupGate.tagged_hashlib report_feeds
    Timestamps.iso_datelib JSONStore.t
    (@json_news_store DedupGate.plain_pystr DedupGate.exact_difflib
       DedupGate.tagged_hashlib DedupGate.plain_file_names)
    [Commands.feed_a; Commands.disclosures] ∅ report_replies report_store.

Lemma report_urls_distinct :
  @JsonCycle.ids_distinct DedupGate.tagged_hashlib
    (JsonCycle.stored_urls report_store
     ++ @JsonCycle.fetched_urls report_feeds [Commands.feed_a; Commands.disclosures]).
Proof. intros a b _ _ Heq. by injection Heq. Qed.

Example report_urls :
  JsonCycle.stored_urls report_store
  ++ @JsonCycle.fetched_urls report_feeds [Commands.feed_a; Commands.disclosures]
  = ["https://b.example/2"; "https://a.example/3"; "https://idx.example/lk.pdf"].
Proof. vm_compute. reflexivity. Qed.

Lemma report_store_well_kept :
  @JsonCycle.well_kept DedupGate.tagged_hashlib report_store.
Proof.
  split; [by left|]. intros name d Hin. vm_compute in Hin.
  apply list_elem_of_singleton in Hin. injection Hin as _ ->. reflexivity.
Qed.

Lemma report_feeds_linked src entries :
  src ∈ [Commands.feed_a; Commands.disclosures] →
  @Commands.fetch_entries report_feeds src = Returns entries →
  Forall JsonCycle.raw_primary_is_link entries.
Proof.
  intros Hin Hfetch.
  apply elem_of_cons in Hin as [->|Hin];
    [vm_compute in Hfetch; injection Hfetch as <-; by repeat constructor|].
  apply elem_of_cons in Hin as [->|Hin];
    [vm_compute in Hfetch; injection Hfetch as <-; by repeat constructor|].
  apply elem_of_nil in Hin. destruct Hin.
Qed.

(** The report is written under the URL of its document, and found again
    under the id of the entry's link. *)
Example report_cycle_written :
  map r_url (Commands.written_records (fst report_cycle))
  = ["https://idx.example/lk.pdf"; "https://a.example/3"] ∧
  map r_sub_category (Commands.written_records (fst report_cycle))
  = [Some (JStr "lapkeu_tahunan"); None] ∧
  map r_id (Commands.inserted_records (fst report_cycle))
  = [Some "id:https://idx.example/lk.pdf"; Some "id:https://a.example/3"].
Proof. vm_compute. done. Qed.

Lemma json_cycle_notifies_written_witness :
  Commands.lookups_agree (fst report_cycle) = true ∧
  Commands.inserted_records (fst report_cycle)
  = map (@JsonCycle.as_stored DedupGate.tagged_hashlib DedupGate.plain_file_names)
      (Commands.written_records (fst report_cycle)) ∧
  ∀ records, Notify records ∈ fst report_cycle →
    records = Commands.inserted_records (fst report_cycle) ∧
    StronglySorted Commands.newest_first (map r_published_at records).
Proof.
  exact (@JsonCycle.json_cycle_notifies_written DedupGate.plain_pystr
           DedupGate.exact_difflib DedupGate.tagged_hashlib DedupGate.plain_file_names
           report_feeds Timestamps.iso_datelib
           [Commands.feed_a; Commands.disclosures] ∅ report_replies
           report_store report_store_well_kept report_urls_distinct
           report_feeds_linked).
Defined.

End JsonCycleExample.

(** ** bot.py and sources.py: the sources file *)

Module SourceStore.

(** A source as [sources.json] holds it: the fields [cmd_collect] reads,
    and ["is_active"], which may be missing. *)
Record stored_source := StoredSource {
  fields : source;
  is_active : option json
}.

Definition source_id (s : stored_source) : Z := s_id (fields s).

(** [s.get("is_active", True)] as a condition. *)
Definition active (s : stored_source) : bool :=
  match is_active s with Some v => truthy v | None => true end.

(** [source["id"] = new_id] *)
Definition with_id (new_id : Z) (s : stored_source) : stored_source :=
  {| fields := {| s_id := new_id; s_name := s_name (fields s);
                  s_feed_url := s_feed_url (fields s); s_type := s_type (fields s);
                  s_category := s_category (fields s) |};
     is_active := is_active s |}.

(** [s["is_active"] = not s.get("is_active", True)] *)
Definition toggled (s : stored_source) : stored_source :=
  {| fields := fields s; is_active := Some (JBool (negb (active s))) |}.

(** [sources.json] on disk: not there, not decodable, or a list of sources. *)
Inductive sources_file :=
| Missing
| Corrupt
| Holds (sources : list stored_source).

(** What the calls on the Supabase object give, each one returning or
    raising. *)
Record supabase := Supabase {
  get_sources : outcome (list stored_source);
  get_active_sources : outcome (list stored_source);
  get_source_by_id : Z → outcome (option stored_source);
  add_source : stored_source → outcome (option stored_source);
  toggle_source : Z → outcome (option stored_source);
  delete_source : Z → outcome bool
}.

(** bot.py, [load_sources_data].  [db] is [None] when [_use_supabase()]
    is false. *)
Definition load_sources_data (db : option supabase) (file : sources_file)
  : list stored_source :=
  let from_file :=
    match file with
    | Missing => []
    | Corrupt => []
    | Holds sources => sources
    end in
  match db with
  | Some db =>
      match get_sources db with
      | Returns sources => sources
      | Raises => from_file
      end
  | None => from_file
  end.

(** sources.py, [load_sources]: [sys.exit(1)] and the exception of
    [json.load] both leave the function. *)
Definition load_sources (db : option supabase) (file : sources_file)
  : outcome (list stored_source) :=
  let from_file :=
    match file with
    | Missing => Raises
    | Corrupt => Raises
    | Holds sources => Returns (List.filter active sources)
    end in
  match db with
  | Some db =>
      match get_active_sources db with
      | Returns sources => Returns sources
      | Raises => from_file
      end
  | None => from_file
  end.

(** The [for s in ...: if s.get("id") == source_id: return s] loop. *)
Definition first_with_id (source_id : Z) (sources : list stored_source)
  : option stored_source :=
  List.find (λ s, Z.eqb (SourceStore.source_id s) source_id) sources.

Definition find_source_by_id_any (db : option supabase) (source_id : Z)
    (file : sources_file) : option stored_source :=
  let scan := first_with_id source_id (load_sources_data db file) in
  match db with
  | Some db' =>
      match get_source_by_id db' source_id with
      | Returns found => found
      | Raises => scan
      end
  | None => scan
  end.

(** [max((s.get("id", 0) for s in sources), default=0)] *)
Definition max_id (sources : list stored_source) : Z :=
  match sources with
  | [] => 0
  | s :: rest => fold_left Z.max (map source_id rest) (source_id s)
  end.

(** [add_source_to_store]: the source returned and the file afterwards. *)
Definition add_source_to_store (db : option supabase) (source : stored_source)
    (file : sources_file) : option stored_source * sources_file :=
  match db with
  | Some db =>
      match add_source db source with
      | Returns added => (added, file)
      | Raises => (None, file)
      end
  | None =>
      let sources := load_sources_data None file in
      let new_id := max_id sources + 1 in
      let source := with_id new_id source in
      (Some source, Holds (sources ++ [source]))
  end.

(** The loop of [toggle_source_in_store]: the list with its first source
    of that id toggled, and that source. *)
Fixpoint toggle_first (source_id : Z) (sources : list stored_source)
  : option (stored_source * list stored_source) :=
  match sources with
  | [] => None
  | s :: rest =>
      if Z.eqb (SourceStore.source_id s) source_id then Some (toggled s, toggled s :: rest)
      else
        match toggle_first source_id rest with
        | Some (found, rest) => Some (found, s :: rest)
        | None => None
        end
  end.

Definition toggle_source_in_store (db : option supabase) (source_id : Z)
    (file : sources_file) : option stored_source * sources_file :=
  match db with
  | Some db =>
      match toggle_source db source_id with
      | Returns changed => (changed, file)
      | Raises => (None, file)
      end
  | None =>
      match toggle_first source_id (load_sources_data None file) with
      | Some (s, sources) => (Some s, Holds sources)
      | None => (None, file)
      end
  end.

Definition delete_source_from_store (db : option supabase) (source_id : Z)
    (file : sources_file) : bool * sources_file :=
  match db with
  | Some db =>
      match delete_source db source_id with
      | Returns deleted => (deleted, file)
      | Raises => (false, file)
      end
  | None =>
      let sources := load_sources_data None file in
      let new := List.filter (λ s, negb (Z.eqb (SourceStore.source_id s) source_id)) sources in
      if (length new <? length sources)%nat then (true, Holds new) else (false, file)
  end.

(** ** Ids *)

Lemma fold_max_ge (ids : list Z) (start : Z) :
  start ≤ fold_left Z.max ids start ∧ ∀ i, i ∈ ids → i ≤ fold_left Z.max ids start.
Proof.
  revert start. induction ids as [|j rest IH]; intros start; simpl.
  - split; [lia|]. intros i Hin. by apply elem_of_nil in Hin.
  - destruct (IH (Z.max start j)) as [Hstart Hrest]. split; [lia|].
    intros i Hin. apply elem_of_cons in Hin as [->|Hin]; [lia|by apply Hrest].
Qed.

Lemma max_id_ge sources s : s ∈ sources → source_id s ≤ max_id sources.
Proof.
  destruct sources as [|first rest]; [intros Hin; by apply elem_of_nil in Hin|].
  simpl. destruct (fold_max_ge (map source_id rest) (source_id first)) as [Hfirst Hrest].
  intros Hin. apply elem_of_cons in Hin as [->|Hin]; [done|].
  by apply Hrest, list_elem_of_fmap_2.
Qed.

Lemma first_with_id_app_fresh i sources s :
  (∀ s', s' ∈ sources → source_id s' ≠ i) → source_id s = i →
  first_with_id i (sources ++ [s]) = Some s.
Proof.
  intros Hfresh Hid. unfold first_with_id.
  induction sources as [|s' rest IH]; simpl.
  - by rewrite (proj2 (Z.eqb_eq _ _) Hid).
  - rewrite (proj2 (Z.eqb_neq _ _) (Hfresh s' ltac:(left))).
    apply IH. intros s'' Hin. apply Hfresh. by right.
Qed.

Lemma sid_of_fields (sources : list stored_source) :
  map Commands.sid (map fields sources) = map pretty (map source_id sources).
Proof. induction sources as [|s rest IH]; [done|]. simpl. by rewrite IH. Qed.

(** A new source gets an id above every id of the file, so distinct ids
    stay distinct, and with them the keys [cmd_collect] files the
    watermarks under; it is found under its id; and [load_sources] lists
    it, after the sources it listed before, unless it was added as
    inactive.  On a missing or undecodable file the source gets id 1 and
    the file then holds it alone. *)
Theorem add_source_fresh_id (source : stored_source) (file : sources_file) :
  let before := load_sources_data None file in
  ∃ added,
    add_source_to_store None source file = (Some added, Holds (before ++ [added])) ∧
    added = with_id (source_id added) source ∧
    (before = [] → source_id added = 1) ∧
    (∀ s, s ∈ before → source_id s < source_id added) ∧
    (NoDup (map source_id before) →
     NoDup (map Commands.sid (map fields (before ++ [added])))) ∧
    find_source_by_id_any None (source_id added) (Holds (before ++ [added])) = Some added ∧
    load_sources None (Holds (before ++ [added]))
    = Returns (List.filter active before ++ (if active source then [added] else [])).
Proof.
  intros before. exists (with_id (max_id before + 1) source).
  assert (Hfresh : ∀ s, s ∈ before → source_id s < max_id before + 1).
  { intros s Hin. pose proof (max_id_ge before s Hin). lia. }
  split; [done|]. split; [done|].
  split; [by intros ->|]. split; [exact Hfresh|]. split; [|split].
  - intros Hdistinct. rewrite sid_of_fields. apply (NoDup_fmap_2 pretty).
    rewrite map_app. apply NoDup_app. split; [done|]. split; [|apply NoDup_singleton].
    intros i Hin Hnew. apply list_elem_of_singleton in Hnew.
    apply list_elem_of_fmap in Hin as (s & Hid & Hin).
    specialize (Hfresh s Hin). rewrite <- Hid, Hnew in Hfresh.
    change (source_id (with_id (max_id before + 1) source)) with (max_id before + 1) in Hfresh.
    lia.
  - unfold find_source_by_id_any. simpl. apply first_with_id_app_fresh; [|done].
    intros s Hin. specialize (Hfresh s Hin).
    change (source_id (with_id (max_id before + 1) source)) with (max_id before + 1). lia.
  - simpl. rewrite List.filter_app. simpl.
    change (active (with_id (max_id before + 1) source)) with (active source).
    by destruct (active source).
Qed.

(** ** Toggling *)

Lemma toggle_first_spec i sources :
  match first_with_id i sources with
  | None => toggle_first i sources = None
  | Some s =>
      ∃ sources', toggle_first i sources = Some (toggled s, sources') ∧
        first_with_id i sources' = Some (toggled s) ∧
        (∀ j, j ≠ i → first_with_id j sources' = first_with_id j sources) ∧
        map source_id sources' = map source_id sources ∧
        (∀ s', first_with_id i sources' = Some s' →
           ∃ sources'', toggle_first i sources' = Some (toggled s', sources'') ∧
             map fields (List.filter active sources'')
             = map fields (List.filter active sources))
  end.
Proof.
  unfold first_with_id. induction sources as [|s rest IH]; [done|]. simpl.
  destruct (Z.eqb (source_id s) i) eqn:Hid.
  - exists (toggled s :: rest). simpl.
    change (source_id (toggled s)) with (source_id s). rewrite Hid.
    split; [done|]. split; [done|]. split; [|split; [done|]].
    + intros j Hj. apply Z.eqb_eq in Hid.
      assert (Hne : source_id s ≠ j) by lia. by rewrite (proj2 (Z.eqb_neq _ _) Hne).
    + intros s' [= <-]. exists (toggled (toggled s) :: rest). split; [done|].
      simpl. change (active (toggled (toggled s))) with (negb (negb (active s))).
      rewrite negb_involutive. by destruct (active s).
  - destruct (find _ rest) as [found|].
    + destruct IH as (rest' & -> & Hfound & Hframe & Hids & Htwice).
      exists (s :: rest'). simpl. rewrite Hid. split; [done|]. split; [done|].
      split; [|split].
      * intros j Hj. destruct (Z.eqb (source_id s) j); [done|by apply Hframe].
      * by rewrite Hids.
      * intros s' Hs'. destruct (Htwice s' Hs') as (rest'' & -> & Hactive).
        exists (s :: rest''). split; [done|]. simpl.
        destruct (active s); simpl; by rewrite Hactive.
    + by rewrite IH.
Qed.

(** Toggling a source flips whether it counts as active and leaves every
    other id as it was found before; no id is added or lost; and toggling
    the same id again gives [load_sources] back the sources it returned
    at first, as far as [cmd_collect] reads them.  An id that is not in
    the file changes nothing. *)
Theorem toggle_source_flips (i : Z) (file : sources_file) :
  match find_source_by_id_any None i file with
  | None => toggle_source_in_store None i file = (None, file)
  | Some s =>
      ∃ sources,
        toggle_source_in_store None i file = (Some (toggled s), Holds sources) ∧
        active (toggled s) = negb (active s) ∧
        find_source_by_id_any None i (Holds sources) = Some (toggled s) ∧
        (∀ j, j ≠ i → find_source_by_id_any None j (Holds sources)
                      = find_source_by_id_any None j file) ∧
        map source_id sources = map source_id (load_sources_data None file) ∧
        ∃ again,
          snd (toggle_source_in_store None i (Holds sources)) = Holds again ∧
          map fields (List.filter active again)
          = map fields (List.filter active (load_sources_data None file))
  end.
Proof.
  unfold find_source_by_id_any, toggle_source_in_store.
  pose proof (toggle_first_spec i (load_sources_data None file)) as Hspec.
  destruct (first_with_id i (load_sources_data None file)) as [s|]; [|by rewrite Hspec].
  destruct Hspec as (sources & -> & Hfound & Hframe & Hids & Htwice).
  exists sources. split; [done|]. split; [done|]. split; [done|]. split; [done|].
  split; [done|].
  destruct (Htwice _ Hfound) as (again & Hagain & Hactive).
  exists again. simpl. by rewrite Hagain.
Qed.

(** ** Deleting *)

Lemma filter_length_lt {A} (keep : A → bool) (l : list A) :
  (length (List.filter keep l) <? length l)%nat = true ↔ ∃ x, x ∈ l ∧ keep x = false.
Proof.
  induction l as [|x rest IH]; simpl.
  - split; [done|]. intros (x & Hin & _). by apply elem_of_nil in Hin.
  - pose proof (List.filter_length_le keep rest) as Hle.
    destruct (keep x) eqn:Hx; simpl.
    + change (S (length (List.filter keep rest)) <=? length rest)%nat
        with (length (List.filter keep rest) <? length rest)%nat.
      rewrite IH. split.
      * intros (y & Hin & Hy). exists y. split; [by right|done].
      * intros (y & Hin & Hy). apply elem_of_cons in Hin as [->|Hin]; [congruence|].
        by exists y.
    + split; [intros _; exists x; split; [left|done]|].
      intros _. apply Nat.ltb_lt. lia.
Qed.

Lemma filter_all {A} (keep : A → bool) (l : list A) :
  (∀ x, x ∈ l → keep x = true) → List.filter keep l = l.
Proof.
  induction l as [|x rest IH]; [done|]. intros Hall. simpl.
  rewrite (Hall x ltac:(left)). f_equal. apply IH. intros y Hin. apply Hall. by right.
Qed.

Lemma first_with_id_filter_other i j (sources : list stored_source) :
  j ≠ i →
  first_with_id j (List.filter (λ s, negb (Z.eqb (source_id s) i)) sources)
  = first_with_id j sources.
Proof.
  intros Hj. unfold first_with_id. induction sources as [|s rest IH]; [done|]. simpl.
  destruct (Z.eqb (source_id s) i) eqn:Hi; simpl.
  - apply Z.eqb_eq in Hi. assert (Hne : source_id s ≠ j) by lia.
    by rewrite (proj2 (Z.eqb_neq _ _) Hne).
  - destruct (Z.eqb (source_id s) j); [done|exact IH].
Qed.

Lemma first_with_id_filter_same i (sources : list stored_source) :
  first_with_id i (List.filter (λ s, negb (Z.eqb (source_id s) i)) sources) = None.
Proof.
  unfold first_with_id. induction sources as [|s rest IH]; [done|]. simpl.
  destruct (Z.eqb (source_id s) i) eqn:Hi; simpl; [done|]. by rewrite Hi.
Qed.

(** Deleting an id removes every source of that id and nothing else: the
    id is no longer found, every other id is found as before,
    [load_sources] returns what it returned less the sources of that id,
    in the same order, and the answer is [True] exactly when the file
    had such a source.  Otherwise the file is not written. *)
Theorem delete_source_gone (i : Z) (file : sources_file) :
  let kept := List.filter (λ s, negb (Z.eqb (source_id s) i)) in
  (fst (delete_source_from_store None i file) = true
   ↔ ∃ s, s ∈ load_sources_data None file ∧ source_id s = i) ∧
  (fst (delete_source_from_store None i file) = false →
   snd (delete_source_from_store None i file) = file) ∧
  load_sources_data None (snd (delete_source_from_store None i file))
  = kept (load_sources_data None file) ∧
  find_source_by_id_any None i (snd (delete_source_from_store None i file)) = None ∧
  (∀ j, j ≠ i →
     find_source_by_id_any None j (snd (delete_source_from_store None i file))
     = find_source_by_id_any None j file) ∧
  (∀ sources, load_sources None file = Returns sources →
     load_sources None (snd (delete_source_from_store None i file))
     = Returns (kept sources)).
Proof.
  intros kept. unfold delete_source_from_store.
  set (sources := load_sources_data None file). fold (kept sources).
  pose proof (filter_length_lt (λ s, negb (Z.eqb (source_id s) i)) sources) as Hlt.
  fold (kept sources) in Hlt.
  assert (Hsame : (length (kept sources) <? length sources)%nat = false →
                  kept sources = sources).
  { intros Hless. apply filter_all. intros s Hin.
    destruct (negb (Z.eqb (source_id s) i)) eqn:Hs; [done|].
    assert (Hex : ∃ x, x ∈ sources ∧ negb (Z.eqb (source_id x) i) = false) by by exists s.
    apply Hlt in Hex. congruence. }
  assert (Hdata : load_sources_data None
                    (snd (if (length (kept sources) <? length sources)%nat
                          then (true, Holds (kept sources)) else (false, file)))
                  = kept sources).
  { destruct (length (kept sources) <? length sources)%nat eqn:Hless; [done|].
    simpl. fold sources. symmetry. by apply Hsame. }
  split; [|split; [|split; [exact Hdata|split; [|split]]]].
  - destruct (length (kept sources) <? length sources)%nat; simpl.
    + split; [intros _|done]. destruct (proj1 Hlt eq_refl) as (s & Hin & Hs).
      exists s. split; [done|]. apply Z.eqb_eq. by destruct (Z.eqb (source_id s) i).
    + split; [done|]. intros (s & Hin & Hs).
      apply (proj2 Hlt). exists s. split; [done|].
      by rewrite (proj2 (Z.eqb_eq _ _) Hs).
  - by destruct (length (kept sources) <? length sources)%nat.
  - unfold find_source_by_id_any. rewrite Hdata. apply first_with_id_filter_same.
  - intros j Hj. unfold find_source_by_id_any. rewrite Hdata.
    by apply first_with_id_filter_other.
  - intros listed Hlisted. unfold load_sources in Hlisted.
    destruct file as [| |held]; try done. injection Hlisted as <-.
    change sources with held in *.
    assert (Hafter : load_sources None
                       (snd (if (length (kept held) <? length held)%nat
                             then (true, Holds (kept held)) else (false, Holds held)))
                     = Returns (List.filter active (kept held))).
    { destruct (length (kept held) <? length held)%nat eqn:Hless; [done|].
      simpl. by rewrite (Hsame eq_refl). }
    rewrite Hafter. f_equal. unfold kept.
    clear. induction held as [|s rest IH]; [done|]. simpl.
    destruct (Z.eqb (source_id s) i) eqn:Hi, (active s) eqn:Hs; simpl;
      rewrite ?Hi, ?Hs; simpl; by rewrite IH.
Qed.

End SourceStore.

(** ** bot.py: the subscribers file *)

Module Subscribers.

(** A value of [subscribers.json]. *)
Record subscriber := Subscriber {
  chat_id : Z;                  (* "chat_id" *)
  username : string;            (* "username" *)
  first_name : string;          (* "first_name" *)
  sub_active : option json      (* "active", which may be missing *)
}.

(** [d.get("active", True)] as a condition. *)
Definition active (d : subscriber) : bool :=
  match sub_active d with Some v => truthy v | None => true end.

(** The decoded file: a dictionary from [str(chat_id)] to the subscriber,
    in insertion order. *)
Definition subscribers := list (string * subscriber).

Inductive subscribers_file :=
| Missing
| Corrupt
| Holds (subs : subscribers).

(** What the calls on the Supabase object give, each one returning or
    raising. *)
Record supabase := Supabase {
  db_get_active_subscribers : outcome (list Z);
  db_upsert_subscriber : Z → string → string → outcome bool;
  db_deactivate_subscriber : Z → outcome unit
}.

Definition _load_subscribers_json (file : subscribers_file) : subscribers :=
  match file with
  | Missing => []
  | Corrupt => []
  | Holds subs => subs
  end.

(** [subs[key]] for a key that may be missing. *)
Fixpoint subs_get (key : string) (subs : subscribers) : option subscriber :=
  match subs with
  | [] => None
  | (k, d) :: rest => if String.eqb k key then Some d else subs_get key rest
  end.

(** [subs[key] = d]: in place for a key that is there, at the end for a
    new one. *)
Fixpoint subs_set (key : string) (d : subscriber) (subs : subscribers) : subscribers :=
  match subs with
  | [] => [(key, d)]
  | (k, d') :: rest =>
      if String.eqb k key then (k, d) :: rest else (k, d') :: subs_set key d rest
  end.

(** [subs[key]["active"] = False] *)
Definition deactivated (d : subscriber) : subscriber :=
  {| chat_id := chat_id d; username := username d; first_name := first_name d;
     sub_active := Some (JBool false) |}.

(** [add_subscriber]: whether the subscriber is new, and the file
    afterwards.  [db] is [None] when [_use_supabase()] is false. *)
Definition add_subscriber (db : option supabase) (chat : Z) (user first : string)
    (file : subscribers_file) : bool * subscribers_file :=
  let json_fallback :=
    let subs := _load_subscribers_json file in
    let key := pretty chat in
    let is_new :=
      match subs_get key subs with
      | None => true
      | Some d => negb (active d)
      end in
    let subs := subs_set key {| chat_id := chat; username := user; first_name := first;
                              sub_active := Some (JBool true) |} subs in
    (is_new, Holds subs) in
  match db with
  | Some db =>
      match db_upsert_subscriber db chat user first with
      | Returns is_new => (is_new, file)
      | Raises => json_fallback
      end
  | None => json_fallback
  end.

Definition remove_subscriber (db : option supabase) (chat : Z)
    (file : subscribers_file) : subscribers_file :=
  let json_fallback :=
    let subs := _load_subscribers_json file in
    let key := pretty chat in
    match subs_get key subs with
    | Some d => Holds (subs_set key (deactivated d) subs)
    | None => file
    end in
  match db with
  | Some db =>
      match db_deactivate_subscriber db chat with
      | Returns _ => file
      | Raises => json_fallback
      end
  | None => json_fallback
  end.

(** [[d["chat_id"] for d in subs.values() if d.get("active", True)]] *)
Definition active_chats (subs : subscribers) : list Z :=
  map chat_id (List.filter active (map snd subs)).

(** [get_active_subscribers].  [admin] is [None] when [TELEGRAM_CHAT_ID]
    is empty, and otherwise what [int(TELEGRAM_CHAT_ID)] gives. *)
Definition get_active_subscribers (db : option supabase) (admin : option (outcome Z))
    (file : subscribers_file) : outcome (list Z) :=
  let listed :=
    match db with
    | Some db =>
        match db_get_active_subscribers db with
        | Returns listed => listed
        | Raises => []
        end
    | None => []
    end in
  let listed :=
    match listed with
    | [] => active_chats (_load_subscribers_json file)
    | _ => listed
    end in
  match admin with
  | None => Returns listed
  | Some Raises => Raises
  | Some (Returns admin_id) =>
      if bool_decide (admin_id ∈ listed) then Returns listed
      else Returns (listed ++ [admin_id])
  end.

(** The file as [add_subscriber] writes it: every subscriber is filed
    under its own chat id, and no key comes twice. *)
Definition well_formed (file : subscribers_file) : Prop :=
  NoDup (map fst (_load_subscribers_json file)) ∧
  ∀ key d, (key, d) ∈ _load_subscribers_json file → key = pretty (chat_id d).

(** ** The dictionary *)

Lemma subs_get_set key d subs : subs_get key (subs_set key d subs) = Some d.
Proof.
  induction subs as [|[k d'] rest IH]; simpl; [by rewrite String.eqb_refl|].
  destruct (String.eqb k key) eqn:Hk; simpl; by rewrite Hk.
Qed.

Lemma subs_get_set_other key key' d subs :
  key' ≠ key → subs_get key' (subs_set key d subs) = subs_get key' subs.
Proof.
  intros Hne. induction subs as [|[k d'] rest IH]; simpl.
  - by rewrite (proj2 (String.eqb_neq _ _) (not_eq_sym Hne)).
  - destruct (String.eqb k key) eqn:Hk; simpl.
    + apply String.eqb_eq in Hk. subst k.
      by rewrite (proj2 (String.eqb_neq _ _) (not_eq_sym Hne)).
    + by rewrite IH.
Qed.

Lemma subs_get_elem key d subs : subs_get key subs = Some d → (key, d) ∈ subs.
Proof.
  induction subs as [|[k d'] rest IH]; simpl; [done|].
  destruct (String.eqb k key) eqn:Hk.
  - apply String.eqb_eq in Hk. intros [= ->]. subst k. left.
  - intros Hrest. right. by apply IH.
Qed.

Lemma elem_subs_get key d subs :
  NoDup (map fst subs) → (key, d) ∈ subs → subs_get key subs = Some d.
Proof.
  induction subs as [|[k d'] rest IH]; simpl; intros Hkeys Hin;
    [by apply elem_of_nil in Hin|].
  apply NoDup_cons in Hkeys as [Hfresh Hkeys].
  apply elem_of_cons in Hin as [[= -> ->]|Hin]; [by rewrite String.eqb_refl|].
  destruct (String.eqb k key) eqn:Hk; [|by apply IH].
  apply String.eqb_eq in Hk. subst k. destruct Hfresh.
  by apply (list_elem_of_fmap_2 fst _ (key, d)).
Qed.

Lemma subs_set_elem key d subs k x :
  (k, x) ∈ subs_set key d subs → (k = key ∧ x = d) ∨ (k, x) ∈ subs.
Proof.
  induction subs as [|[k' d'] rest IH]; simpl.
  - intros Hin. apply list_elem_of_singleton in Hin. injection Hin as -> ->. by left.
  - destruct (String.eqb k' key) eqn:Hk.
    + apply String.eqb_eq in Hk. subst k'. intros Hin.
      apply elem_of_cons in Hin as [[= -> ->]|Hin]; [by left|right; by right].
    + intros Hin. apply elem_of_cons in Hin as [[= -> ->]|Hin]; [right; left|].
      destruct (IH Hin) as [Hnew|Hold]; [by left|right; by right].
Qed.

Lemma subs_set_keys key d subs :
  NoDup (map fst subs) → NoDup (map fst (subs_set key d subs)).
Proof.
  induction subs as [|[k d'] rest IH]; simpl; intros Hkeys.
  - apply NoDup_singleton.
  - apply NoDup_cons in Hkeys as [Hfresh Hkeys].
    destruct (String.eqb k key) eqn:Hk; simpl; apply NoDup_cons; [done|].
    split; [|by apply IH].
    intros Hin. apply list_elem_of_fmap in Hin as ([k' x] & Hfst & Hin). simpl in Hfst.
    subst k'. destruct (subs_set_elem key d rest k x Hin) as [[-> _]|Hold].
    + by rewrite String.eqb_refl in Hk.
    + apply Hfresh. by apply (list_elem_of_fmap_2 fst _ (k, x)).
Qed.

(** ** The file *)

Lemma elem_of_bool_filter {A} (keep : A → bool) (l : list A) (x : A) :
  x ∈ List.filter keep l ↔ x ∈ l ∧ keep x = true.
Proof. rewrite !list_elem_of_In. apply filter_In. Qed.

Lemma bool_filter_sublist {A} (keep : A → bool) (l : list A) :
  List.filter keep l `sublist_of` l.
Proof.
  induction l as [|x rest IH]; [done|]. simpl.
  destruct (keep x); [by apply sublist_skip|by apply sublist_cons].
Qed.

Lemma subs_set_well_formed file d :
  well_formed file →
  well_formed (Holds (subs_set (pretty (chat_id d)) d (_load_subscribers_json file))).
Proof.
  intros [Hkeys Hfiled]. split; simpl; [by apply subs_set_keys|].
  intros key x Hin. destruct (subs_set_elem _ _ _ _ _ Hin) as [[-> ->]|Hold]; [done|].
  by apply Hfiled.
Qed.

Lemma active_chats_spec file (chat : Z) :
  well_formed file →
  chat ∈ active_chats (_load_subscribers_json file)
  ↔ ∃ d, subs_get (pretty chat) (_load_subscribers_json file) = Some d ∧ active d = true.
Proof.
  intros [Hkeys Hfiled]. unfold active_chats. split.
  - intros Hin. apply list_elem_of_fmap in Hin as (d & -> & Hin).
    apply elem_of_bool_filter in Hin as [Hin Hactive].
    apply list_elem_of_fmap in Hin as ([key d'] & -> & Hin). simpl in *.
    exists d'. split; [|done].
    rewrite <- (Hfiled key d' Hin). by apply elem_subs_get.
  - intros (d & Hd & Hactive). apply subs_get_elem in Hd.
    pose proof (Hfiled _ _ Hd) as Hkey. apply (inj pretty) in Hkey. rewrite Hkey.
    apply list_elem_of_fmap_2, elem_of_bool_filter. split; [|done].
    by apply (list_elem_of_fmap_2 snd _ (pretty chat, d)).
Qed.

Lemma active_chats_distinct file :
  well_formed file → NoDup (active_chats (_load_subscribers_json file)).
Proof.
  intros [Hkeys Hfiled]. unfold active_chats.
  assert (Hchats : NoDup (map chat_id (map snd (_load_subscribers_json file)))).
  { apply (NoDup_fmap_1 pretty).
    replace (pretty <$> map chat_id (map snd (_load_subscribers_json file)))
      with (map fst (_load_subscribers_json file)); [done|].
    induction (_load_subscribers_json file) as [|[k d] rest IH]; [done|]. simpl.
    rewrite (Hfiled k d ltac:(left)). f_equal. apply IH.
    - by apply NoDup_cons in Hkeys as [_ Hkeys].
    - intros key x Hin. apply Hfiled. by right. }
  eapply sublist_NoDup; [exact Hchats|].
  apply (fmap_sublist chat_id), bool_filter_sublist.
Qed.

(** Without Supabase, on a file in which every subscriber is filed under
    its own chat id: a chat is listed after it subscribed and is not
    after it unsubscribed, no other chat becomes or stops being listed,
    the file keeps its shape, and [add_subscriber] answers [True] exactly
    for a chat that was not listed.  The chats that get a notification
    are the listed ones and the administrator, each exactly once, also
    when the administrator unsubscribed. *)
Theorem subscribers_listed (chat : Z) (user first : string) (file : subscribers_file) :
  well_formed file →
  let listed file := active_chats (_load_subscribers_json file) in
  let added := snd (add_subscriber None chat user first file) in
  let removed := remove_subscriber None chat file in
  (fst (add_subscriber None chat user first file) = true ↔ chat ∉ listed file) ∧
  well_formed added ∧ well_formed removed ∧
  chat ∈ listed added ∧ (chat ∉ listed removed) ∧
  (∀ other, other ≠ chat →
     (other ∈ listed added ↔ other ∈ listed file) ∧
     (other ∈ listed removed ↔ other ∈ listed file)) ∧
  ∀ (current : subscribers_file) (admin : option Z),
    current = file ∨ current = added ∨ current = removed →
    ∃ notified,
      get_active_subscribers None (Returns <$> admin) current = Returns notified ∧
      NoDup notified ∧
      ∀ c, c ∈ notified ↔ c ∈ listed current ∨ admin = Some c.
Proof.
  intros Hfile listed added removed.
  set (new := {| chat_id := chat; username := user; first_name := first;
                 sub_active := Some (JBool true) |}).
  assert (Hadded : well_formed added) by apply (subs_set_well_formed file new Hfile).
  assert (Hremoved : well_formed removed).
  { unfold removed, remove_subscriber.
    destruct (subs_get (pretty chat) (_load_subscribers_json file)) as [d|] eqn:Hd; [|done].
    pose proof (subs_get_elem _ _ _ Hd) as Hin.
    pose proof (proj2 Hfile _ _ Hin) as Hkey. apply (inj pretty) in Hkey.
    rewrite Hkey at 1. change (chat_id d) with (chat_id (deactivated d)).
    by apply subs_set_well_formed. }
  assert (Hafter_add : ∀ key,
            subs_get key (_load_subscribers_json added)
            = if decide (key = pretty chat) then Some new
              else subs_get key (_load_subscribers_json file)).
  { intros key. simpl. destruct (decide (key = pretty chat)) as [->|Hne].
    - apply subs_get_set.
    - by apply subs_get_set_other. }
  assert (Hafter_remove : ∀ key,
            subs_get key (_load_subscribers_json removed)
            = if decide (key = pretty chat)
              then deactivated <$> subs_get key (_load_subscribers_json file)
              else subs_get key (_load_subscribers_json file)).
  { intros key. unfold removed, remove_subscriber.
    destruct (subs_get (pretty chat) (_load_subscribers_json file)) as [d|] eqn:Hd.
    - simpl. destruct (decide (key = pretty chat)) as [->|Hne].
      + by rewrite subs_get_set, Hd.
      + by apply subs_get_set_other.
    - destruct (decide (key = pretty chat)) as [->|Hne]; [by rewrite Hd|done]. }
  split; [|split; [done|split; [done|split; [|split; [|split]]]]].
  - unfold add_subscriber, listed. simpl. rewrite (active_chats_spec file chat Hfile).
    destruct (subs_get (pretty chat) (_load_subscribers_json file)) as [d|].
    + split.
      * intros Hnew (d' & [= <-] & Hactive). by rewrite Hactive in Hnew.
      * intros Hnot. destruct (active d) eqn:Hactive; [|done].
        destruct Hnot. by exists d.
    + split; [|done]. by intros _ (d & Hd & _).
  - unfold listed. apply (active_chats_spec added chat Hadded).
    exists new. by rewrite Hafter_add, decide_True.
  - unfold listed. rewrite (active_chats_spec removed chat Hremoved).
    intros (d & Hd & Hactive). rewrite Hafter_remove, decide_True in Hd by done.
    destruct (subs_get (pretty chat) (_load_subscribers_json file)); [|done].
    injection Hd as <-. done.
  - intros other Hother. unfold listed.
    rewrite (active_chats_spec added other Hadded),
      (active_chats_spec removed other Hremoved), (active_chats_spec file other Hfile).
    assert (Hkey : pretty other ≠ pretty chat) by (intros Heq; by apply (inj pretty) in Heq).
    by rewrite Hafter_add, Hafter_remove, !decide_False.
  - intros current admin Hcurrent.
    assert (Hshape : well_formed current) by by destruct Hcurrent as [->|[->| ->]].
    pose proof (active_chats_distinct current Hshape) as Hdistinct.
    unfold get_active_subscribers. cbn [fmap option_fmap option_map].
    change (active_chats (_load_subscribers_json current)) with (listed current).
    destruct admin as [admin_id|]; cbn [fmap option_fmap option_map].
    + destruct (bool_decide (admin_id ∈ listed current)) eqn:Hadmin;
        [apply bool_decide_eq_true in Hadmin|apply bool_decide_eq_false in Hadmin];
        eexists; (split; [reflexivity|]).
      * split; [done|]. intros c. split; [by left|].
        intros [Hc|Hc]; [done|]. by injection Hc as <-.
      * split.
        -- apply NoDup_app. split; [done|]. split; [|apply NoDup_singleton].
           intros c Hc Hnew. apply list_elem_of_singleton in Hnew. by subst c.
        -- intros c. rewrite elem_of_app, list_elem_of_singleton. split.
           ++ intros [Hc| ->]; [by left|by right].
           ++ intros [Hc|Hc]; [by left|right; by injection Hc as <-].
    + eexists. split; [reflexivity|]. split; [done|].
      intros c. split; [by left|]. by intros [Hc|Hc].
Qed.

End Subscribers.

(** ** A file with a subscriber who left *)

Module SubscriberExamples.

Definition two_subscribers : Subscribers.subscribers_file :=
  Subscribers.Holds
    [("7", Subscribers.Subscriber 7 "ani" "Ani" None);
     ("9", Subscribers.Subscriber 9 "budi" "Budi" (Some (JBool false)))].

Lemma two_subscribers_well_formed : Subscribers.well_formed two_subscribers.
Proof.
  split.
  - simpl. apply NoDup_cons. split.
    + intros Hin. apply list_elem_of_singleton in Hin. discriminate Hin.
    + apply NoDup_singleton.
  - intros key d Hin. simpl in Hin.
    apply elem_of_cons in Hin as [Hin|Hin]; [by injection Hin as -> ->|].
    apply list_elem_of_singleton in Hin. by injection Hin as -> ->.
Qed.

(** Only the first subscriber is listed; the administrator, who left, is
    notified all the same. *)
Example administrator_still_notified :
  Subscribers.get_active_subscribers None (Some (Returns 9)) two_subscribers
  = Returns [7; 9].
Proof. reflexivity. Qed.

Lemma subscribers_listed_witness :
  Subscribers.well_formed two_subscribers ∧
  fst (Subscribers.add_subscriber None 9 "budi" "Budi" two_subscribers) = true ∧
  9 ∈ Subscribers.active_chats
        (Subscribers._load_subscribers_json
           (snd (Subscribers.add_subscriber None 9 "budi" "Budi" two_subscribers))) ∧
  (7 ∈ Subscribers.active_chats
         (Subscribers._load_subscribers_json
            (Subscribers.remove_subscriber None 9 two_subscribers))
   ↔ 7 ∈ Subscribers.active_chats (Subscribers._load_subscribers_json two_subscribers)).
Proof.
  pose proof (Subscribers.subscribers_listed 9 "budi" "Budi" two_subscribers
                two_subscribers_well_formed) as Hlisted.
  cbv zeta in Hlisted.
  destruct Hlisted as (Hnew & _ & _ & Hadded & _ & Hothers & _).
  split; [exact two_subscribers_well_formed|]. split; [reflexivity|].
  split; [exact Hadded|]. apply (Hothers 7). discriminate.
Defined.

End SubscriberExamples.
